(** * The in-memory data layer of the nature-food tracker

    A shallow embedding of [backend/src/models/DataStore.ts] (class
    [DataStore]) and of the handlers of [controllers/stockController.ts] and
    [controllers/priceController.ts] that check a request and call the
    store.

    Modelling conventions.
    - A JavaScript [number] is an exact rational ([Q]); numeric equality
      ([===] on numbers) is [Qeq].  Rounding of IEEE doubles is outside the
      model: the theorems are about which formula is applied to which
      fields, not about rounding.
    - A field that the code guards against being missing ([x || 0],
      [x !== undefined]), or that an update can leave without a value, has
      type [option Q]: [None] is [undefined].  The buckets of the price
      analysis hold sums of such values: there [None] is the [NaN] that a
      sum with a missing term gives.
    - The object that an update spreads over a stored element is a record
      of optional keys: [None] is a key that is not in the object, and a key
      that is in the object holds a value of the field's type, which for a
      field of type [option _] may be [undefined].
    - [uuidv4()] and [new Date()] are inputs of the operation that calls
      them.  Of a [Date] the store only ever reads [getFullYear()].
    - The three arrays of the store are lists; [findIndex]/[find] are
      stdpp's [list_find], [arr[i] = x] is [<[i:=x]>], [splice(i, 1)] is
      [delete i].
    - A [Record<number, ...>] indexed by year is a [gmap Z]. *)

From Stdlib Require Import QArith Qabs Lqa.
From stdpp Require Import gmap strings list fin_maps sorting.

Local Open Scope Q_scope.

(** ** JavaScript numbers and their coercions *)

Module Js.

(** [x] used as a condition: [undefined] and [0] are falsy. *)
Definition truthy (x : option Q) : bool :=
  match x with
  | Some q => negb (Qeq_bool q 0)
  | None => false
  end.

(** [x || d] where [d] is a number. *)
Definition or_else (x : option Q) (d : Q) : Q :=
  match x with
  | Some q => if Qeq_bool q 0 then d else q
  | None => d
  end.

(** [x > y]; a comparison with [undefined] is false. *)
Definition gt (x : option Q) (y : Q) : bool :=
  match x with
  | Some q => negb (Qle_bool q y)
  | None => false
  end.

(** [x === y] for a number [y]. *)
Definition strict_eq (x : option Q) (y : Q) : bool :=
  match x with
  | Some q => Qeq_bool q y
  | None => false
  end.

(** [Math.abs(x - e) > tol]; [undefined - e] is [NaN], and every
    comparison with [NaN] is false. *)
Definition abs_diff_gt (x : option Q) (e tol : Q) : bool :=
  match x with
  | Some q => negb (Qle_bool (Qabs (q - e)) tol)
  | None => false
  end.

(** The field [x] holds a number equal to [v]. *)
Definition is_num (x : option Q) (v : Q) : Prop :=
  match x with
  | Some q => q == v
  | None => False
  end.

(** A string used as a condition: the empty string is falsy. *)
Definition nonempty (s : string) : bool :=
  match s with
  | EmptyString => false
  | String _ _ => true
  end.

(** [x + y] and [x - y] where an operand may be [undefined] or [NaN]: the
    result is then [NaN]. *)
Definition plus (x y : option Q) : option Q :=
  match x, y with
  | Some a, Some b => Some (a + b)
  | _, _ => None
  end.

Definition minus (x y : option Q) : option Q :=
  match x, y with
  | Some a, Some b => Some (a - b)
  | _, _ => None
  end.

(** A number that is passed around as such: [NaN], which [parseInt]
    returns for a string that does not start with digits, or a value. *)
Inductive number :=
  | NaN
  | Num (q : Q).

(** A number used as a condition: [NaN] and [0] are falsy. *)
Definition number_truthy (x : number) : bool :=
  match x with
  | NaN => false
  | Num q => negb (Qeq_bool q 0)
  end.

End Js.

(** ** Data model ([types/index.ts]) *)

Inductive Category := berry | mushroom.

#[global] Instance Category_eq_dec : EqDecision Category.
Proof. solve_decision. Defined.

Record JsDate := mkDate { getFullYear : Z; withinYear : Z }.

Module User.
Record t := mk {
  id : string;
  aliasName : string;
  createdAt : JsDate;
  revenue : Q;
  profit : Q
}.
End User.

Module StockItem.
Record t := mk {
  id : string;
  userId : string;
  type : Category;
  species : string;
  quantity : Q;
  unitPrice : option Q;
  buyPrice : option Q;
  sellPrice : option Q;
  totalRevenue : option Q;
  totalCost : option Q;
  totalProfit : option Q;
  totalPrice : option Q;
  location : option string;
  collectedAt : JsDate;
  notes : option string
}.
End StockItem.

(** [Omit<StockItem, 'id' | 'collectedAt' | 'totalPrice' | 'totalRevenue' |
    'totalCost' | 'totalProfit'>], the argument of [createStockItem]. *)
Module StockItemData.
Record t := mk {
  userId : string;
  type : Category;
  species : string;
  quantity : Q;
  unitPrice : option Q;
  buyPrice : option Q;
  sellPrice : option Q;
  location : option string;
  notes : option string
}.
End StockItemData.

(** The argument [updates] of [updateStockItem].  It is declared as
    [Partial<Omit<StockItem, 'id' | 'userId' | 'collectedAt' | 'totalPrice' |
    'totalRevenue' | 'totalCost' | 'totalProfit'>>], but the handler of
    [PUT /api/stock/:id] passes the request body as it is, and the spread
    copies every key it finds: so every key of a record may be in the object.
    [None] is a key that is not in it; [Some None], for the fields that a
    record may lack, is a key that holds [undefined].  A key of [id],
    [userId], [type], [species], [quantity] or [collectedAt], when it is in
    the object, holds a value of the type that the record declares for it. *)
Module StockItemUpdates.
Record t := mk {
  id : option string;
  userId : option string;
  type : option Category;
  species : option string;
  quantity : option Q;
  unitPrice : option (option Q);
  buyPrice : option (option Q);
  sellPrice : option (option Q);
  totalRevenue : option (option Q);
  totalCost : option (option Q);
  totalProfit : option (option Q);
  totalPrice : option (option Q);
  location : option (option string);
  collectedAt : option JsDate;
  notes : option (option string)
}.

End StockItemUpdates.

(** A price entry.  Its two prices are declared as numbers, but
    [updatePrice] can leave an entry without one of them. *)
Module Price.
Record t := mk {
  id : string;
  type : Category;
  species : string;
  year : Z;
  buyPrice : option Q;
  sellPrice : option Q;
  updatedAt : JsDate
}.
End Price.

(** [Omit<Price, 'id' | 'updatedAt'>]. *)
Module PriceData.
Record t := mk {
  type : Category;
  species : string;
  year : Z;
  buyPrice : Q;
  sellPrice : Q
}.
End PriceData.

(** [Partial<Omit<Price, 'id' | 'type' | 'species' | 'year'>>]; its
    [updatedAt], when present, is overwritten by [updatePrice].  [None] is a
    key that is not in the object, [Some None] a key that holds [undefined]:
    the handler of [PUT /api/prices/:id] passes [{ buyPrice, sellPrice }],
    with both keys, whatever the request named. *)
Module PriceUpdates.
Record t := mk {
  buyPrice : option (option Q);
  sellPrice : option (option Q)
}.
End PriceUpdates.

(** One bucket of a yearly summary. *)
Module YearData.
Record t := mk {
  revenue : Q;
  cost : Q;
  profit : Q;
  itemCount : Z
}.

Definition zero : t := mk 0 0 0 0.
End YearData.

(** One bucket of the price analysis.  Its sums are taken over the prices
    of the entries as they are stored: a sum with a missing price is [NaN],
    written [None]. *)
Module PriceYearData.
Record t := mk {
  revenue : option Q;
  cost : option Q;
  profit : option Q;
  itemCount : Z
}.

Definition zero : t := mk (Some 0) (Some 0) (Some 0) 0.
End PriceYearData.

(** The private state of the [DataStore] object. *)
Record DataStore := mkStore {
  users : list User.t;
  stockItems : list StockItem.t;
  prices : list Price.t
}.

Definition emptyStore : DataStore := mkStore [] [] [].

Definition set_stockItems (ds : DataStore) (l : list StockItem.t) : DataStore :=
  mkStore (users ds) l (prices ds).

Definition set_prices (ds : DataStore) (l : list Price.t) : DataStore :=
  mkStore (users ds) (stockItems ds) l.

(** ** Stock item operations *)

(** The fields computed by [createStockItem] before it builds the record. *)
Definition effectiveBuyPrice (d : StockItemData.t) : Q :=
  Js.or_else (StockItemData.buyPrice d) 0.

Definition effectiveSellPrice (d : StockItemData.t) : Q :=
  Js.or_else (StockItemData.sellPrice d) (Js.or_else (StockItemData.unitPrice d) 0).

(** Whether [createStockItem] writes its consistency warning to the console. *)
Definition createStockItem_warns (d : StockItemData.t) : bool :=
  Js.gt (Some (effectiveSellPrice d)) 0
  && Js.strict_eq (Some (effectiveBuyPrice d)) 0
  && negb (Js.truthy (StockItemData.unitPrice d)).

Definition newStockItem (uuid : string) (now : JsDate) (d : StockItemData.t)
  : StockItem.t :=
  let buyPrice := effectiveBuyPrice d in
  let sellPrice := effectiveSellPrice d in
  let unitPrice := Js.or_else (StockItemData.unitPrice d) sellPrice in
  let totalRevenue := (StockItemData.quantity d * sellPrice) / 1000 in
  let totalCost := (StockItemData.quantity d * buyPrice) / 1000 in
  let totalProfit := totalRevenue - totalCost in
  let totalPrice := totalRevenue in
  {| StockItem.id := uuid;
     StockItem.userId := StockItemData.userId d;
     StockItem.type := StockItemData.type d;
     StockItem.species := StockItemData.species d;
     StockItem.quantity := StockItemData.quantity d;
     StockItem.location := StockItemData.location d;
     StockItem.notes := StockItemData.notes d;
     StockItem.unitPrice := Some unitPrice;
     StockItem.buyPrice := Some buyPrice;
     StockItem.sellPrice := Some sellPrice;
     StockItem.totalRevenue := Some totalRevenue;
     StockItem.totalCost := Some totalCost;
     StockItem.totalProfit := Some totalProfit;
     StockItem.totalPrice := Some totalPrice;
     StockItem.collectedAt := now |}.

(** [createStockItem(stockItemData)]: returns the new record and pushes it. *)
Definition createStockItem (uuid : string) (now : JsDate) (d : StockItemData.t)
    (ds : DataStore) : StockItem.t * DataStore :=
  let stockItem := newStockItem uuid now d in
  (stockItem, set_stockItems ds (stockItems ds ++ [stockItem])).

(** One field of [{ ...old, ...updates }]: a key that is in [updates]
    replaces the old value by the value it holds, whatever that is. *)
Definition spread {A} (old : A) (new : option A) : A :=
  match new with
  | Some v => v
  | None => old
  end.

(** [{ ...this.stockItems[index], ...updates }]. *)
Definition mergeUpdates (old : StockItem.t) (u : StockItemUpdates.t) : StockItem.t :=
  {| StockItem.id := spread (StockItem.id old) (StockItemUpdates.id u);
     StockItem.userId := spread (StockItem.userId old) (StockItemUpdates.userId u);
     StockItem.type := spread (StockItem.type old) (StockItemUpdates.type u);
     StockItem.species := spread (StockItem.species old) (StockItemUpdates.species u);
     StockItem.quantity := spread (StockItem.quantity old) (StockItemUpdates.quantity u);
     StockItem.unitPrice :=
       spread (StockItem.unitPrice old) (StockItemUpdates.unitPrice u);
     StockItem.buyPrice := spread (StockItem.buyPrice old) (StockItemUpdates.buyPrice u);
     StockItem.sellPrice :=
       spread (StockItem.sellPrice old) (StockItemUpdates.sellPrice u);
     StockItem.totalRevenue :=
       spread (StockItem.totalRevenue old) (StockItemUpdates.totalRevenue u);
     StockItem.totalCost :=
       spread (StockItem.totalCost old) (StockItemUpdates.totalCost u);
     StockItem.totalProfit :=
       spread (StockItem.totalProfit old) (StockItemUpdates.totalProfit u);
     StockItem.totalPrice :=
       spread (StockItem.totalPrice old) (StockItemUpdates.totalPrice u);
     StockItem.location := spread (StockItem.location old) (StockItemUpdates.location u);
     StockItem.collectedAt :=
       spread (StockItem.collectedAt old) (StockItemUpdates.collectedAt u);
     StockItem.notes := spread (StockItem.notes old) (StockItemUpdates.notes u) |}.

(** ['quantity' in updates || 'unitPrice' in updates || 'buyPrice' in updates
    || 'sellPrice' in updates]: a key counts also when it holds
    [undefined]. *)
Definition touchesPrices (u : StockItemUpdates.t) : bool :=
  bool_decide (is_Some (StockItemUpdates.quantity u))
  || bool_decide (is_Some (StockItemUpdates.unitPrice u))
  || bool_decide (is_Some (StockItemUpdates.buyPrice u))
  || bool_decide (is_Some (StockItemUpdates.sellPrice u)).

(** The body of the [if] of [updateStockItem]. *)
Definition recalculate (m : StockItem.t) : StockItem.t :=
  let buyPrice := Js.or_else (StockItem.buyPrice m) 0 in
  let sellPrice := Js.or_else (StockItem.sellPrice m) (Js.or_else (StockItem.unitPrice m) 0) in
  let totalRevenue := (StockItem.quantity m * sellPrice) / 1000 in
  let totalCost := (StockItem.quantity m * buyPrice) / 1000 in
  {| StockItem.id := StockItem.id m;
     StockItem.userId := StockItem.userId m;
     StockItem.type := StockItem.type m;
     StockItem.species := StockItem.species m;
     StockItem.quantity := StockItem.quantity m;
     StockItem.unitPrice := Some sellPrice;
     StockItem.buyPrice := StockItem.buyPrice m;
     StockItem.sellPrice := StockItem.sellPrice m;
     StockItem.totalRevenue := Some totalRevenue;
     StockItem.totalCost := Some totalCost;
     StockItem.totalProfit := Some (totalRevenue - totalCost);
     StockItem.totalPrice := Some totalRevenue;
     StockItem.location := StockItem.location m;
     StockItem.collectedAt := StockItem.collectedAt m;
     StockItem.notes := StockItem.notes m |}.

Definition updatedStockItem (old : StockItem.t) (u : StockItemUpdates.t) : StockItem.t :=
  let updatedItem := mergeUpdates old u in
  if touchesPrices u then recalculate updatedItem else updatedItem.

(** [updateStockItem(id, updates)]: [None] is [null]. *)
Definition updateStockItem (id : string) (u : StockItemUpdates.t) (ds : DataStore)
  : option StockItem.t * DataStore :=
  match list_find (λ item, StockItem.id item = id) (stockItems ds) with
  | None => (None, ds)
  | Some (index, old) =>
      let updatedItem := updatedStockItem old u in
      (Some updatedItem, set_stockItems ds (<[index := updatedItem]> (stockItems ds)))
  end.

(** [deleteStockItem(id)]. *)
Definition deleteStockItem (id : string) (ds : DataStore) : bool * DataStore :=
  match list_find (λ item, StockItem.id item = id) (stockItems ds) with
  | None => (false, ds)
  | Some (index, _) => (true, set_stockItems ds (delete index (stockItems ds)))
  end.

Definition getStockItemsByUser (userId : string) (ds : DataStore) : list StockItem.t :=
  filter (λ item, StockItem.userId item = userId) (stockItems ds).

Definition getStockItemById (id : string) (ds : DataStore) : option StockItem.t :=
  snd <$> list_find (λ item, StockItem.id item = id) (stockItems ds).

(** ** User operations *)

Definition createUser (uuid : string) (now : JsDate) (aliasName : string)
    (ds : DataStore) : User.t * DataStore :=
  let user := User.mk uuid aliasName now 0 0 in
  (user, mkStore (users ds ++ [user]) (stockItems ds) (prices ds)).

(** [item.totalRevenue || item.totalPrice || 0]. *)
Definition itemRevenue (item : StockItem.t) : Q :=
  Js.or_else (StockItem.totalRevenue item) (Js.or_else (StockItem.totalPrice item) 0).

(** [item.totalProfit || (item.totalRevenue || item.totalPrice || 0)]. *)
Definition itemProfitOrRevenue (item : StockItem.t) : Q :=
  Js.or_else (StockItem.totalProfit item) (itemRevenue item).

(** [items.reduce((total, item) => total + f(item), 0)]. *)
Definition sumOver {A} (f : A → Q) (items : list A) : Q :=
  fold_left (λ total item, total + f item) items 0.

(** [{ ...user, revenue: userRevenue, profit: userProfit }] for the items of
    user [id]. *)
Definition withTotals (id : string) (user : User.t) (ds : DataStore) : User.t :=
  let userItems := filter (λ item, StockItem.userId item = id) (stockItems ds) in
  let userRevenue := sumOver itemRevenue userItems in
  let userProfit := sumOver itemProfitOrRevenue userItems in
  User.mk (User.id user) (User.aliasName user) (User.createdAt user)
          userRevenue userProfit.

Definition getUserById (id : string) (ds : DataStore) : option User.t :=
  match list_find (λ user, User.id user = id) (users ds) with
  | None => None
  | Some (_, user) => Some (withTotals id user ds)
  end.

Definition getAllUsers (ds : DataStore) : list User.t :=
  (λ user, withTotals (User.id user) user ds) <$> users ds.

(** ** Yearly profit of a user *)

(** The "proper sale" filter of [getUserProfitByYear]. *)
Definition isProperSale (item : StockItem.t) : bool :=
  Js.gt (StockItem.sellPrice item) 0 && Js.gt (StockItem.buyPrice item) 0.

Definition saleRevenue (item : StockItem.t) : Q := itemRevenue item.

Definition saleCost (item : StockItem.t) : Q :=
  Js.or_else (StockItem.totalCost item) 0.

(** [item.totalProfit !== undefined ? item.totalProfit : (revenue - cost)]. *)
Definition saleProfit (item : StockItem.t) : Q :=
  match StockItem.totalProfit item with
  | Some p => p
  | None => saleRevenue item - saleCost item
  end.

(** One turn of a [forEach] that fills [yearlyData]: create the bucket of
    [year] when it is missing, then add to its four fields. *)
Definition addToYear (year : Z) (revenue cost profit : Q)
    (yearlyData : gmap Z YearData.t) : gmap Z YearData.t :=
  let bucket := default YearData.zero (yearlyData !! year) in
  <[year := YearData.mk (YearData.revenue bucket + revenue)
                        (YearData.cost bucket + cost)
                        (YearData.profit bucket + profit)
                        (YearData.itemCount bucket + 1)]> yearlyData.

Definition salesOfUser (userId : string) (typeFilter : option Category)
    (ds : DataStore) : list StockItem.t :=
  let userItems := filter (λ item, StockItem.userId item = userId) (stockItems ds) in
  let userItems := filter (λ item, isProperSale item) userItems in
  match typeFilter with
  | Some t => filter (λ item, StockItem.type item = t) userItems
  | None => userItems
  end.

Definition getUserProfitByYear (userId : string) (typeFilter : option Category)
    (ds : DataStore) : gmap Z YearData.t :=
  fold_left
    (λ yearlyData item,
       addToYear (getFullYear (StockItem.collectedAt item))
                 (saleRevenue item) (saleCost item) (saleProfit item) yearlyData)
    (salesOfUser userId typeFilter ds) ∅.

(** ** Price monitoring operations *)

(** The natural key of a price: type, species and year. *)
Definition priceKey (p : Price.t) : Category * string * Z :=
  (Price.type p, Price.species p, Price.year p).

Definition sameTriple (d : PriceData.t) (p : Price.t) : Prop :=
  Price.type p = PriceData.type d
  ∧ Price.species p = PriceData.species d
  ∧ Price.year p = PriceData.year d.

#[global] Instance sameTriple_dec d p : Decision (sameTriple d p).
Proof. unfold sameTriple. apply _. Defined.

(** [createPrice(priceData)]: overwrite the entry of the same type, species
    and year when there is one, push a new entry otherwise. *)
Definition createPrice (uuid : string) (now : JsDate) (d : PriceData.t)
    (ds : DataStore) : Price.t * DataStore :=
  let price :=
    Price.mk uuid (PriceData.type d) (PriceData.species d) (PriceData.year d)
             (Some (PriceData.buyPrice d)) (Some (PriceData.sellPrice d)) now in
  match list_find (sameTriple d) (prices ds) with
  | Some (existingIndex, existing) =>
      let updated :=
        Price.mk (Price.id existing) (PriceData.type d) (PriceData.species d)
                 (PriceData.year d) (Some (PriceData.buyPrice d))
                 (Some (PriceData.sellPrice d)) now in
      (updated, set_prices ds (<[existingIndex := updated]> (prices ds)))
  | None => (price, set_prices ds (prices ds ++ [price]))
  end.

(** [updatePrice(id, updates)]: the entry becomes
    [{ ...this.prices[index], ...updates, updatedAt: new Date() }]. *)
Definition updatePrice (id : string) (now : JsDate) (u : PriceUpdates.t)
    (ds : DataStore) : option Price.t * DataStore :=
  match list_find (λ price, Price.id price = id) (prices ds) with
  | None => (None, ds)
  | Some (index, old) =>
      let updated :=
        Price.mk (Price.id old) (Price.type old) (Price.species old) (Price.year old)
                 (spread (Price.buyPrice old) (PriceUpdates.buyPrice u))
                 (spread (Price.sellPrice old) (PriceUpdates.sellPrice u))
                 now in
      (Some updated, set_prices ds (<[index := updated]> (prices ds)))
  end.

(** [deletePrice(id)]. *)
Definition deletePrice (id : string) (ds : DataStore) : bool * DataStore :=
  match list_find (λ price, Price.id price = id) (prices ds) with
  | None => (false, ds)
  | Some (index, _) => (true, set_prices ds (delete index (prices ds)))
  end.

(** [arr.sort((a, b) => b.year - a.year)]: [Array.prototype.sort] is a
    stable sort, so the result is the stable arrangement by descending
    year; it is computed here by insertion from the right. *)
Fixpoint insertByYearDesc (p : Price.t) (l : list Price.t) : list Price.t :=
  match l with
  | [] => [p]
  | q :: l' =>
      if (Price.year q <=? Price.year p)%Z then p :: q :: l'
      else q :: insertByYearDesc p l'
  end.

Definition sortByYearDesc (l : list Price.t) : list Price.t :=
  foldr insertByYearDesc [] l.

Definition forSpecies (type : Category) (species : string) (p : Price.t) : Prop :=
  Price.type p = type ∧ Price.species p = species.

#[global] Instance forSpecies_dec t s p : Decision (forSpecies t s p).
Proof. unfold forSpecies. apply _. Defined.

(** [getCurrentPrice(type, species)]; [currentYear] is
    [new Date().getFullYear()]. *)
Definition getCurrentPrice (currentYear : Z) (type : Category) (species : string)
    (ds : DataStore) : option Price.t :=
  match list_find (λ p, forSpecies type species p ∧ Price.year p = currentYear)
                  (prices ds) with
  | Some (_, price) => Some price
  | None =>
      let pricesForSpecies :=
        sortByYearDesc (filter (forSpecies type species) (prices ds)) in
      head pricesForSpecies
  end.

Definition pricesOfType (typeFilter : option Category) (ds : DataStore)
  : list Price.t :=
  match typeFilter with
  | Some t => filter (λ price, Price.type price = t) (prices ds)
  | None => prices ds
  end.

(** One turn of the [forEach] of [getPriceProfitAnalysis]. *)
Definition addPrice (yearlyData : gmap Z PriceYearData.t) (price : Price.t)
  : gmap Z PriceYearData.t :=
  let year := Price.year price in
  let bucket := default PriceYearData.zero (yearlyData !! year) in
  let profitPerKg := Js.minus (Price.sellPrice price) (Price.buyPrice price) in
  <[year := PriceYearData.mk
              (Js.plus (PriceYearData.revenue bucket) (Price.sellPrice price))
              (Js.plus (PriceYearData.cost bucket) (Price.buyPrice price))
              (Js.plus (PriceYearData.profit bucket) profitPerKg)
              (PriceYearData.itemCount bucket + 1)]> yearlyData.

(** [getPriceProfitAnalysis(typeFilter)]. *)
Definition getPriceProfitAnalysis (typeFilter : option Category) (ds : DataStore)
  : gmap Z PriceYearData.t :=
  fold_left addPrice (pricesOfType typeFilter ds) ∅.

(** ** Available inventory *)

Module Inventory.
(** A value of [inventoryMap]. *)
Record t := mk {
  type : Category;
  species : string;
  totalPurchased : Q;
  totalSold : Q
}.
End Inventory.

Module InventoryRow.
(** An element of the array returned by [getAvailableInventory]. *)
Record t := mk {
  type : Category;
  species : string;
  totalPurchased : Q;
  totalSold : Q;
  availableQuantity : Q
}.
End InventoryRow.

Definition categoryName (c : Category) : string :=
  match c with
  | berry => "berry"
  | mushroom => "mushroom"
  end.

(** The key [`${item.type}:${item.species}`]. *)
Definition inventoryKey (type : Category) (species : string) : string :=
  categoryName type +:+ ":" +:+ species.

(** A JavaScript [Map] with string keys: the entries in insertion order. *)
Abbreviation JsMap V := (list (string * V)) (only parsing).

Fixpoint jsmap_get {V} (k : string) (m : JsMap V) : option V :=
  match m with
  | [] => None
  | (k', v) :: m' => if decide (k' = k) then Some v else jsmap_get k m'
  end.

Definition jsmap_has {V} (k : string) (m : JsMap V) : bool :=
  bool_decide (is_Some (jsmap_get k m)).

(** [m.set(k, v)]: a new key goes last, an old key keeps its place. *)
Fixpoint jsmap_set {V} (k : string) (v : V) (m : JsMap V) : JsMap V :=
  match m with
  | [] => [(k, v)]
  | (k', v') :: m' =>
      if decide (k' = k) then (k, v) :: m' else (k', v') :: jsmap_set k v m'
  end.

Definition jsmap_values {V} (m : JsMap V) : list V := snd <$> m.

Definition isPurchase (item : StockItem.t) : bool :=
  Js.gt (StockItem.buyPrice item) 0 && Js.strict_eq (StockItem.sellPrice item) 0.

Definition isSale (item : StockItem.t) : bool :=
  Js.gt (StockItem.sellPrice item) 0.

(** One turn of the [forEach] of [getAvailableInventory]. *)
Definition countItem (inventoryMap : JsMap Inventory.t) (item : StockItem.t)
  : JsMap Inventory.t :=
  let key := inventoryKey (StockItem.type item) (StockItem.species item) in
  let inventoryMap :=
    if jsmap_has key inventoryMap then inventoryMap
    else jsmap_set key
           (Inventory.mk (StockItem.type item) (StockItem.species item) 0 0)
           inventoryMap in
  match jsmap_get key inventoryMap with
  | None => inventoryMap
  | Some inventory =>
      if isPurchase item then
        jsmap_set key
          (Inventory.mk (Inventory.type inventory) (Inventory.species inventory)
             (Inventory.totalPurchased inventory + StockItem.quantity item)
             (Inventory.totalSold inventory))
          inventoryMap
      else if isSale item then
        jsmap_set key
          (Inventory.mk (Inventory.type inventory) (Inventory.species inventory)
             (Inventory.totalPurchased inventory)
             (Inventory.totalSold inventory + StockItem.quantity item))
          inventoryMap
      else inventoryMap
  end.

(** The records that [getAvailableInventory] counts.  The two filters are
    the strings that the handler takes from the query and passes on as they
    are: [typeFilter] need not be the name of a type. *)
Definition inventoryItems (userId : string) (typeFilter : option string)
    (speciesFilter : option string) (ds : DataStore) : list StockItem.t :=
  let userItems := filter (λ item, StockItem.userId item = userId) (stockItems ds) in
  let userItems :=
    match typeFilter with
    | Some t =>
        if Js.nonempty t
        then filter (λ item, categoryName (StockItem.type item) = t) userItems
        else userItems
    | None => userItems
    end in
  match speciesFilter with
  | Some s =>
      if Js.nonempty s then filter (λ item, StockItem.species item = s) userItems
      else userItems
  | None => userItems
  end.

Definition toRow (inventory : Inventory.t) : InventoryRow.t :=
  InventoryRow.mk (Inventory.type inventory) (Inventory.species inventory)
    (Inventory.totalPurchased inventory) (Inventory.totalSold inventory)
    (Inventory.totalPurchased inventory - Inventory.totalSold inventory).

(** [getAvailableInventory(userId, typeFilter, speciesFilter)]. *)
Definition getAvailableInventory (userId : string) (typeFilter : option string)
    (speciesFilter : option string) (ds : DataStore) : list InventoryRow.t :=
  let inventoryMap :=
    fold_left countItem (inventoryItems userId typeFilter speciesFilter ds) [] in
  toRow <$> jsmap_values inventoryMap.

(** ** Data integrity *)

(** The two messages of [validateDataIntegrity], with the values that are
    interpolated into them. *)
Inductive Warning :=
  | SellPriceButNoBuyPrice (id : string) (sellPrice : option Q)
  | ValuesDoNotMatch (id : string).

Record IntegrityReport := mkReport {
  inconsistentItems : list StockItem.t;
  warnings : list Warning
}.

Definition hasNoCostBasis (item : StockItem.t) : bool :=
  Js.gt (StockItem.sellPrice item) 0 && Js.strict_eq (StockItem.buyPrice item) 0.

(** The inner [if] of the second check; it is evaluated on records whose
    prices are both numbers. *)
Definition storedValuesDiffer (item : StockItem.t) : bool :=
  let sellPrice := default 0 (StockItem.sellPrice item) in
  let buyPrice := default 0 (StockItem.buyPrice item) in
  let expectedRevenue := (StockItem.quantity item * sellPrice) / 1000 in
  let expectedCost := (StockItem.quantity item * buyPrice) / 1000 in
  let expectedProfit := expectedRevenue - expectedCost in
  Js.abs_diff_gt (StockItem.totalRevenue item) expectedRevenue 0.01
  || Js.abs_diff_gt (StockItem.totalCost item) expectedCost 0.01
  || Js.abs_diff_gt (StockItem.totalProfit item) expectedProfit 0.01.

Definition isMiscalculated (item : StockItem.t) : bool :=
  Js.gt (StockItem.sellPrice item) 0 && Js.gt (StockItem.buyPrice item) 0
  && storedValuesDiffer item.

(** One turn of the [forEach] of [validateDataIntegrity]. *)
Definition auditItem (report : IntegrityReport) (item : StockItem.t)
  : IntegrityReport :=
  let report :=
    if hasNoCostBasis item then
      mkReport (inconsistentItems report ++ [item])
               (warnings report ++
                  [SellPriceButNoBuyPrice (StockItem.id item) (StockItem.sellPrice item)])
    else report in
  if isMiscalculated item then
    mkReport (inconsistentItems report ++ [item])
             (warnings report ++ [ValuesDoNotMatch (StockItem.id item)])
  else report.

(** [validateDataIntegrity()], with the state of the store after the call. *)
Definition validateDataIntegrity (ds : DataStore) : IntegrityReport * DataStore :=
  (fold_left auditItem (stockItems ds) (mkReport [] []), ds).

(** ** The price defaults of the stock controller *)

(** [finalBuyPrice], [finalSellPrice] and [finalUnitPrice] of the controller
    function [createStockItem], from the three prices of the request body. *)
Definition finalBuyPrice (buyPrice : option Q) : Q := Js.or_else buyPrice 0.

Definition finalSellPrice (unitPrice sellPrice : option Q) : Q :=
  Js.or_else sellPrice (Js.or_else unitPrice 0).

Definition finalUnitPrice (unitPrice sellPrice : option Q) : Q :=
  Js.or_else unitPrice (finalSellPrice unitPrice sellPrice).

(** The price fields of the object that the controller passes to the store;
    the other fields are copied (and trimmed) from the request. *)
Definition withFinalPrices (d : StockItemData.t) : StockItemData.t :=
  StockItemData.mk
    (StockItemData.userId d) (StockItemData.type d) (StockItemData.species d)
    (StockItemData.quantity d)
    (Some (finalUnitPrice (StockItemData.unitPrice d) (StockItemData.sellPrice d)))
    (Some (finalBuyPrice (StockItemData.buyPrice d)))
    (Some (finalSellPrice (StockItemData.unitPrice d) (StockItemData.sellPrice d)))
    (StockItemData.location d) (StockItemData.notes d).

(** ** Further read operations of the store *)

(** [item.collectedAt.getFullYear() === year]; nothing is equal to [NaN]. *)
Definition collectedIn (year : Js.number) (item : StockItem.t) : Prop :=
  match year with
  | Js.Num y => inject_Z (getFullYear (StockItem.collectedAt item)) == y
  | Js.NaN => False
  end.

#[global] Instance collectedIn_dec year item : Decision (collectedIn year item).
Proof. destruct year as [|y]; simpl; [apply _|apply Qeq_dec]. Defined.

(** [getStockItemsByUserAndYear(userId, year)]: the year filter is skipped
    when [year] is missing and also when it is [0] or [NaN] ([if (year)]). *)
Definition getStockItemsByUserAndYear (userId : string) (year : option Js.number)
    (ds : DataStore) : list StockItem.t :=
  let items := filter (λ item, StockItem.userId item = userId) (stockItems ds) in
  match year with
  | Some y => if Js.number_truthy y then filter (collectedIn y) items else items
  | None => items
  end.

(** [years.add(y)] on a [Set] of numbers, kept in insertion order. *)
Definition jsset_add (y : Z) (years : list Z) : list Z :=
  if bool_decide (y ∈ years) then years else years ++ [y].

(** [arr.sort((a, b) => b - a)] on numbers, by insertion from the right. *)
Fixpoint insertDesc (y : Z) (l : list Z) : list Z :=
  match l with
  | [] => [y]
  | z :: l' => if (z <=? y)%Z then y :: z :: l' else z :: insertDesc y l'
  end.

Definition sortDesc (l : list Z) : list Z := foldr insertDesc [] l.

(** [getAllYears()]. *)
Definition getAllYears (ds : DataStore) : list Z :=
  let years :=
    fold_left
      (λ years item, jsset_add (getFullYear (StockItem.collectedAt item)) years)
      (stockItems ds) [] in
  sortDesc years.

Definition getPriceById (id : string) (ds : DataStore) : option Price.t :=
  snd <$> list_find (λ price, Price.id price = id) (prices ds).

(** [getPriceYears()]. *)
Definition getPriceYears (ds : DataStore) : list Z :=
  let years :=
    fold_left (λ years price, jsset_add (Price.year price) years) (prices ds) [] in
  sortDesc years.

(** ** Sales of all users by year *)

(** The order of the keys of a yearly summary: ascending. *)
Definition yearBefore (a b : Z * YearData.t) : Prop := (a.1 <= b.1)%Z.

#[global] Instance yearBefore_dec a b : Decision (yearBefore a b).
Proof. unfold yearBefore. apply _. Defined.

(** [Object.entries(salesByYear)] with each key read back by [parseInt]:
    the year keys come in ascending order. *)
Definition objectEntries (salesByYear : gmap Z YearData.t) : list (Z * YearData.t) :=
  merge_sort yearBefore (map_to_list salesByYear).

(** One turn of the inner loop over the yearly buckets of a user. *)
Definition addYearTotals (totalsByYear : gmap Z YearData.t)
    (entry : Z * YearData.t) : gmap Z YearData.t :=
  let yearNum := entry.1 in
  let data := entry.2 in
  let bucket := default YearData.zero (totalsByYear !! yearNum) in
  <[yearNum := YearData.mk (YearData.revenue bucket + YearData.revenue data)
                           (YearData.cost bucket + YearData.cost data)
                           (YearData.profit bucket + YearData.profit data)
                           (YearData.itemCount bucket + YearData.itemCount data)]>
    totalsByYear.

Record SalesByYear := mkSales {
  salesUsers : list (User.t * gmap Z YearData.t);
  totalsByYear : gmap Z YearData.t
}.

(** [getAllUsersSalesByYear(typeFilter)]; [salesUsers] is the [users] array
    of the result, of pairs [{ user, salesByYear }]. *)
Definition getAllUsersSalesByYear (typeFilter : option Category) (ds : DataStore)
  : SalesByYear :=
  let users := getAllUsers ds in
  let perUser :=
    (λ user, (user, getUserProfitByYear (User.id user) typeFilter ds)) <$> users in
  let totals :=
    fold_left
      (λ totals userEntry, fold_left addYearTotals (objectEntries userEntry.2) totals)
      perUser ∅ in
  mkSales perUser totals.

(** ** What the controllers share *)

(** The answer of a handler: the status with the data of a success, or with
    the error of a failure.  The error texts are written as constructors. *)
Inductive Response (E A : Type) :=
  | Success (status : Z) (data : A)
  | Failed (status : Z) (error : E).

Arguments Success {E A} status data.
Arguments Failed {E A} status error.

(** [['berry', 'mushroom'].includes(type)], with the type it names. *)
Definition categoryOfString (s : string) : option Category :=
  if decide (s = "berry") then Some berry
  else if decide (s = "mushroom") then Some mushroom
  else None.

(** [x !== undefined && x < 0]. *)
Definition negative (x : option Q) : bool :=
  match x with
  | Some q => negb (Qle_bool 0 q)
  | None => false
  end.

(** [x <= 0] for a number. *)
Definition notPositive (q : Q) : bool := Qle_bool q 0.

(** ** The stock controller *)

Module StockController.

(** The methods of [dataStore] that the handlers call. *)
Local Abbreviation dataStore_createStockItem := createStockItem.
Local Abbreviation dataStore_updateStockItem := updateStockItem.
Local Abbreviation dataStore_deleteStockItem := deleteStockItem.
Local Abbreviation dataStore_getAvailableInventory := getAvailableInventory.

(** The errors of the handlers. *)
Inductive Failure :=
  | RequiredFieldsMissing
  | PriceMissing
  | TypeNotBerryOrMushroom
  | QuantityNotPositive
  | UnitPriceNegative
  | BuyPriceNegative
  | SellPriceNegative
  | UserNotFound
  | UserIdRequired
  | StockItemNotFound
  | BuyItemIdRequired
  | BuyItemNotFound
  | NotABuyItem.

(** The request body of [POST /api/stock] as it arrives: every field may be
    missing, and [type] is any string. *)
Record CreateStockItemRequest := mkStockRequest {
  req_userId : option string;
  req_type : option string;
  req_species : option string;
  req_quantity : option Q;
  req_unitPrice : option Q;
  req_buyPrice : option Q;
  req_sellPrice : option Q;
  req_location : option string;
  req_notes : option string
}.

(** The request body of [POST /api/stock/buy]. *)
Record CreateBuyItemRequest := mkBuyRequest {
  buy_userId : option string;
  buy_type : option string;
  buy_species : option string;
  buy_quantity : option Q;
  buy_buyPrice : option Q;
  buy_location : option string;
  buy_notes : option string
}.

Section Handlers.

(** [String.prototype.trim]. *)
Variable trim : string → string.

(** [location?.trim() || ''] *)
Definition trimmedLocation (location : option string) : option string :=
  match location with
  | Some l => Some (trim l)
  | None => Some EmptyString
  end.

(** The handler [createStockItem] of [POST /api/stock]. *)
Definition createStockItem (uuid : string) (now : JsDate)
    (body : CreateStockItemRequest) (ds : DataStore)
  : Response Failure StockItem.t * DataStore :=
  match req_userId body, req_type body, req_species body, req_quantity body with
  | Some userId, Some type, Some species, Some quantity =>
      if negb (Js.nonempty userId) || negb (Js.nonempty type)
         || negb (Js.nonempty species) || negb (Js.truthy (Some quantity))
      then (Failed 400 RequiredFieldsMissing, ds)
      else
        match req_unitPrice body, req_sellPrice body with
        | None, None => (Failed 400 PriceMissing, ds)
        | _, _ =>
            match categoryOfString type with
            | None => (Failed 400 TypeNotBerryOrMushroom, ds)
            | Some category =>
                if notPositive quantity then (Failed 400 QuantityNotPositive, ds)
                else if negative (req_unitPrice body)
                then (Failed 400 UnitPriceNegative, ds)
                else if negative (req_buyPrice body)
                then (Failed 400 BuyPriceNegative, ds)
                else if negative (req_sellPrice body)
                then (Failed 400 SellPriceNegative, ds)
                else
                  match getUserById userId ds with
                  | None => (Failed 404 UserNotFound, ds)
                  | Some _ =>
                      let finalBuy := finalBuyPrice (req_buyPrice body) in
                      let finalSell :=
                        finalSellPrice (req_unitPrice body) (req_sellPrice body) in
                      let finalUnit :=
                        finalUnitPrice (req_unitPrice body) (req_sellPrice body) in
                      let created :=
                        dataStore_createStockItem uuid now
                          (StockItemData.mk userId category (trim species) quantity
                             (Some finalUnit) (Some finalBuy) (Some finalSell)
                             (trimmedLocation (req_location body))
                             (trim <$> req_notes body))
                          ds in
                      (Success 201 created.1, created.2)
                  end
            end
        end
  | _, _, _, _ => (Failed 400 RequiredFieldsMissing, ds)
  end.

(** The handler [createBuyItem] of [POST /api/stock/buy]: a purchase, stored
    with unit price and sell price [0]. *)
Definition createBuyItem (uuid : string) (now : JsDate)
    (body : CreateBuyItemRequest) (ds : DataStore)
  : Response Failure StockItem.t * DataStore :=
  match buy_userId body, buy_type body, buy_species body, buy_quantity body,
        buy_buyPrice body with
  | Some userId, Some type, Some species, Some quantity, Some buyPrice =>
      if negb (Js.nonempty userId) || negb (Js.nonempty type)
         || negb (Js.nonempty species) || negb (Js.truthy (Some quantity))
      then (Failed 400 RequiredFieldsMissing, ds)
      else
        match categoryOfString type with
        | None => (Failed 400 TypeNotBerryOrMushroom, ds)
        | Some category =>
            if notPositive quantity then (Failed 400 QuantityNotPositive, ds)
            else if negative (Some buyPrice) then (Failed 400 BuyPriceNegative, ds)
            else
              match getUserById userId ds with
              | None => (Failed 404 UserNotFound, ds)
              | Some _ =>
                  let created :=
                    dataStore_createStockItem uuid now
                      (StockItemData.mk userId category (trim species) quantity
                         (Some 0) (Some buyPrice) (Some 0)
                         (trimmedLocation (buy_location body))
                         (trim <$> buy_notes body))
                      ds in
                  (Success 201 created.1, created.2)
              end
        end
  | _, _, _, _, _ => (Failed 400 RequiredFieldsMissing, ds)
  end.

End Handlers.

(** The query string of [GET /api/stock]: of each parameter the string it
    holds, [None] when the parameter is missing or is not a string. *)
Record StockQuery := mkStockQuery {
  query_userId : option string;
  query_year : option string
}.

Section Queries.

(** [s => parseInt(s, 10)]. *)
Variable parseInt : string → Js.number.

(** [year && typeof year === 'string' ? parseInt(year, 10) : undefined]. *)
Definition yearNum (year : option string) : option Js.number :=
  match year with
  | Some y => if Js.nonempty y then Some (parseInt y) else None
  | None => None
  end.

(** The handler [getStockItems] of [GET /api/stock]. *)
Definition getStockItems (query : StockQuery) (ds : DataStore)
  : Response Failure (list StockItem.t) * DataStore :=
  match query_userId query with
  | Some userId =>
      if negb (Js.nonempty userId) then (Failed 400 UserIdRequired, ds)
      else
        (Success 200
           (getStockItemsByUserAndYear userId (yearNum (query_year query)) ds),
         ds)
  | None => (Failed 400 UserIdRequired, ds)
  end.

End Queries.

(** The handler [getAvailableInventory] of [GET /api/stock/inventory/:userId]:
    [type] and [species] are the strings of the query, passed on as they
    are. *)
Definition getAvailableInventory (userId : string) (type species : option string)
    (ds : DataStore) : Response Failure (list InventoryRow.t) * DataStore :=
  if negb (Js.nonempty userId) then (Failed 400 UserIdRequired, ds)
  else
    match getUserById userId ds with
    | None => (Failed 404 UserNotFound, ds)
    | Some _ =>
        (Success 200 (dataStore_getAvailableInventory userId type species ds), ds)
    end.

(** The handler [updateStockItem] of [PUT /api/stock/:id]: the request body
    goes to the store as it is. *)
Definition updateStockItem (id : string) (body : StockItemUpdates.t) (ds : DataStore)
  : Response Failure StockItem.t * DataStore :=
  let updated := dataStore_updateStockItem id body ds in
  match updated.1 with
  | None => (Failed 404 StockItemNotFound, updated.2)
  | Some stockItem => (Success 200 stockItem, updated.2)
  end.

(** [item.sellPrice === 0 && item.buyPrice > 0], the test for a buy item. *)
Definition isBuyItem (item : StockItem.t) : bool :=
  Js.strict_eq (StockItem.sellPrice item) 0 && Js.gt (StockItem.buyPrice item) 0.

(** The handler [deleteBuyItem] of [DELETE /api/buy-items/:id]. *)
Definition deleteBuyItem (id : string) (ds : DataStore)
  : Response Failure unit * DataStore :=
  if negb (Js.nonempty id) then (Failed 400 BuyItemIdRequired, ds)
  else
    match getStockItemById id ds with
    | None => (Failed 404 BuyItemNotFound, ds)
    | Some item =>
        if negb (isBuyItem item) then (Failed 400 NotABuyItem, ds)
        else
          let deleted := dataStore_deleteStockItem id ds in
          if negb deleted.1 then (Failed 404 BuyItemNotFound, deleted.2)
          else (Success 200 tt, deleted.2)
    end.

End StockController.

(** ** The price controller *)

Module PriceController.

Local Abbreviation dataStore_createPrice := createPrice.
Local Abbreviation dataStore_updatePrice := updatePrice.

(** The request body of [POST /api/prices]. *)
Record CreatePriceRequest := mkPriceRequest {
  req_type : option string;
  req_species : option string;
  req_year : option Z;
  req_buyPrice : option Q;
  req_sellPrice : option Q
}.

(** The request body of [PUT /api/prices/:id]. *)
Record UpdatePriceRequest := mkUpdateRequest {
  upd_buyPrice : option Q;
  upd_sellPrice : option Q
}.

Inductive Failure :=
  | RequiredFieldsMissing
  | TypeNotBerryOrMushroom
  | YearNotValid
  | PriceNegative
  | BuyPriceNegative
  | SellPriceNegative
  | NoPriceProvided
  | PriceNotFound.

Section Handlers.

(** [String.prototype.trim]. *)
Variable trim : string → string.

(** The handler [createPrice]; [today] is the date read by the check of the
    year and [now] the one read by the store. *)
Definition createPrice (uuid : string) (today now : JsDate)
    (body : CreatePriceRequest) (ds : DataStore)
  : Response Failure Price.t * DataStore :=
  match req_type body, req_species body, req_year body, req_buyPrice body,
        req_sellPrice body with
  | Some type, Some species, Some year, Some buyPrice, Some sellPrice =>
      if negb (Js.nonempty type) || negb (Js.nonempty species)
         || bool_decide (year = 0%Z)
      then (Failed 400 RequiredFieldsMissing, ds)
      else
        match categoryOfString type with
        | None => (Failed 400 TypeNotBerryOrMushroom, ds)
        | Some category =>
            if bool_decide (year < 1900)%Z
               || bool_decide (getFullYear today + 10 < year)%Z
            then (Failed 400 YearNotValid, ds)
            else if negative (Some buyPrice)
                    || negative (Some sellPrice)
            then (Failed 400 PriceNegative, ds)
            else
              let created :=
                dataStore_createPrice uuid now
                  (PriceData.mk category (trim species) year buyPrice sellPrice) ds in
              (Success 201 created.1, created.2)
        end
  | _, _, _, _, _ => (Failed 400 RequiredFieldsMissing, ds)
  end.

End Handlers.

(** The handler [updatePrice] of [PUT /api/prices/:id]: it hands
    [{ buyPrice, sellPrice }] to the store, a price that the request does
    not name as a key that holds [undefined]. *)
Definition updatePrice (id : string) (now : JsDate) (body : UpdatePriceRequest)
    (ds : DataStore) : Response Failure Price.t * DataStore :=
  if negative (upd_buyPrice body) then (Failed 400 BuyPriceNegative, ds)
  else if negative (upd_sellPrice body) then (Failed 400 SellPriceNegative, ds)
  else
    match upd_buyPrice body, upd_sellPrice body with
    | None, None => (Failed 400 NoPriceProvided, ds)
    | _, _ =>
        let updated :=
          dataStore_updatePrice id now
            (PriceUpdates.mk (Some (upd_buyPrice body)) (Some (upd_sellPrice body)))
            ds in
        match updated.1 with
        | None => (Failed 404 PriceNotFound, updated.2)
        | Some price => (Success 200 price, updated.2)
        end
    end.

End PriceController.

(** * Vocabulary of the statements *)

(** ** Creation of a stock item *)

(** The number held by a price field, a missing one counting as zero. *)
Definition num (x : option Q) : Q := default 0 x.

(** [totalProfit] is the difference of the stored [totalRevenue] and
    [totalCost]. *)
Definition profitIsDifference (r : StockItem.t) : Prop :=
  ∃ revenue cost,
    StockItem.totalRevenue r = Some revenue
    ∧ StockItem.totalCost r = Some cost
    ∧ Js.is_num (StockItem.totalProfit r) (revenue - cost).

(** The formulas of the three derived fields for quantity [q], buy price [b]
    and sell price [s]. *)
Definition derivedFrom (q b s : Q) (r : StockItem.t) : Prop :=
  Js.is_num (StockItem.totalRevenue r) (q * s / 1000)
  ∧ Js.is_num (StockItem.totalCost r) (q * b / 1000)
  ∧ profitIsDifference r.

(** ** Update of a stock item *)

(** The update object [{ notes: n }]. *)
Definition notesOnly (n : string) : StockItemUpdates.t :=
  StockItemUpdates.mk None None None None None None None None None None None None
                      None None (Some (Some n)).

(** The update object [{ quantity: q }]. *)
Definition quantityOnly (q : Q) : StockItemUpdates.t :=
  StockItemUpdates.mk None None None None (Some q) None None None None None None
                      None None None None.

(** The update object [{ sellPrice: s }], where [s] may be [undefined]. *)
Definition sellPriceOnly (s : option Q) : StockItemUpdates.t :=
  StockItemUpdates.mk None None None None None None None (Some s) None None
                      None None None None None.

(** The update object [{ totalProfit: p }]. *)
Definition totalProfitOnly (p : Q) : StockItemUpdates.t :=
  StockItemUpdates.mk None None None None None None None None None None
                      (Some (Some p)) None None None None.

(** The update object [{ id: i }]. *)
Definition idOnly (i : string) : StockItemUpdates.t :=
  StockItemUpdates.mk (Some i) None None None None None None None None None None
                      None None None None.

(** [old] with its notes replaced and every other field as it was. *)
Definition withNotes (old : StockItem.t) (n : string) : StockItem.t :=
  {| StockItem.id := StockItem.id old;
     StockItem.userId := StockItem.userId old;
     StockItem.type := StockItem.type old;
     StockItem.species := StockItem.species old;
     StockItem.quantity := StockItem.quantity old;
     StockItem.unitPrice := StockItem.unitPrice old;
     StockItem.buyPrice := StockItem.buyPrice old;
     StockItem.sellPrice := StockItem.sellPrice old;
     StockItem.totalRevenue := StockItem.totalRevenue old;
     StockItem.totalCost := StockItem.totalCost old;
     StockItem.totalProfit := StockItem.totalProfit old;
     StockItem.totalPrice := StockItem.totalPrice old;
     StockItem.location := StockItem.location old;
     StockItem.collectedAt := StockItem.collectedAt old;
     StockItem.notes := Some n |}.

(** The update names one of [quantity], [buyPrice], [sellPrice]. *)
Definition changesAmounts (u : StockItemUpdates.t) : Prop :=
  is_Some (StockItemUpdates.quantity u)
  ∨ is_Some (StockItemUpdates.buyPrice u)
  ∨ is_Some (StockItemUpdates.sellPrice u).

(** The derived fields of [r] follow the formulas on its own quantity, buy
    price and sell price. *)
Definition consistent (r : StockItem.t) : Prop :=
  derivedFrom (StockItem.quantity r) (num (StockItem.buyPrice r))
              (num (StockItem.sellPrice r)) r.

(** A sale of 1000 g bought at 3 and sold at 5 per kg, and the ledger that
    holds it alone. *)
Definition aSale : StockItemData.t :=
  StockItemData.mk "u1" berry "blueberry" 1000 None (Some 3) (Some 5) None None.

Definition aLedger : DataStore :=
  snd (createStockItem "i1" (mkDate 2024 0) aSale emptyStore).

(** ** The integrity audit *)

(** A sell price above zero with a buy price equal to zero. *)
Definition anomalous (item : StockItem.t) : Prop :=
  ∃ s b,
    StockItem.sellPrice item = Some s ∧ StockItem.buyPrice item = Some b
    ∧ 0 < s ∧ b == 0.

(** The stored number is more than [tol] away from [expected]. *)
Definition differsByMoreThan (tol : Q) (stored : option Q) (expected : Q) : Prop :=
  ∃ v, stored = Some v ∧ tol < Qabs (v - expected).

(** Both prices above zero, and a stored total more than 0.01 away from the
    value recomputed from quantity, buy price and sell price. *)
Definition miscalculated (item : StockItem.t) : Prop :=
  ∃ s b,
    StockItem.sellPrice item = Some s ∧ StockItem.buyPrice item = Some b
    ∧ 0 < s ∧ 0 < b
    ∧ (differsByMoreThan 0.01 (StockItem.totalRevenue item)
         (StockItem.quantity item * s / 1000)
       ∨ differsByMoreThan 0.01 (StockItem.totalCost item)
           (StockItem.quantity item * b / 1000)
       ∨ differsByMoreThan 0.01 (StockItem.totalProfit item)
           (StockItem.quantity item * s / 1000
            - StockItem.quantity item * b / 1000)).

(** One of the two checks of the audit fires on the record. *)
Definition flagged (item : StockItem.t) : bool :=
  hasNoCostBasis item || isMiscalculated item.

(** The message that the audit writes for a flagged record. *)
Definition warningOf (item : StockItem.t) : Warning :=
  if hasNoCostBasis item
  then SellPriceButNoBuyPrice (StockItem.id item) (StockItem.sellPrice item)
  else ValuesDoNotMatch (StockItem.id item).

(** ** Per-user totals and yearly profit *)

(** A store whose only user is Alice. *)
Definition alice : DataStore :=
  snd (createUser "u1" (mkDate 2024 0) "Alice" emptyStore).

(** A sale of 1000 g bought and sold at 5 per kg. *)
Definition breakEvenSale : StockItemData.t :=
  StockItemData.mk "u1" berry "blueberry" 1000 None (Some 5) (Some 5) None None.

(** Alice's ledger with that sale alone. *)
Definition breakEvenLedger : DataStore :=
  snd (createStockItem "i1" (mkDate 2024 0) breakEvenSale alice).

(** The profit of a record with the fallback taken only for a missing
    [totalProfit]: its [totalProfit], or else its revenue. *)
Definition profitOrRevenueIfAbsent (item : StockItem.t) : Q :=
  match StockItem.totalProfit item with
  | Some p => p
  | None => itemRevenue item
  end.

(** ** Yearly summaries *)

(** One turn of a loop that fills [yearlyData] from the elements of an array. *)
Definition accumulate {A} (year : A → Z) (revenue cost profit : A → Q)
    (yearlyData : gmap Z YearData.t) (a : A) : gmap Z YearData.t :=
  addToYear (year a) (revenue a) (cost a) (profit a) yearlyData.

(** What the loop adds to the bucket of one year. *)
Definition addToBucket {A} (revenue cost profit : A → Q)
    (bucket : YearData.t) (a : A) : YearData.t :=
  YearData.mk (YearData.revenue bucket + revenue a)
              (YearData.cost bucket + cost a)
              (YearData.profit bucket + profit a)
              (YearData.itemCount bucket + 1).

(** [x] is a number above [y]. *)
Definition exceeds (x : option Q) (y : Q) : Prop :=
  match x with
  | Some q => y < q
  | None => False
  end.

#[global] Instance exceeds_dec x y : Decision (exceeds x y).
Proof.
  destruct x as [q|]; simpl; [|apply _].
  destruct (Qlt_le_dec y q) as [H|H]; [by left|right; by apply Qle_not_lt].
Defined.

#[global] Instance is_num_dec x v : Decision (Js.is_num x v).
Proof. destruct x as [q|]; simpl; [apply Qeq_dec|apply _]. Defined.

#[global] Instance anomalous_dec item : Decision (anomalous item).
Proof.
  unfold anomalous.
  destruct (StockItem.sellPrice item) as [s|];
    [|right; by intros (? & ? & [=] & _)].
  destruct (StockItem.buyPrice item) as [b|];
    [|right; by intros (? & ? & _ & [=] & _)].
  destruct (Qlt_le_dec 0 s) as [Hs|Hs];
    [|right; intros (? & ? & [= <-] & _ & Hpos & _); by apply Qle_not_lt in Hs].
  destruct (Qeq_dec b 0) as [Hb|Hb];
    [left; by exists s, b|right; by intros (? & ? & _ & [= <-] & _ & Hzero)].
Defined.

(** The type filter of a summary lets the type through. *)
Definition typeSelected (typeFilter : option Category) (type : Category) : Prop :=
  match typeFilter with
  | Some t => type = t
  | None => True
  end.

#[global] Instance typeSelected_dec typeFilter type :
  Decision (typeSelected typeFilter type).
Proof. destruct typeFilter; simpl; apply _. Defined.

(** The price entries that the analysis for [typeFilter] reads for year
    [y]. *)
Definition analysed (typeFilter : option Category) (y : Z) (p : Price.t) : Prop :=
  Price.year p = y ∧ typeSelected typeFilter (Price.type p).

#[global] Instance analysed_dec typeFilter y p : Decision (analysed typeFilter y p).
Proof. unfold analysed. apply _. Defined.

(** [0 + f(l[0]) + f(l[1]) + ...] as JavaScript adds it up: [NaN] as soon as
    one term is missing. *)
Definition total {A} (f : A → option Q) (l : list A) : option Q :=
  fold_left (λ sum a, Js.plus sum (f a)) l (Some 0).

(** The profit per kilogram of a price entry. *)
Definition profitPerKg (p : Price.t) : option Q :=
  Js.minus (Price.sellPrice p) (Price.buyPrice p).

(** What the loop of the price analysis adds to the bucket of one year. *)
Definition growPrice (bucket : PriceYearData.t) (p : Price.t) : PriceYearData.t :=
  PriceYearData.mk (Js.plus (PriceYearData.revenue bucket) (Price.sellPrice p))
                   (Js.plus (PriceYearData.cost bucket) (Price.buyPrice p))
                   (Js.plus (PriceYearData.profit bucket) (profitPerKg p))
                   (PriceYearData.itemCount bucket + 1).

(** Both prices of the entry are numbers. *)
Definition priced (p : Price.t) : Prop :=
  is_Some (Price.buyPrice p) ∧ is_Some (Price.sellPrice p).

(** The records that the yearly profit of [userId] under [typeFilter] is
    computed from: those of the user with both prices above zero and a type
    that the filter lets through. *)
Definition countedFor (userId : string) (typeFilter : option Category)
    (item : StockItem.t) : Prop :=
  StockItem.userId item = userId
  ∧ exceeds (StockItem.sellPrice item) 0
  ∧ exceeds (StockItem.buyPrice item) 0
  ∧ typeSelected typeFilter (StockItem.type item).

#[global] Instance countedFor_dec userId typeFilter item :
  Decision (countedFor userId typeFilter item).
Proof. unfold countedFor. apply _. Defined.

(** ** The states of the store *)

(** The mutating methods of the store, with what [uuidv4()] and
    [new Date()] return during the call. *)
Inductive Operation :=
  | CreateUser (uuid : string) (now : JsDate) (aliasName : string)
  | CreateStockItem (uuid : string) (now : JsDate) (d : StockItemData.t)
  | UpdateStockItem (id : string) (u : StockItemUpdates.t)
  | DeleteStockItem (id : string)
  | CreatePrice (uuid : string) (now : JsDate) (d : PriceData.t)
  | UpdatePrice (id : string) (now : JsDate) (u : PriceUpdates.t)
  | DeletePrice (id : string).

(** The store after a call. *)
Definition run (op : Operation) (ds : DataStore) : DataStore :=
  match op with
  | CreateUser uuid now aliasName => snd (createUser uuid now aliasName ds)
  | CreateStockItem uuid now d => snd (createStockItem uuid now d ds)
  | UpdateStockItem id u => snd (updateStockItem id u ds)
  | DeleteStockItem id => snd (deleteStockItem id ds)
  | CreatePrice uuid now d => snd (createPrice uuid now d ds)
  | UpdatePrice id now u => snd (updatePrice id now u ds)
  | DeletePrice id => snd (deletePrice id ds)
  end.

(** The states that a new store can get into. *)
Inductive reachable : DataStore → Prop :=
  | reachable_new : reachable emptyStore
  | reachable_run op ds : reachable ds → reachable (run op ds).

(** The states that a new store can get into when every call is one that
    [allowed] admits in the state it is made in. *)
Inductive reachableWhen (allowed : DataStore → Operation → Prop)
  : DataStore → Prop :=
  | reachableWhen_new : reachableWhen allowed emptyStore
  | reachableWhen_run op ds :
      reachableWhen allowed ds → allowed ds op → reachableWhen allowed (run op ds).

(** Every update of a stock item is one that [P] holds of; the other calls
    are free. *)
Definition updatesSatisfy (P : StockItemUpdates.t → Prop)
    (ds : DataStore) (op : Operation) : Prop :=
  match op with
  | UpdateStockItem _ u => P u
  | _ => True
  end.

(** The operations that leave the price table alone. *)
Definition besidePrices (op : Operation) : Prop :=
  match op with
  | CreatePrice _ _ _ | UpdatePrice _ _ _ | DeletePrice _ => False
  | _ => True
  end.


(** No two entries of the price table have the same type, species and year. *)
Definition uniqueTriples (table : list Price.t) : Prop :=
  NoDup (priceKey <$> table).

(** A price table with one entry, for blueberries in 2024. *)
Definition blueberry2024 : PriceData.t := PriceData.mk berry "blueberry" 2024 2 5.

Definition onePrice : DataStore :=
  run (CreatePrice "p1" (mkDate 2024 0) blueberry2024) emptyStore.

(** ** The current price *)

(** The years of a list go down, weakly. *)
Definition yearsDescend (l : list Price.t) : Prop :=
  ∀ i j p q, l !! i = Some p → l !! j = Some q → (i < j)%nat →
             (Price.year q <= Price.year p)%Z.

(** An entry of the table for the given type and species. *)
Definition matches (ds : DataStore) (type : Category) (species : string)
    (p : Price.t) : Prop :=
  p ∈ prices ds ∧ Price.type p = type ∧ Price.species p = species.

(** ** Available inventory *)

(** The entry of a record after the record has been counted. *)
Definition bump (item : StockItem.t) (inventory : Inventory.t) : Inventory.t :=
  if isPurchase item then
    Inventory.mk (Inventory.type inventory) (Inventory.species inventory)
      (Inventory.totalPurchased inventory + StockItem.quantity item)
      (Inventory.totalSold inventory)
  else if isSale item then
    Inventory.mk (Inventory.type inventory) (Inventory.species inventory)
      (Inventory.totalPurchased inventory)
      (Inventory.totalSold inventory + StockItem.quantity item)
  else inventory.

(** The entry that the loop creates for a key it has not seen. *)
Definition freshEntry (item : StockItem.t) : Inventory.t :=
  Inventory.mk (StockItem.type item) (StockItem.species item) 0 0.

(** The key of a record. *)
Definition keyOf (item : StockItem.t) : string :=
  inventoryKey (StockItem.type item) (StockItem.species item).

(** The map with the entry of the record's key created when missing. *)
Definition ensured (inventoryMap : JsMap Inventory.t) (item : StockItem.t)
  : JsMap Inventory.t :=
  if jsmap_has (keyOf item) inventoryMap then inventoryMap
  else jsmap_set (keyOf item) (freshEntry item) inventoryMap.

(** The records of one type and species. *)
Definition inGroup (type : Category) (species : string) (item : StockItem.t) : Prop :=
  StockItem.type item = type ∧ StockItem.species item = species.

#[global] Instance inGroup_dec t s item : Decision (inGroup t s item).
Proof. unfold inGroup. apply _. Defined.

(** A purchase: buy price above zero and sell price equal to zero. *)
Definition purchase (item : StockItem.t) : Prop :=
  exceeds (StockItem.buyPrice item) 0 ∧ Js.is_num (StockItem.sellPrice item) 0.

#[global] Instance purchase_dec item : Decision (purchase item).
Proof. unfold purchase. apply _. Defined.

(** A sale: sell price above zero, whatever the buy price. *)
Definition sale (item : StockItem.t) : Prop := exceeds (StockItem.sellPrice item) 0.

#[global] Instance sale_dec item : Decision (sale item).
Proof. unfold sale. apply _. Defined.

(** The records of one user, type and species. *)
Definition ofUserGroup (userId : string) (type : Category) (species : string)
    (item : StockItem.t) : Prop :=
  StockItem.userId item = userId
  ∧ StockItem.type item = type
  ∧ StockItem.species item = species.

#[global] Instance ofUserGroup_dec userId type species item :
  Decision (ofUserGroup userId type species item).
Proof. unfold ofUserGroup. apply _. Defined.

(** A filter of the inventory lets a name through: a filter that is
    missing or empty lets every name through. *)
Definition nameSelected (nameFilter : option string) (name : string) : Prop :=
  match nameFilter with
  | Some s => s = "" ∨ name = s
  | None => True
  end.

#[global] Instance nameSelected_dec nameFilter name :
  Decision (nameSelected nameFilter name).
Proof. destruct nameFilter; simpl; apply _. Defined.

(** The records that the inventory of a user is computed from: those of
    the user whose type has the name that the type filter asks for and whose
    species is the one that the species filter asks for. *)
Definition stocked (userId : string) (typeFilter : option string)
    (speciesFilter : option string) (item : StockItem.t) : Prop :=
  StockItem.userId item = userId
  ∧ nameSelected typeFilter (categoryName (StockItem.type item))
  ∧ nameSelected speciesFilter (StockItem.species item).

#[global] Instance stocked_dec userId typeFilter speciesFilter item :
  Decision (stocked userId typeFilter speciesFilter item).
Proof. unfold stocked. apply _. Defined.

(** The sum of the quantities of [items], from left to right. *)
Definition grams (items : list StockItem.t) : Q := sumOver StockItem.quantity items.

(** The grams of the purchases among [items], as the loop of the inventory
    classifies them. *)
Definition purchasedIn (items : list StockItem.t) : Q :=
  sumOver StockItem.quantity (filter (λ item, isPurchase item) items).

(** The grams of the sales among [items], as the loop classifies them. *)
Definition soldIn (items : list StockItem.t) : Q :=
  sumOver StockItem.quantity (filter (λ item, isSale item) items).

(** The entry that stands for a group of records. *)
Definition entryOf (type : Category) (species : string) (group : list StockItem.t)
  : Inventory.t :=
  Inventory.mk type species (purchasedIn group) (soldIn group).

(** Every entry sits under the key of its own type and species. *)
Definition keyed (inventoryMap : JsMap Inventory.t) : Prop :=
  ∀ k inventory,
    (k, inventory) ∈ inventoryMap →
    k = inventoryKey (Inventory.type inventory) (Inventory.species inventory).

(** Alice buys 100 g of blueberries and sells 300 g. *)
Definition oversold : DataStore :=
  snd (createStockItem "i2" (mkDate 2024 0)
         (StockItemData.mk "u1" berry "blueberry" 300 (Some 6) (Some 3) (Some 6)
                           None None)
         (snd (createStockItem "i1" (mkDate 2024 0)
                 (StockItemData.mk "u1" berry "blueberry" 100 (Some 0) (Some 3)
                                   (Some 0) None None)
                 alice))).

(** ** Further vocabulary: invariants of the ledger *)

(** The derived fields and the prices of a record are all present, the
    profit is the stored revenue minus the stored cost, and the legacy
    [totalPrice] is a copy of [totalRevenue]. *)
Definition settled (item : StockItem.t) : Prop :=
  ∃ revenue cost,
    StockItem.totalRevenue item = Some revenue
    ∧ StockItem.totalCost item = Some cost
    ∧ StockItem.totalProfit item = Some (revenue - cost)
    ∧ StockItem.totalPrice item = Some revenue
    ∧ is_Some (StockItem.unitPrice item)
    ∧ is_Some (StockItem.buyPrice item)
    ∧ is_Some (StockItem.sellPrice item).

(** The update recalculates: it has one of the keys [quantity],
    [unitPrice], [buyPrice], [sellPrice]. *)
Definition recalculating (u : StockItemUpdates.t) : Prop :=
  is_Some (StockItemUpdates.quantity u)
  ∨ is_Some (StockItemUpdates.unitPrice u)
  ∨ is_Some (StockItemUpdates.buyPrice u)
  ∨ is_Some (StockItemUpdates.sellPrice u).

(** The update has none of the keys [totalRevenue], [totalCost],
    [totalProfit], [totalPrice]. *)
Definition leavesTotals (u : StockItemUpdates.t) : Prop :=
  StockItemUpdates.totalRevenue u = None
  ∧ StockItemUpdates.totalCost u = None
  ∧ StockItemUpdates.totalProfit u = None
  ∧ StockItemUpdates.totalPrice u = None.

(** An update that does not write totals of its own: one that names a total
    also names a field that makes the store recalculate. *)
Definition totalsInStep (u : StockItemUpdates.t) : Prop :=
  recalculating u ∨ leavesTotals u.

(** The update does not set [buyPrice] or [sellPrice] to [undefined]. *)
Definition keepsPrices (u : StockItemUpdates.t) : Prop :=
  StockItemUpdates.buyPrice u ≠ Some None
  ∧ StockItemUpdates.sellPrice u ≠ Some None.

(** Calls that keep the ids of the ledger apart: a create whose [uuidv4()]
    returns an id that no stored record has, and an update whose [id] key,
    if it has one, holds the id it is called with or an id that no stored
    record has. *)
Definition idsKept (ds : DataStore) (op : Operation) : Prop :=
  match op with
  | CreateStockItem uuid _ _ =>
      Forall (λ item, StockItem.id item ≠ uuid) (stockItems ds)
  | UpdateStockItem id u =>
      ∀ id', StockItemUpdates.id u = Some id' →
             id' = id ∨ Forall (λ item, StockItem.id item ≠ id') (stockItems ds)
  | _ => True
  end.

(** The first ledger of the examples after [{ totalProfit: 999 }] has been
    written to its record. *)
Definition tampered : DataStore :=
  run (UpdateStockItem "i1" (totalProfitOnly 999)) aLedger.

(** The years of a list go down, strictly. *)
Definition strictlyDescending (l : list Z) : Prop :=
  ∀ (i j : nat) a b, l !! i = Some a → l !! j = Some b → (i < j)%nat → (b < a)%Z.

(** The sum of two buckets, field by field. *)
Definition plusBucket (total data : YearData.t) : YearData.t :=
  YearData.mk (YearData.revenue total + YearData.revenue data)
              (YearData.cost total + YearData.cost data)
              (YearData.profit total + YearData.profit data)
              (YearData.itemCount total + YearData.itemCount data).

(** The sum of the buckets that the users have for one year, added in the
    order of the users to a bucket of zeros. *)
Definition sumBuckets (buckets : list YearData.t) : YearData.t :=
  fold_left plusBucket buckets YearData.zero.

(** * Properties *)

(** ** Facts about the coercions *)

Section JsFacts.

Lemma or_else_truthy x d :
  Js.truthy x = true → ∃ q, x = Some q ∧ Js.or_else x d = q.
Proof.
  destruct x as [q|]; simpl; [|discriminate].
  destruct (Qeq_bool q 0); [discriminate|]. eauto.
Qed.

Lemma or_else_falsy x d : Js.truthy x = false → Js.or_else x d = d.
Proof.
  destruct x as [q|]; simpl; [|reflexivity].
  destruct (Qeq_bool q 0); [reflexivity|discriminate].
Qed.

(** [q || 0] is [q] as a number. *)
Lemma or_else_zero q : Js.or_else (Some q) 0 == q.
Proof.
  simpl. destruct (Qeq_bool q 0) eqn:E; [|reflexivity].
  symmetry. by apply Qeq_bool_eq.
Qed.

Lemma gt_Some q y : Js.gt (Some q) y = true ↔ y < q.
Proof.
  simpl. rewrite negb_true_iff, <- not_true_iff_false, Qle_bool_iff.
  split; [apply Qnot_le_lt|apply Qlt_not_le].
Qed.

Lemma gt_inv x y : Js.gt x y = true → ∃ q, x = Some q ∧ y < q.
Proof.
  destruct x as [q|]; [|discriminate].
  intros H. exists q. split; [reflexivity|by apply gt_Some].
Qed.

Lemma strict_eq_inv x y : Js.strict_eq x y = true → ∃ q, x = Some q ∧ q == y.
Proof.
  destruct x as [q|]; [|discriminate]. simpl.
  intros H. exists q. split; [reflexivity|by apply Qeq_bool_eq].
Qed.

Lemma strict_eq_Some q y : Js.strict_eq (Some q) y = true ↔ q == y.
Proof. apply Qeq_bool_iff. Qed.

Lemma gt_truthy x : Js.gt x 0 = true → Js.truthy x = true.
Proof.
  intros (q & -> & Hq)%gt_inv. simpl.
  rewrite negb_true_iff, <- not_true_iff_false, Qeq_bool_iff.
  intros E. rewrite E in Hq. by apply Qlt_irrefl in Hq.
Qed.

(** [x > 0] and [x === 0] exclude each other. *)
Lemma gt_excludes_zero x : Js.gt x 0 = true → Js.strict_eq x 0 = false.
Proof.
  intros (q & -> & Hq)%gt_inv. simpl.
  rewrite <- not_true_iff_false, Qeq_bool_iff.
  intros E. rewrite E in Hq. by apply Qlt_irrefl in Hq.
Qed.

Lemma abs_diff_gt_Some q e tol :
  Js.abs_diff_gt (Some q) e tol = true ↔ tol < Qabs (q - e).
Proof.
  simpl. rewrite negb_true_iff, <- not_true_iff_false, Qle_bool_iff.
  split; [apply Qnot_le_lt|apply Qlt_not_le].
Qed.

End JsFacts.

(** [reduce] over an array that ends with [x]. *)
Lemma sumOver_snoc {A} (f : A → Q) l x : sumOver f (l ++ [x]) = sumOver f l + f x.
Proof. unfold sumOver. by rewrite fold_left_app. Qed.

Lemma sumOver_ext {A} (f g : A → Q) l :
  (∀ x, x ∈ l → f x = g x) → sumOver f l = sumOver g l.
Proof.
  induction l as [|x l IH] using rev_ind; intros H; [reflexivity|].
  rewrite !sumOver_snoc, IH, H; [reflexivity| |].
  - apply elem_of_app. right. apply list_elem_of_here.
  - intros y Hy. apply H. apply elem_of_app. by left.
Qed.

(** ** Creation of a stock item *)

Lemma newStockItem_derived uuid now d :
  derivedFrom (StockItemData.quantity d) (effectiveBuyPrice d) (effectiveSellPrice d)
              (newStockItem uuid now d).
Proof.
  repeat split; simpl; try reflexivity.
  eexists _, _. repeat split; simpl; reflexivity.
Qed.

(** Every created record follows the formulas on its own stored quantity,
    buy price and sell price. *)
Lemma createStockItem_consistent uuid now d ds :
  consistent (fst (createStockItem uuid now d ds)).
Proof. apply newStockItem_derived. Qed.

(** The record that [createStockItem] returns is the one it stores, at the
    end of the array, and nothing else changes. *)
Lemma createStockItem_stores uuid now d ds :
  createStockItem uuid now d ds
  = (newStockItem uuid now d,
     mkStore (users ds) (stockItems ds ++ [newStockItem uuid now d]) (prices ds)).
Proof. reflexivity. Qed.

(** The sell price that a create works with, when a sell price [s >= 0] is
    supplied: [s] itself unless [s] is zero and a legacy unit price steps in. *)
Lemma effectiveSellPrice_supplied d s :
  StockItemData.sellPrice d = Some s →
  ¬ s == 0 ∨ Js.truthy (StockItemData.unitPrice d) = false →
  effectiveSellPrice d == s.
Proof.
  intros Hs Hcase. unfold effectiveSellPrice. rewrite Hs. simpl.
  destruct (Qeq_bool s 0) eqn:E; [|reflexivity].
  apply Qeq_bool_eq in E. destruct Hcase as [Hne|Hu]; [by destruct Hne|].
  rewrite (or_else_falsy _ _ Hu). by symmetry.
Qed.

(** C1, amended.  For every create with quantity [q > 0], buy price
    [b >= 0] and sell price [s >= 0] in which the sell price is positive or
    the legacy unit price is zero or missing, the returned record is the one
    stored, and it has totalRevenue = q*s/1000, totalCost = q*b/1000 and
    totalProfit = totalRevenue - totalCost. *)
Theorem createStockItem_totals
    (uuid : string) (now : JsDate) (ds : DataStore)
    (userId : string) (type : Category) (species : string)
    (q b s : Q) (unitPrice : option Q) (location notes : option string) :
  0 < q → 0 <= b → 0 <= s →
  0 < s ∨ Js.truthy unitPrice = false →
  let d := StockItemData.mk userId type species q unitPrice (Some b) (Some s)
                            location notes in
  let r := fst (createStockItem uuid now d ds) in
  stockItems (snd (createStockItem uuid now d ds)) = stockItems ds ++ [r]
  ∧ derivedFrom q b s r.
Proof.
  intros _ _ _ Hcase d r. split; [reflexivity|].
  assert (Hs : effectiveSellPrice d == s).
  { apply effectiveSellPrice_supplied; [reflexivity|].
    destruct Hcase as [Hpos|Hu]; [left|by right].
    intros E. rewrite E in Hpos. by apply Qlt_irrefl in Hpos. }
  assert (Hb : effectiveBuyPrice d == b) by apply or_else_zero.
  destruct (newStockItem_derived uuid now d) as (Hrev & Hcost & Hprofit).
  repeat split; [| |exact Hprofit].
  - unfold r. simpl in *. by rewrite Hs.
  - unfold r. simpl in *. by rewrite Hb.
Qed.

Lemma createStockItem_totals_witness :
  let d := StockItemData.mk "u1" berry "blueberry" 200 None (Some 3) (Some 6)
                            None None in
  let r := fst (createStockItem "i1" (mkDate 2024 0) d emptyStore) in
  stockItems (snd (createStockItem "i1" (mkDate 2024 0) d emptyStore)) = [r]
  ∧ derivedFrom 200 3 6 r.
Proof.
  apply (createStockItem_totals "i1" (mkDate 2024 0) emptyStore "u1" berry
           "blueberry" 200 3 6 None None None).
  - reflexivity.
  - discriminate.
  - discriminate.
  - left. reflexivity.
Defined.

(** C1 as stated fails: a create with sell price 0 and legacy unit price 5
    for 1000 g stores totalRevenue 5, not 1000*0/1000. *)
Lemma createStockItem_totals_counterexample :
  let d := StockItemData.mk "u1" berry "blueberry" 1000 (Some 5) (Some 0) (Some 0)
                            None None in
  let r := fst (createStockItem "i1" (mkDate 2024 0) d emptyStore) in
  (0 < 1000 ∧ 0 <= 0 ∧ 0 <= 0)
  ∧ Js.is_num (StockItem.totalRevenue r) 5
  ∧ ¬ derivedFrom 1000 0 0 r.
Proof.
  split; [|split].
  - repeat split; discriminate.
  - reflexivity.
  - intros (Hrev & _). vm_compute in Hrev. discriminate.
Qed.

(** ** The legacy unit price at creation *)

(** The controller's defaults do not change what the store computes: the
    record built from the normalised prices is the record built from the
    request's own prices. *)
Lemma newStockItem_withFinalPrices uuid now d :
  newStockItem uuid now (withFinalPrices d) = newStockItem uuid now d.
Proof.
  destruct d as [u t sp q up bp slp loc nt].
  unfold newStockItem, effectiveBuyPrice, effectiveSellPrice, withFinalPrices,
    finalUnitPrice, finalBuyPrice, finalSellPrice.
  cbn [StockItemData.userId StockItemData.type StockItemData.species
       StockItemData.quantity StockItemData.unitPrice StockItemData.buyPrice
       StockItemData.sellPrice StockItemData.location StockItemData.notes].
  assert (Hb : Js.or_else (Some (Js.or_else bp 0)) 0 = Js.or_else bp 0).
  { destruct bp as [b|]; simpl; [|reflexivity].
    destruct (Qeq_bool b 0) eqn:E; [reflexivity|by rewrite E]. }
  assert (Hs : Js.or_else (Some (Js.or_else slp (Js.or_else up 0)))
                 (Js.or_else (Some (Js.or_else up (Js.or_else slp (Js.or_else up 0)))) 0)
               = Js.or_else slp (Js.or_else up 0)).
  { destruct slp as [s|], up as [p|]; simpl;
      repeat (match goal with
              | |- context [Qeq_bool ?x 0] =>
                  let E := fresh "E" in
                  destruct (Qeq_bool x 0) eqn:E; simpl; rewrite ?E; simpl
              end); try reflexivity; congruence. }
  assert (Hu : Js.or_else (Some (Js.or_else up (Js.or_else slp (Js.or_else up 0))))
                 (Js.or_else slp (Js.or_else up 0))
               = Js.or_else up (Js.or_else slp (Js.or_else up 0))).
  { destruct slp as [s|], up as [p|]; simpl;
      repeat (match goal with
              | |- context [Qeq_bool ?x 0] =>
                  let E := fresh "E" in
                  destruct (Qeq_bool x 0) eqn:E; simpl; rewrite ?E; simpl
              end); try reflexivity; congruence. }
  rewrite Hb, Hs, Hu. reflexivity.
Qed.

(** C10.  For every create whose supplied sell price is zero or missing
    while the legacy unit price [u] is positive: the stored sell price is
    [u], totalRevenue is quantity*u/1000 (above zero for a quantity above
    zero), totalPrice equals totalRevenue, and the record counts as a sale
    and not as a purchase; the same record results when the request goes
    through the controller's defaults. *)
Theorem createStockItem_legacy_unitPrice
    (uuid : string) (now : JsDate) (ds : DataStore) (d : StockItemData.t) (u : Q) :
  Js.truthy (StockItemData.sellPrice d) = false →
  StockItemData.unitPrice d = Some u →
  0 < u →
  let r := fst (createStockItem uuid now d ds) in
  r ∈ stockItems (snd (createStockItem uuid now d ds))
  ∧ StockItem.sellPrice r = Some u
  ∧ StockItem.totalRevenue r = Some (StockItemData.quantity d * u / 1000)
  ∧ (0 < StockItemData.quantity d → 0 < StockItemData.quantity d * u / 1000)
  ∧ StockItem.totalPrice r = StockItem.totalRevenue r
  ∧ isSale r = true
  ∧ isPurchase r = false
  ∧ fst (createStockItem uuid now (withFinalPrices d) ds) = r.
Proof.
  intros Hs Hu Hpos r.
  assert (Hsell : effectiveSellPrice d = u).
  { unfold effectiveSellPrice. rewrite (or_else_falsy _ _ Hs), Hu.
    assert (Ht : Js.truthy (Some u) = true) by (apply gt_truthy; by apply gt_Some).
    destruct (or_else_truthy _ 0 Ht) as (q & [= <-] & ->). reflexivity. }
  assert (Hsale : isSale r = true).
  { unfold isSale, r. simpl. rewrite Hsell. by apply gt_Some. }
  repeat split.
  - unfold r. simpl. apply elem_of_app. right. by apply list_elem_of_singleton.
  - unfold r. simpl. by rewrite Hsell.
  - unfold r. simpl. by rewrite Hsell.
  - intros Hq. apply Qlt_shift_div_l; [reflexivity|].
    rewrite Qmult_0_l. by apply Qmult_lt_0_compat.
  - exact Hsale.
  - unfold isPurchase. rewrite (gt_excludes_zero _ Hsale). apply andb_false_r.
  - unfold r. simpl. apply newStockItem_withFinalPrices.
Qed.

Lemma createStockItem_legacy_unitPrice_witness :
  let d := StockItemData.mk "u1" berry "blueberry" 1000 (Some 5) (Some 0) None
                            None None in
  let r := fst (createStockItem "i1" (mkDate 2024 0) d emptyStore) in
  r ∈ stockItems (snd (createStockItem "i1" (mkDate 2024 0) d emptyStore))
  ∧ StockItem.sellPrice r = Some 5
  ∧ StockItem.totalRevenue r = Some (1000 * 5 / 1000)
  ∧ (0 < 1000 → 0 < 1000 * 5 / 1000)
  ∧ StockItem.totalPrice r = StockItem.totalRevenue r
  ∧ isSale r = true
  ∧ isPurchase r = false
  ∧ fst (createStockItem "i1" (mkDate 2024 0) (withFinalPrices d) emptyStore) = r.
Proof.
  apply (createStockItem_legacy_unitPrice "i1" (mkDate 2024 0) emptyStore
           (StockItemData.mk "u1" berry "blueberry" 1000 (Some 5) (Some 0) None
                             None None) 5).
  - reflexivity.
  - reflexivity.
  - reflexivity.
Defined.

(** [totalPrice] is a copy of [totalRevenue] on every created record. *)
Lemma createStockItem_totalPrice uuid now d ds :
  StockItem.totalPrice (fst (createStockItem uuid now d ds))
  = StockItem.totalRevenue (fst (createStockItem uuid now d ds)).
Proof. reflexivity. Qed.

(** ** Locating a record by id *)

(** What [findIndex] finds splits the array around the first match. *)
Lemma list_find_split {A} (P : A → Prop) `{!∀ x, Decision (P x)} (l : list A) i x :
  list_find P l = Some (i, x) →
  ∃ before after,
    l = before ++ x :: after ∧ length before = i ∧ P x
    ∧ Forall (λ y, ¬ P y) before.
Proof.
  intros (Hix & HP & Hfirst)%list_find_Some.
  exists (take i l), (drop (S i) l).
  assert (Hlt : (i < length l)%nat) by (eapply lookup_lt_Some; eassumption).
  repeat split.
  - symmetry. by apply take_drop_middle.
  - rewrite length_take. lia.
  - exact HP.
  - apply Forall_lookup. intros j y Hj.
    apply lookup_take_Some in Hj as [Hj Hji]. eauto.
Qed.

Lemma list_find_is_Some {A} (P : A → Prop) `{!∀ x, Decision (P x)} (l : list A) :
  is_Some (list_find P l) ↔ ∃ x, x ∈ l ∧ P x.
Proof.
  split.
  - intros [[i x] (Hix & HP & _)%list_find_Some].
    exists x. split; [|exact HP]. apply list_elem_of_lookup. eauto.
  - intros (x & Hx & HP). by eapply list_find_elem_of.
Qed.

(** Two filters that agree on the elements of a list select the same. *)
Lemma filter_agree {A} (P1 P2 : A → Prop) `{!∀ x, Decision (P1 x)}
    `{!∀ x, Decision (P2 x)} (l : list A) :
  (∀ x, x ∈ l → P1 x ↔ P2 x) → filter P1 l = filter P2 l.
Proof.
  induction l as [|x l IH]; intros Hagree; [reflexivity|].
  rewrite !filter_cons, IH
    by (intros y Hy; apply Hagree; by apply list_elem_of_further).
  destruct (decide (P1 x)) as [Hx1|Hx1], (decide (P2 x)) as [Hx2|Hx2];
    try reflexivity; destruct (Hagree x (list_elem_of_here _ _)); tauto.
Qed.

(** ** Update of a stock item *)

Lemma changesAmounts_touchesPrices u : changesAmounts u → touchesPrices u = true.
Proof.
  unfold touchesPrices.
  intros [H|[H|H]]; rewrite (bool_decide_eq_true_2 _ H);
    rewrite ?orb_true_r; reflexivity.
Qed.

Lemma num_or_else_zero x : Js.or_else x 0 == num x.
Proof. destruct x as [q|]; [apply or_else_zero|reflexivity]. Qed.

Lemma num_falsy x : Js.truthy x = false → num x == 0.
Proof.
  destruct x as [q|]; simpl; [|reflexivity].
  rewrite negb_false_iff. apply Qeq_bool_eq.
Qed.

(** The sell price used by the recalculation is the record's own sell price
    unless that is zero or missing while a unit price is present. *)
Lemma recalculate_sellPrice m :
  Js.truthy (StockItem.sellPrice m) = true
  ∨ Js.truthy (StockItem.unitPrice m) = false →
  Js.or_else (StockItem.sellPrice m) (Js.or_else (StockItem.unitPrice m) 0)
  == num (StockItem.sellPrice m).
Proof.
  intros [Hs|Hu].
  - destruct (or_else_truthy _ (Js.or_else (StockItem.unitPrice m) 0) Hs)
      as (q & Hq & ->). by rewrite Hq.
  - rewrite (or_else_falsy _ 0 Hu). apply num_or_else_zero.
Qed.

Lemma recalculate_consistent m :
  Js.truthy (StockItem.sellPrice m) = true
  ∨ Js.truthy (StockItem.unitPrice m) = false →
  consistent (recalculate m).
Proof.
  intros Hcase. pose proof (recalculate_sellPrice m Hcase) as Hs.
  pose proof (num_or_else_zero (StockItem.buyPrice m)) as Hb.
  repeat split; simpl.
  - by rewrite Hs.
  - by rewrite Hb.
  - eexists _, _. repeat split; simpl; reflexivity.
Qed.

(** What does hold of an update that recalculates: when the merged record's
    sell price is non-zero, or its legacy unit price is zero or missing, the
    updated record keeps the merged quantity, buy price and sell price and its
    three derived fields follow the formulas on them.  An update whose only
    key is [notes] replaces the notes and leaves every other field as it
    was.  The updated record is written back in the place of the old one. *)
Lemma updateStockItem_consistent_unless_fallback
    (id : string) (u : StockItemUpdates.t) (ds : DataStore)
    (index : nat) (old : StockItem.t) :
  list_find (λ item, StockItem.id item = id) (stockItems ds) = Some (index, old) →
  ∃ r,
    updateStockItem id u ds
    = (Some r, set_stockItems ds (<[index := r]> (stockItems ds)))
    ∧ (changesAmounts u →
       Js.truthy (StockItem.sellPrice (mergeUpdates old u)) = true
       ∨ Js.truthy (StockItem.unitPrice (mergeUpdates old u)) = false →
       StockItem.quantity r = StockItem.quantity (mergeUpdates old u)
       ∧ StockItem.buyPrice r = StockItem.buyPrice (mergeUpdates old u)
       ∧ StockItem.sellPrice r = StockItem.sellPrice (mergeUpdates old u)
       ∧ consistent r)
    ∧ (∀ n, u = notesOnly n → r = withNotes old n).
Proof.
  intros Hfind. exists (updatedStockItem old u). split; [|split].
  - unfold updateStockItem. by rewrite Hfind.
  - intros Hch Hcase. unfold updatedStockItem.
    rewrite (changesAmounts_touchesPrices _ Hch).
    repeat split; try reflexivity.
    all: apply (recalculate_consistent _ Hcase).
  - intros n ->. reflexivity.
Qed.

(** C2, at an input where the code departs from it.  The ledger holds one
    record, created as a sale of 1000 g bought at 3 and sold at 5 per kg, so
    with unit price 5.  The update [{ sellPrice: 0 }] names [sellPrice], and
    the merged record has quantity 1000, buy price 3 and sell price 0; but
    the record that is stored keeps totalRevenue 5 and totalProfit 2 and
    unit price 5 beside its sell price 0: the recalculation takes
    [sellPrice || unitPrice || 0] and writes the result to [unitPrice] and
    not to [sellPrice].  The derived fields are not those of the formulas on
    the merged quantity, buy price and sell price, and the inventory counts
    the record, with its revenue, as a purchase.  A create with the same
    quantity, unit price, buy price and sell price stores the sell price 5
    that it computes with, and a record that follows the formulas. *)
Theorem updateStockItem_zero_sellPrice :
  let u := sellPriceOnly (Some 0) in
  let after := snd (updateStockItem "i1" u aLedger) in
  let sibling :=
    fst (createStockItem "i2" (mkDate 2024 0)
           (StockItemData.mk "u1" berry "blueberry" 1000 (Some 5) (Some 3) (Some 0)
                             None None)
           emptyStore) in
  ∃ old r,
    stockItems aLedger = [old]
    ∧ StockItem.id old = "i1"
    ∧ StockItem.unitPrice old = Some 5
    ∧ consistent old
    ∧ changesAmounts u
    ∧ fst (updateStockItem "i1" u aLedger) = Some r
    ∧ stockItems after = [r]
    ∧ StockItem.quantity r = 1000
    ∧ StockItem.buyPrice r = Some 3
    ∧ StockItem.sellPrice r = Some 0
    ∧ StockItem.unitPrice r = Some 5
    ∧ Js.is_num (StockItem.totalRevenue r) 5
    ∧ Js.is_num (StockItem.totalCost r) 3
    ∧ Js.is_num (StockItem.totalProfit r) 2
    ∧ ¬ derivedFrom 1000 3 0 r
    ∧ ¬ consistent r
    ∧ purchase r
    ∧ getAvailableInventory "u1" None None after
      = [InventoryRow.mk berry "blueberry" 1000 0 1000]
    ∧ StockItem.sellPrice sibling = Some 5
    ∧ consistent sibling.
Proof.
  intros u after sibling. eexists _, _.
  split; [reflexivity|]. split; [reflexivity|]. split; [reflexivity|].
  split; [apply (createStockItem_consistent "i1" (mkDate 2024 0) aSale emptyStore)|].
  split; [right; right; by eexists|].
  split; [reflexivity|]. split; [reflexivity|]. split; [reflexivity|].
  split; [reflexivity|]. split; [reflexivity|]. split; [reflexivity|].
  split; [reflexivity|]. split; [reflexivity|]. split; [reflexivity|].
  split; [intros (Hrev & _); vm_compute in Hrev; discriminate|].
  split; [intros (Hrev & _); vm_compute in Hrev; discriminate|].
  split; [split; reflexivity|].
  split; [reflexivity|]. split; [reflexivity|].
  apply createStockItem_consistent.
Qed.

(** ** Deletion, and the not-found case of an update *)

(** C9.  [deleteStockItem(id)] returns true exactly when a record with
    that id is stored; it then removes the first such record and keeps every
    other record, in order; when it returns false, and when
    [updateStockItem(id, ...)] returns [null], the store is unchanged. *)
Theorem deleteStockItem_spec (id : string) (ds : DataStore) :
  (fst (deleteStockItem id ds) = true
   ↔ ∃ item, item ∈ stockItems ds ∧ StockItem.id item = id)
  ∧ (fst (deleteStockItem id ds) = true →
     ∃ before item after,
       stockItems ds = before ++ item :: after
       ∧ StockItem.id item = id
       ∧ Forall (λ x, StockItem.id x ≠ id) before
       ∧ snd (deleteStockItem id ds)
         = mkStore (users ds) (before ++ after) (prices ds))
  ∧ (fst (deleteStockItem id ds) = false → snd (deleteStockItem id ds) = ds)
  ∧ (∀ u, fst (updateStockItem id u ds) = None →
          snd (updateStockItem id u ds) = ds).
Proof.
  unfold deleteStockItem, updateStockItem.
  destruct (list_find (λ item, StockItem.id item = id) (stockItems ds))
    as [[i x]|] eqn:Hfind; simpl.
  - destruct (list_find_split _ _ _ _ Hfind) as (l1 & l2 & Hl & Hlen & Hid & Hb).
    repeat split; try discriminate.
    + intros _. exists x. split; [|exact Hid].
      rewrite Hl. apply elem_of_app. right. apply list_elem_of_here.
    + intros _. exists l1, x, l2. repeat split; try assumption.
      unfold set_stockItems. f_equal. rewrite Hl, <- Hlen. apply delete_middle.
  - repeat split; try discriminate; try reflexivity.
    intros Hex.
    apply (list_find_is_Some (λ item, StockItem.id item = id)) in Hex.
    rewrite Hfind in Hex. by destruct Hex.
Qed.

(** ** The integrity audit *)

Lemma abs_diff_gt_iff x e tol :
  Js.abs_diff_gt x e tol = true ↔ differsByMoreThan tol x e.
Proof.
  destruct x as [q|].
  - rewrite abs_diff_gt_Some. split.
    + intros H. by exists q.
    + by intros (v & [= <-] & H).
  - split; [discriminate|]. by intros (v & [=] & _).
Qed.

Lemma hasNoCostBasis_iff item : hasNoCostBasis item = true ↔ anomalous item.
Proof.
  unfold hasNoCostBasis, anomalous. rewrite andb_true_iff. split.
  - intros [(s & Hs & Hpos)%gt_inv (b & Hb & Hzero)%strict_eq_inv]. by exists s, b.
  - intros (s & b & -> & -> & Hpos & Hzero). split.
    + by apply gt_Some.
    + by apply strict_eq_Some.
Qed.

Lemma isMiscalculated_iff item : isMiscalculated item = true ↔ miscalculated item.
Proof.
  unfold isMiscalculated, miscalculated, storedValuesDiffer.
  rewrite !andb_true_iff, !orb_true_iff, !abs_diff_gt_iff. split.
  - intros [[(s & Hs & Hpos)%gt_inv (b & Hb & Hbpos)%gt_inv] Hdiff].
    exists s, b. rewrite Hs, Hb in Hdiff. simpl in Hdiff.
    repeat split; try assumption. tauto.
  - intros (s & b & Hs & Hb & Hpos & Hbpos & Hdiff).
    rewrite Hs, Hb. simpl. repeat split.
    + by apply gt_Some.
    + by apply gt_Some.
    + tauto.
Qed.

(** The two checks never fire on the same record. *)
Lemma hasNoCostBasis_not_miscalculated item :
  hasNoCostBasis item = true → isMiscalculated item = false.
Proof.
  unfold hasNoCostBasis, isMiscalculated. rewrite andb_true_iff.
  intros [_ Hzero]. destruct (Js.gt (StockItem.buyPrice item) 0) eqn:Hgt.
  - apply gt_excludes_zero in Hgt. congruence.
  - by rewrite andb_false_r.
Qed.

(** The loop appends, in ledger order, the flagged records and one message
    for each of them. *)
Lemma fold_auditItem items report :
  fold_left auditItem items report
  = mkReport (inconsistentItems report ++ filter (λ item, flagged item) items)
             (warnings report ++ (warningOf <$> filter (λ item, flagged item) items)).
Proof.
  revert report. induction items as [|item items IH]; intros report.
  - simpl. rewrite !app_nil_r. by destruct report.
  - cbn [fold_left]. rewrite IH. unfold auditItem.
    destruct (hasNoCostBasis item) eqn:Hn.
    + rewrite (hasNoCostBasis_not_miscalculated _ Hn).
      rewrite filter_cons_True by (unfold flagged; by rewrite Hn).
      cbn [inconsistentItems warnings fmap list_fmap]. unfold warningOf at 2.
      rewrite Hn. by rewrite <- !app_assoc.
    + destruct (isMiscalculated item) eqn:Hm.
      * rewrite filter_cons_True by (unfold flagged; by rewrite Hn, Hm).
        cbn [inconsistentItems warnings fmap list_fmap]. unfold warningOf at 2.
        rewrite Hn. by rewrite <- !app_assoc.
      * rewrite filter_cons_False by (unfold flagged; rewrite Hn, Hm; simpl; tauto).
        reflexivity.
Qed.

Lemma flagged_iff item : flagged item ↔ anomalous item ∨ miscalculated item.
Proof.
  unfold flagged. rewrite <- hasNoCostBasis_iff, <- isMiscalculated_iff.
  rewrite Is_true_true. apply orb_true_iff.
Qed.

(** C8.  The audit leaves the store as it was.  A record is reported as
    inconsistent exactly when it is in the ledger and either has a sell
    price above zero with a buy price of zero, or has both prices above
    zero and a stored totalRevenue, totalCost or totalProfit more than 0.01
    away from its recomputation; each such record gets its warning, and
    every warning belongs to such a record. *)
Theorem validateDataIntegrity_spec (ds : DataStore) :
  let report := fst (validateDataIntegrity ds) in
  snd (validateDataIntegrity ds) = ds
  ∧ (∀ item,
       item ∈ inconsistentItems report
       ↔ item ∈ stockItems ds ∧ (anomalous item ∨ miscalculated item))
  ∧ (∀ item,
       item ∈ stockItems ds → anomalous item →
       SellPriceButNoBuyPrice (StockItem.id item) (StockItem.sellPrice item)
         ∈ warnings report)
  ∧ (∀ item,
       item ∈ stockItems ds → miscalculated item →
       ValuesDoNotMatch (StockItem.id item) ∈ warnings report)
  ∧ (∀ w,
       w ∈ warnings report →
       ∃ item,
         item ∈ stockItems ds
         ∧ ((anomalous item
             ∧ w = SellPriceButNoBuyPrice (StockItem.id item) (StockItem.sellPrice item))
            ∨ (miscalculated item ∧ w = ValuesDoNotMatch (StockItem.id item)))).
Proof.
  intros report. unfold report, validateDataIntegrity. cbn [fst snd].
  rewrite fold_auditItem. cbn [inconsistentItems warnings app].
  assert (Hin : ∀ item,
             item ∈ filter (λ item, flagged item) (stockItems ds)
             ↔ item ∈ stockItems ds ∧ (anomalous item ∨ miscalculated item)).
  { intros item. rewrite list_elem_of_filter, flagged_iff. tauto. }
  split; [reflexivity|]. split; [exact Hin|]. split; [|split].
  - intros item Hitem Ha.
    apply list_elem_of_fmap. exists item. split.
    + unfold warningOf. by rewrite (proj2 (hasNoCostBasis_iff item) Ha).
    + apply Hin. tauto.
  - intros item Hitem Hm.
    apply list_elem_of_fmap. exists item. split.
    + unfold warningOf.
      destruct (hasNoCostBasis item) eqn:Hn; [|reflexivity].
      apply hasNoCostBasis_not_miscalculated in Hn.
      apply isMiscalculated_iff in Hm. congruence.
    + apply Hin. tauto.
  - intros w (item & -> & Hflag)%list_elem_of_fmap.
    apply Hin in Hflag as [Hitem Hwhy]. exists item. split; [exact Hitem|].
    unfold warningOf. destruct (hasNoCostBasis item) eqn:Hn.
    + left. split; [by apply hasNoCostBasis_iff|reflexivity].
    + right. split; [|reflexivity].
      destruct Hwhy as [Ha|Hm]; [|exact Hm].
      apply hasNoCostBasis_iff in Ha. congruence.
Qed.

(** ** Per-user totals and yearly profit *)

(** A proper sale has both prices above zero. *)
Lemma isProperSale_iff item :
  isProperSale item = true
  ↔ ∃ s b,
      StockItem.sellPrice item = Some s ∧ StockItem.buyPrice item = Some b
      ∧ 0 < s ∧ 0 < b.
Proof.
  unfold isProperSale. rewrite andb_true_iff. split.
  - intros [(s & Hs & Hpos)%gt_inv (b & Hb & Hbpos)%gt_inv]. by exists s, b.
  - intros (s & b & -> & -> & Hpos & Hbpos). split; by apply gt_Some.
Qed.

(** The records that the yearly profit of a user is computed from. *)
Lemma salesOfUser_iff userId typeFilter ds item :
  item ∈ salesOfUser userId typeFilter ds
  ↔ item ∈ stockItems ds
    ∧ StockItem.userId item = userId
    ∧ isProperSale item = true
    ∧ (∀ t, typeFilter = Some t → StockItem.type item = t).
Proof.
  unfold salesOfUser. destruct typeFilter as [t|];
    rewrite ?list_elem_of_filter, Is_true_true.
  - split.
    + intros (Ht & Hs & Hu & Hin). repeat split; try assumption. by intros ? [= <-].
    + intros (Hin & Hu & Hs & Ht). repeat split; try assumption. by apply Ht.
  - split.
    + intros (Hs & Hu & Hin). repeat split; try assumption. discriminate.
    + intros (Hin & Hu & Hs & _). by repeat split.
Qed.

(** A record whose buy price is zero is left out of the yearly profit,
    whatever its sell price. *)
Lemma salesOfUser_excludes_zero_buyPrice userId typeFilter ds item :
  Js.strict_eq (StockItem.buyPrice item) 0 = true →
  item ∉ salesOfUser userId typeFilter ds.
Proof.
  intros Hzero (_ & _ & Hsale & _)%salesOfUser_iff.
  unfold isProperSale in Hsale. apply andb_true_iff in Hsale as [_ Hgt].
  apply gt_excludes_zero in Hgt. congruence.
Qed.

(** The totals of [getUserById] fold every record of the user. *)
Lemma getUserById_totals id ds user :
  getUserById id ds = Some user →
  User.revenue user = sumOver itemRevenue (getStockItemsByUser id ds)
  ∧ User.profit user = sumOver itemProfitOrRevenue (getStockItemsByUser id ds).
Proof.
  unfold getUserById.
  destruct (list_find _ (users ds)) as [[i u]|]; [|discriminate].
  intros [= <-]. split; reflexivity.
Qed.

(** The profit that a record contributes to the totals of its user is its
    [totalProfit] when that is a number other than zero. *)
Lemma itemProfitOrRevenue_nonzero item p :
  StockItem.totalProfit item = Some p → ¬ p == 0 →
  itemProfitOrRevenue item = p.
Proof.
  intros Hp Hne. unfold itemProfitOrRevenue. rewrite Hp. simpl.
  destruct (Qeq_bool p 0) eqn:E; [|reflexivity].
  by apply Qeq_bool_eq in E.
Qed.

(** It is the revenue when [totalProfit] is missing, and also when it is
    zero. *)
Lemma itemProfitOrRevenue_fallback item :
  Js.truthy (StockItem.totalProfit item) = false →
  itemProfitOrRevenue item = itemRevenue item.
Proof. apply or_else_falsy. Qed.

(** C3, at the input where the code departs from it.  Alice's only record
    is a sale with revenue 5, cost 5 and totalProfit 0 (present, not
    missing).  The yearly profit counts it with profit 0, but [getUserById]
    and [getAllUsers] report profit 5: a totalProfit of zero is replaced by
    the revenue. *)
Theorem getUserById_break_even_profit :
  ∃ item user,
    getStockItemsByUser "u1" breakEvenLedger = [item]
    ∧ Js.is_num (StockItem.totalRevenue item) 5
    ∧ Js.is_num (StockItem.totalProfit item) 0
    ∧ getUserById "u1" breakEvenLedger = Some user
    ∧ getAllUsers breakEvenLedger = [user]
    ∧ User.revenue user == 5
    ∧ User.profit user == 5
    ∧ ¬ User.profit user == 0
    ∧ ∃ bucket,
        getUserProfitByYear "u1" None breakEvenLedger !! 2024%Z = Some bucket
        ∧ YearData.profit bucket == 0.
Proof.
  eexists _, _. split; [reflexivity|].
  split; [reflexivity|]. split; [reflexivity|].
  split; [reflexivity|]. split; [reflexivity|].
  split; [reflexivity|]. split; [reflexivity|].
  split; [discriminate|].
  eexists. split; [by vm_compute|reflexivity].
Qed.

(** ** Yearly summaries *)

Section YearlyBuckets.

Context {A : Type} (year : A → Z) (revenue cost profit : A → Q).

Local Abbreviation step := (accumulate year revenue cost profit).
Local Abbreviation grow := (addToBucket revenue cost profit).

Lemma accumulate_same yearlyData a :
  step yearlyData a !! year a
  = Some (grow (default YearData.zero (yearlyData !! year a)) a).
Proof. unfold accumulate, addToYear. by rewrite lookup_insert_eq. Qed.

Lemma accumulate_other yearlyData a y :
  year a ≠ y → step yearlyData a !! y = yearlyData !! y.
Proof. intros Hne. unfold accumulate, addToYear. by rewrite lookup_insert_ne. Qed.

(** The bucket of year [y] after the loop only depends on the elements of
    that year, taken in order. *)
Lemma fold_accumulate_lookup l yearlyData y :
  fold_left step l yearlyData !! y
  = match filter (λ a, year a = y) l with
    | [] => yearlyData !! y
    | a :: es =>
        Some (fold_left grow (a :: es)
                (default YearData.zero (yearlyData !! y)))
    end.
Proof.
  revert yearlyData. induction l as [|a l IH]; intros yearlyData; [reflexivity|].
  cbn [fold_left]. rewrite IH, filter_cons. destruct (decide (year a = y)) as [<-|Hne].
  - rewrite accumulate_same.
    by destruct (filter (λ a0, year a0 = year a) l).
  - by rewrite accumulate_other.
Qed.

Lemma fold_addToBucket es bucket :
  fold_left grow es bucket
  = YearData.mk
      (fold_left (λ total a, total + revenue a) es (YearData.revenue bucket))
      (fold_left (λ total a, total + cost a) es (YearData.cost bucket))
      (fold_left (λ total a, total + profit a) es (YearData.profit bucket))
      (YearData.itemCount bucket + Z.of_nat (length es)).
Proof.
  revert bucket. induction es as [|a es IH]; intros bucket.
  - simpl. rewrite Z.add_0_r. by destruct bucket.
  - cbn [fold_left]. rewrite IH. simpl YearData.itemCount. f_equal.
    rewrite length_cons. lia.
Qed.

(** Starting from no bucket at all, a year with entries gets their sums and
    their number; a year with none gets no bucket. *)
Lemma fold_accumulate_empty l y :
  fold_left step l ∅ !! y
  = match filter (λ a, year a = y) l with
    | [] => None
    | a :: es =>
        Some (YearData.mk (sumOver revenue (a :: es)) (sumOver cost (a :: es))
                          (sumOver profit (a :: es))
                          (Z.of_nat (length (a :: es))))
    end.
Proof.
  rewrite fold_accumulate_lookup, lookup_empty.
  destruct (filter (λ a, year a = y) l) as [|a es]; [reflexivity|].
  by rewrite fold_addToBucket.
Qed.

End YearlyBuckets.

(** *** The price analysis *)

(** The bucket of year [y] after the loop only depends on the entries of
    that year, taken in order. *)
Lemma fold_addPrice_lookup l yearlyData y :
  fold_left addPrice l yearlyData !! y
  = match filter (λ p, Price.year p = y) l with
    | [] => yearlyData !! y
    | p :: ps =>
        Some (fold_left growPrice (p :: ps)
                (default PriceYearData.zero (yearlyData !! y)))
    end.
Proof.
  revert yearlyData. induction l as [|p l IH]; intros yearlyData; [reflexivity|].
  cbn [fold_left]. rewrite IH, filter_cons.
  destruct (decide (Price.year p = y)) as [<-|Hne].
  - unfold addPrice at 1 2. rewrite lookup_insert_eq.
    by destruct (filter (λ p0, Price.year p0 = Price.year p) l).
  - unfold addPrice at 1 2. by rewrite lookup_insert_ne.
Qed.

Lemma fold_growPrice ps bucket :
  fold_left growPrice ps bucket
  = PriceYearData.mk
      (fold_left (λ sum p, Js.plus sum (Price.sellPrice p)) ps
         (PriceYearData.revenue bucket))
      (fold_left (λ sum p, Js.plus sum (Price.buyPrice p)) ps
         (PriceYearData.cost bucket))
      (fold_left (λ sum p, Js.plus sum (profitPerKg p)) ps
         (PriceYearData.profit bucket))
      (PriceYearData.itemCount bucket + Z.of_nat (length ps)).
Proof.
  revert bucket. induction ps as [|p ps IH]; intros bucket.
  - simpl. rewrite Z.add_0_r. by destruct bucket.
  - cbn [fold_left]. rewrite IH. simpl PriceYearData.itemCount. f_equal.
    rewrite length_cons. lia.
Qed.

(** The entries of one year that the type filter lets through. *)
Lemma pricesOfType_year typeFilter ds y :
  filter (λ p, Price.year p = y) (pricesOfType typeFilter ds)
  = filter (analysed typeFilter y) (prices ds).
Proof.
  unfold pricesOfType, analysed, typeSelected. destruct typeFilter as [t|].
  - rewrite list_filter_filter. apply list_filter_iff. intros p. tauto.
  - apply list_filter_iff. intros p. tauto.
Qed.

Lemma total_snoc {A} (f : A → option Q) l a :
  total f (l ++ [a]) = Js.plus (total f l) (f a).
Proof. unfold total. by rewrite fold_left_app. Qed.

(** A sum without a missing term is the sum of the numbers. *)
Lemma total_defined {A} (f : A → option Q) l :
  Forall (λ a, is_Some (f a)) l →
  total f l = Some (sumOver (λ a, num (f a)) l).
Proof.
  induction l as [|a l IH] using rev_ind; intros Hl; [reflexivity|].
  apply Forall_app in Hl as [Hl Ha]. apply Forall_singleton in Ha as [q Hq].
  rewrite total_snoc, sumOver_snoc, IH by done. by rewrite Hq.
Qed.

(** A call that is not one of the three on prices leaves the table as it
    is. *)
Lemma besidePrices_prices op ds : besidePrices op → prices (run op ds) = prices ds.
Proof.
  destruct op; simpl; try done; intros _.
  - unfold updateStockItem. by destruct (list_find _ (stockItems ds)) as [[??]|].
  - unfold deleteStockItem. by destruct (list_find _ (stockItems ds)) as [[??]|].
Qed.

(** C7.  The price analysis is the same in any two stores with the same
    price table, whatever their users and ledgers, and no call other than
    the three on prices changes it.  For each year it holds no bucket when
    the table has no entry of that year whose type the filter lets through,
    and otherwise the sums, over those entries in table order, of sellPrice
    (revenue), buyPrice (cost) and sellPrice - buyPrice (profit), with their
    number as itemCount; where the prices of the entries are all numbers
    these are the plain sums of numbers.  With one berry entry (buy 2, sell
    5) and one mushroom entry (buy 1, sell 4) for 2024, year 2024 maps to
    revenue 9, cost 3, profit 6, itemCount 2; with the filter set to berry it
    maps to 5, 2, 3, 1 and with the filter set to mushroom to 4, 1, 3, 1. *)
Theorem getPriceProfitAnalysis_spec :
  (∀ typeFilter users1 ledger1 users2 ledger2 table,
     getPriceProfitAnalysis typeFilter (mkStore users1 ledger1 table)
     = getPriceProfitAnalysis typeFilter (mkStore users2 ledger2 table))
  ∧ (∀ typeFilter op ds,
       besidePrices op →
       getPriceProfitAnalysis typeFilter (run op ds)
       = getPriceProfitAnalysis typeFilter ds)
  ∧ (∀ typeFilter ds y,
       getPriceProfitAnalysis typeFilter ds !! y
       = match filter (analysed typeFilter y) (prices ds) with
         | [] => None
         | p :: ps =>
             Some (PriceYearData.mk
                     (total Price.sellPrice (p :: ps))
                     (total Price.buyPrice (p :: ps))
                     (total (λ p, Js.minus (Price.sellPrice p) (Price.buyPrice p))
                            (p :: ps))
                     (Z.of_nat (length (p :: ps))))
         end)
  ∧ (∀ ps : list Price.t,
       Forall priced ps →
       total Price.sellPrice ps = Some (sumOver (λ p, num (Price.sellPrice p)) ps)
       ∧ total Price.buyPrice ps = Some (sumOver (λ p, num (Price.buyPrice p)) ps)
       ∧ total (λ p, Js.minus (Price.sellPrice p) (Price.buyPrice p)) ps
         = Some (sumOver (λ p, num (Price.sellPrice p) - num (Price.buyPrice p)) ps))
  ∧ (∀ users ledger id1 id2 species1 species2 at1 at2,
       let ds :=
         mkStore users ledger
           [Price.mk id1 berry species1 2024 (Some 2) (Some 5) at1;
            Price.mk id2 mushroom species2 2024 (Some 1) (Some 4) at2] in
       getPriceProfitAnalysis None ds !! 2024%Z
       = Some (PriceYearData.mk (Some 9) (Some 3) (Some 6) 2)
       ∧ getPriceProfitAnalysis (Some berry) ds !! 2024%Z
         = Some (PriceYearData.mk (Some 5) (Some 2) (Some 3) 1)
       ∧ getPriceProfitAnalysis (Some mushroom) ds !! 2024%Z
         = Some (PriceYearData.mk (Some 4) (Some 1) (Some 3) 1)).
Proof.
  assert (Hlookup : ∀ typeFilter ds y,
             getPriceProfitAnalysis typeFilter ds !! y
             = match filter (analysed typeFilter y) (prices ds) with
               | [] => None
               | p :: ps =>
                   Some (PriceYearData.mk
                           (total Price.sellPrice (p :: ps))
                           (total Price.buyPrice (p :: ps))
                           (total (λ p, Js.minus (Price.sellPrice p)
                                                 (Price.buyPrice p))
                                  (p :: ps))
                           (Z.of_nat (length (p :: ps))))
               end).
  { intros typeFilter ds y. unfold getPriceProfitAnalysis.
    rewrite fold_addPrice_lookup, lookup_empty, pricesOfType_year.
    destruct (filter (analysed typeFilter y) (prices ds)) as [|p ps]; [reflexivity|].
    by rewrite fold_growPrice. }
  split; [reflexivity|]. split; [|split; [exact Hlookup|split]].
  - intros typeFilter op ds Hop. unfold getPriceProfitAnalysis, pricesOfType.
    by rewrite (besidePrices_prices op ds Hop).
  - intros ps Hps. split; [|split].
    + apply total_defined. eapply Forall_impl; [exact Hps|]. by intros p [_ Hs].
    + apply total_defined. eapply Forall_impl; [exact Hps|]. by intros p [Hb _].
    + rewrite (total_defined (λ p, Js.minus (Price.sellPrice p) (Price.buyPrice p))).
      * f_equal. apply sumOver_ext. intros p Hp.
        rewrite Forall_forall in Hps. destruct (Hps p Hp) as [[b ->] [q ->]].
        reflexivity.
      * eapply Forall_impl; [exact Hps|]. intros p [[b ->] [q ->]]. by eexists.
  - intros users ledger id1 id2 species1 species2 at1 at2 ds.
    rewrite !Hlookup. by repeat split.
Qed.

(** ** The states of the store *)

Lemma sameTriple_priceKey d p :
  sameTriple d p
  ↔ priceKey p = (PriceData.type d, PriceData.species d, PriceData.year d).
Proof.
  unfold sameTriple, priceKey. split.
  - by intros (-> & -> & ->).
  - by intros [= -> -> ->].
Qed.

(** Writing over an entry an entry with the same key keeps the keys. *)
Lemma priceKey_insert_same (table : list Price.t) (i : nat) old new :
  table !! i = Some old → priceKey new = priceKey old →
  priceKey <$> <[i := new]> table = priceKey <$> table.
Proof.
  intros Hi Hkey. rewrite list_fmap_insert. apply list_insert_id.
  by rewrite list_lookup_fmap, Hi, Hkey.
Qed.

Lemma createPrice_uniqueTriples uuid now d ds :
  uniqueTriples (prices ds) →
  uniqueTriples (prices (snd (createPrice uuid now d ds))).
Proof.
  unfold uniqueTriples, createPrice. intros Hu.
  destruct (list_find (sameTriple d) (prices ds)) as [[i old]|] eqn:Hfind; simpl.
  - apply list_find_Some in Hfind as (Hi & Hsame & _).
    rewrite (priceKey_insert_same _ _ old); [exact Hu|exact Hi|].
    apply sameTriple_priceKey in Hsame. by rewrite Hsame.
  - rewrite fmap_app. apply NoDup_app. split; [exact Hu|]. split.
    + intros k Hk Hnew. apply list_elem_of_singleton in Hnew.
      apply list_elem_of_fmap in Hk as (p & Hp & Hin).
      apply list_find_None in Hfind.
      rewrite Forall_forall in Hfind. apply (Hfind p Hin).
      apply sameTriple_priceKey. by rewrite <- Hp, Hnew.
    + apply NoDup_singleton.
Qed.

Lemma updatePrice_uniqueTriples id now u ds :
  uniqueTriples (prices ds) →
  uniqueTriples (prices (snd (updatePrice id now u ds))).
Proof.
  unfold uniqueTriples, updatePrice. intros Hu.
  destruct (list_find _ (prices ds)) as [[i old]|] eqn:Hfind; simpl; [|exact Hu].
  apply list_find_Some in Hfind as (Hi & _ & _).
  by rewrite (priceKey_insert_same _ _ old).
Qed.

Lemma deletePrice_uniqueTriples id ds :
  uniqueTriples (prices ds) →
  uniqueTriples (prices (snd (deletePrice id ds))).
Proof.
  unfold uniqueTriples, deletePrice. intros Hu.
  destruct (list_find _ (prices ds)) as [[i old]|]; simpl; [|exact Hu].
  rewrite list_fmap_delete. eapply sublist_NoDup; [exact Hu|apply sublist_delete].
Qed.

(** The price table of a reachable state has no two entries for one triple. *)
Lemma reachable_uniqueTriples ds : reachable ds → uniqueTriples (prices ds).
Proof.
  induction 1 as [|op ds Hds IH]; [apply NoDup_nil_2|].
  destruct op; simpl run.
  - exact IH.
  - exact IH.
  - unfold updateStockItem. by destruct (list_find _ (stockItems ds)) as [[??]|].
  - unfold deleteStockItem. by destruct (list_find _ (stockItems ds)) as [[??]|].
  - by apply createPrice_uniqueTriples.
  - by apply updatePrice_uniqueTriples.
  - by apply deletePrice_uniqueTriples.
Qed.

(** In a table without duplicate triples, two entries with the same key are
    the same entry, at the same place. *)
Lemma uniqueTriples_lookup (table : list Price.t) (i j : nat) p q :
  uniqueTriples table →
  table !! i = Some p → table !! j = Some q → priceKey p = priceKey q →
  i = j ∧ p = q.
Proof.
  intros Hu Hi Hj Hkey.
  assert (i = j) as ->.
  { apply (NoDup_lookup _ i j (priceKey p) Hu).
    - by rewrite list_lookup_fmap, Hi.
    - by rewrite list_lookup_fmap, Hj, Hkey. }
  split; [reflexivity|congruence].
Qed.

Lemma uniqueTriples_elem_of (table : list Price.t) p q :
  uniqueTriples table → p ∈ table → q ∈ table → priceKey p = priceKey q → p = q.
Proof.
  intros Hu (i & Hi)%list_elem_of_lookup (j & Hj)%list_elem_of_lookup Hkey.
  by destruct (uniqueTriples_lookup _ _ _ _ _ Hu Hi Hj Hkey).
Qed.

(** C5.  In every reachable state the price table holds at most one entry
    per type, species and year.  A [createPrice] for a triple that has an
    entry writes over that entry, in its place: the id is kept, buy price,
    sell price and timestamp are the new ones, every other entry is as
    before and the table has the same length, so that no second entry for
    the triple appears. *)
Theorem createPrice_upsert (ds : DataStore) :
  reachable ds →
  (∀ i j p q,
     prices ds !! i = Some p → prices ds !! j = Some q →
     priceKey p = priceKey q → i = j)
  ∧ (∀ uuid now d index existing,
       prices ds !! index = Some existing → sameTriple d existing →
       ∃ updated,
         createPrice uuid now d ds
         = (updated, set_prices ds (<[index := updated]> (prices ds)))
         ∧ updated
           = Price.mk (Price.id existing) (Price.type existing)
               (Price.species existing) (Price.year existing)
               (Some (PriceData.buyPrice d)) (Some (PriceData.sellPrice d)) now
         ∧ length (prices (snd (createPrice uuid now d ds))) = length (prices ds)
         ∧ (∀ j, j ≠ index →
                 prices (snd (createPrice uuid now d ds)) !! j = prices ds !! j)
         ∧ uniqueTriples (prices (snd (createPrice uuid now d ds)))).
Proof.
  intros Hreach. pose proof (reachable_uniqueTriples _ Hreach) as Hu. split.
  - intros i j p q Hi Hj Hkey.
    by destruct (uniqueTriples_lookup _ _ _ _ _ Hu Hi Hj Hkey).
  - intros uuid now d index existing Hindex Hsame.
    pose proof (createPrice_uniqueTriples uuid now d ds Hu) as Hu'.
    revert Hu'. unfold createPrice.
    destruct (list_find (sameTriple d) (prices ds)) as [[i old]|] eqn:Hfind.
    + apply list_find_Some in Hfind as (Hi & Hsame' & _).
      assert (i = index ∧ old = existing) as [-> ->].
      { apply (uniqueTriples_lookup _ _ _ _ _ Hu Hi Hindex).
        apply sameTriple_priceKey in Hsame, Hsame'. congruence. }
      intros Hu'. eexists. split; [reflexivity|]. cbn [fst snd prices set_prices].
      destruct Hsame as (Ht & Hs & Hy). rewrite Ht, Hs, Hy.
      split; [reflexivity|]. split; [apply length_insert|]. split; [|exact Hu'].
      intros j Hj. by apply list_lookup_insert_ne.
    + apply list_find_None in Hfind. rewrite Forall_forall in Hfind.
      destruct (Hfind existing); [|exact Hsame].
      apply list_elem_of_lookup. eauto.
Qed.

Lemma createPrice_upsert_witness :
  (∀ i j p q,
     prices onePrice !! i = Some p → prices onePrice !! j = Some q →
     priceKey p = priceKey q → i = j)
  ∧ (∀ uuid now d index existing,
       prices onePrice !! index = Some existing → sameTriple d existing →
       ∃ updated,
         createPrice uuid now d onePrice
         = (updated, set_prices onePrice (<[index := updated]> (prices onePrice)))
         ∧ updated
           = Price.mk (Price.id existing) (Price.type existing)
               (Price.species existing) (Price.year existing)
               (Some (PriceData.buyPrice d)) (Some (PriceData.sellPrice d)) now
         ∧ length (prices (snd (createPrice uuid now d onePrice)))
           = length (prices onePrice)
         ∧ (∀ j, j ≠ index →
                 prices (snd (createPrice uuid now d onePrice)) !! j
                 = prices onePrice !! j)
         ∧ uniqueTriples (prices (snd (createPrice uuid now d onePrice)))).
Proof.
  apply (createPrice_upsert onePrice).
  apply reachable_run, reachable_new.
Defined.

(** ** The current price *)

(** The first element after an insertion. *)
Lemma head_insertByYearDesc p l :
  head (insertByYearDesc p l)
  = match head l with
    | None => Some p
    | Some q => if (Price.year q <=? Price.year p)%Z then Some p else Some q
    end.
Proof.
  destruct l as [|q l]; [reflexivity|]. simpl.
  by destruct (Price.year q <=? Price.year p)%Z.
Qed.

Lemma insertByYearDesc_perm p l : insertByYearDesc p l ≡ₚ p :: l.
Proof.
  induction l as [|q l IH]; [reflexivity|]. simpl.
  destruct (Price.year q <=? Price.year p)%Z; [reflexivity|].
  rewrite IH. apply Permutation_swap.
Qed.

(** Sorting keeps the entries. *)
Lemma sortByYearDesc_perm l : sortByYearDesc l ≡ₚ l.
Proof.
  induction l as [|p l IH]; [reflexivity|]. simpl.
  by rewrite insertByYearDesc_perm, IH.
Qed.

Lemma yearsDescend_cons p l :
  yearsDescend (p :: l)
  ↔ Forall (λ q, (Price.year q <= Price.year p)%Z) l ∧ yearsDescend l.
Proof.
  unfold yearsDescend. split.
  - intros H. split.
    + apply Forall_lookup. intros j q Hq. apply (H 0%nat (S j)); [done|done|lia].
    + intros i j x y Hx Hy Hij. apply (H (S i) (S j)); [done|done|lia].
  - intros [Hall Hl] i j x y Hx Hy Hij.
    destruct j as [|j]; [lia|]. destruct i as [|i]; simpl in *.
    + injection Hx as <-. rewrite Forall_lookup in Hall. by apply (Hall j).
    + apply (Hl i j); [done|done|lia].
Qed.

Lemma insertByYearDesc_descend p l :
  yearsDescend l → yearsDescend (insertByYearDesc p l).
Proof.
  induction l as [|q l IH]; intros Hl; simpl.
  - apply yearsDescend_cons. split; [constructor|]. by intros ? ? ? ? [=].
  - destruct (Z.leb_spec (Price.year q) (Price.year p)) as [Hle|Hgt].
    + apply yearsDescend_cons. split; [|exact Hl].
      apply yearsDescend_cons in Hl as [Hall _]. constructor; [exact Hle|].
      eapply Forall_impl; [exact Hall|]. simpl. intros. lia.
    + apply yearsDescend_cons in Hl as [Hall Hl].
      apply yearsDescend_cons. split; [|by apply IH].
      rewrite insertByYearDesc_perm. constructor; [lia|exact Hall].
Qed.

(** The result of the sort is in descending order of year. *)
Lemma sortByYearDesc_descend l : yearsDescend (sortByYearDesc l).
Proof.
  induction l as [|p l IH]; simpl.
  - by intros ? ? ? ? [=].
  - by apply insertByYearDesc_descend.
Qed.

(** The first element of the sorted array is an entry of the highest year. *)
Lemma head_sortByYearDesc l :
  match head (sortByYearDesc l) with
  | None => l = []
  | Some best =>
      best ∈ l ∧ Forall (λ q, (Price.year q <= Price.year best)%Z) l
  end.
Proof.
  induction l as [|p l IH]; [reflexivity|].
  simpl. rewrite head_insertByYearDesc.
  destruct (head (sortByYearDesc l)) as [q|].
  - destruct IH as [Hq Hall].
    destruct (Z.leb_spec (Price.year q) (Price.year p)) as [Hle|Hgt].
    + split; [apply list_elem_of_here|]. constructor; [lia|].
      eapply Forall_impl; [exact Hall|]. simpl. intros. lia.
    + split; [by apply list_elem_of_further|]. constructor; [lia|exact Hall].
  - subst l. split; [apply list_elem_of_here|]. by repeat constructor.
Qed.

(** C6.  In every reachable state: when the table has an entry for the
    type and species with the current year, [getCurrentPrice] returns that
    entry; when it has entries for the type and species but none with the
    current year, it returns one of them whose year is strictly above the
    year of every other one; and it returns nothing exactly when the table
    has no entry for the type and species. *)
Theorem getCurrentPrice_spec
    (ds : DataStore) (currentYear : Z) (type : Category) (species : string) :
  reachable ds →
  (∀ p, matches ds type species p → Price.year p = currentYear →
        getCurrentPrice currentYear type species ds = Some p)
  ∧ ((¬ ∃ p, matches ds type species p ∧ Price.year p = currentYear) →
     ∀ p, matches ds type species p →
          ∃ best,
            getCurrentPrice currentYear type species ds = Some best
            ∧ matches ds type species best
            ∧ ∀ q, matches ds type species q → q ≠ best →
                   (Price.year q < Price.year best)%Z)
  ∧ (getCurrentPrice currentYear type species ds = None
     ↔ ¬ ∃ p, matches ds type species p).
Proof.
  intros Hu%reachable_uniqueTriples. unfold getCurrentPrice, matches.
  destruct (list_find _ (prices ds)) as [[i found]|] eqn:Hfind.
  - apply list_find_Some in Hfind as (Hi & [[Ht Hs] Hy] & _).
    assert (Hin : found ∈ prices ds) by (apply list_elem_of_lookup; eauto).
    split; [|split].
    + intros p (Hp & Htp & Hsp) Hyp. f_equal.
      apply (uniqueTriples_elem_of _ _ _ Hu Hin Hp).
      unfold priceKey. congruence.
    + intros Hnone. destruct Hnone. by exists found.
    + split; [discriminate|]. intros Hnone. destruct Hnone. by exists found.
  - apply list_find_None in Hfind. rewrite Forall_forall in Hfind.
    pose proof (head_sortByYearDesc (filter (forSpecies type species) (prices ds)))
      as Hhead.
    destruct (head (sortByYearDesc _)) as [best|].
    + destruct Hhead as [Hbest Hall]. rewrite Forall_forall in Hall.
      apply list_elem_of_filter in Hbest as [[Hbt Hbs] Hbin].
      split; [|split].
      * intros p (Hp & Htp & Hsp) Hyp. destruct (Hfind p Hp). by repeat split.
      * intros _ p _. exists best. split; [reflexivity|]. split; [done|].
        intros q (Hq & Htq & Hsq) Hne.
        assert (Hle : (Price.year q <= Price.year best)%Z).
        { apply Hall. apply list_elem_of_filter. by repeat split. }
        assert (Price.year q ≠ Price.year best); [|lia].
        intros Hsame. apply Hne.
        apply (uniqueTriples_elem_of _ _ _ Hu Hq Hbin).
        unfold priceKey. congruence.
      * split; [discriminate|]. intros Hnone. destruct Hnone. by exists best.
    + split; [|split].
      * intros p (Hp & Htp & Hsp) Hyp. destruct (Hfind p Hp). by repeat split.
      * intros _ p (Hp & Htp & Hsp).
        assert (Hpin : p ∈ filter (forSpecies type species) (prices ds))
          by (apply list_elem_of_filter; by repeat split).
        rewrite Hhead in Hpin. by apply elem_of_nil in Hpin.
      * split; [|reflexivity]. intros _ (p & Hp & Htp & Hsp).
        assert (Hpin : p ∈ filter (forSpecies type species) (prices ds))
          by (apply list_elem_of_filter; by repeat split).
        rewrite Hhead in Hpin. by apply elem_of_nil in Hpin.
Qed.

Lemma getCurrentPrice_spec_witness :
  (∀ p, matches onePrice berry "blueberry" p → Price.year p = 2025%Z →
        getCurrentPrice 2025 berry "blueberry" onePrice = Some p)
  ∧ ((¬ ∃ p, matches onePrice berry "blueberry" p ∧ Price.year p = 2025%Z) →
     ∀ p, matches onePrice berry "blueberry" p →
          ∃ best,
            getCurrentPrice 2025 berry "blueberry" onePrice = Some best
            ∧ matches onePrice berry "blueberry" best
            ∧ ∀ q, matches onePrice berry "blueberry" q → q ≠ best →
                   (Price.year q < Price.year best)%Z)
  ∧ (getCurrentPrice 2025 berry "blueberry" onePrice = None
     ↔ ¬ ∃ p, matches onePrice berry "blueberry" p).
Proof.
  apply (getCurrentPrice_spec onePrice 2025 berry "blueberry").
  apply reachable_run, reachable_new.
Defined.

(** The sort is stable: the entries of one year keep their order. *)
Lemma sortByYearDesc_stable l y :
  filter (λ p, Price.year p = y) (sortByYearDesc l)
  = filter (λ p, Price.year p = y) l.
Proof.
  assert (Hins : ∀ p k,
             filter (λ p, Price.year p = y) (insertByYearDesc p k)
             = filter (λ p, Price.year p = y) (p :: k)).
  { intros p k. induction k as [|q k IH]; [reflexivity|]. simpl.
    destruct (Z.leb_spec (Price.year q) (Price.year p)) as [Hle|Hgt]; [reflexivity|].
    rewrite (filter_cons _ q), IH, !filter_cons.
    destruct (decide (Price.year q = y)), (decide (Price.year p = y));
      try reflexivity. lia. }
  induction l as [|p l IH]; [reflexivity|]. simpl.
  by rewrite Hins, !filter_cons, IH.
Qed.

(** ** Available inventory *)

Section JsMapFacts.

Context {V : Type}.
Implicit Types (m : JsMap V) (k : string) (v : V).

Lemma jsmap_get_set_eq k v m : jsmap_get k (jsmap_set k v m) = Some v.
Proof.
  induction m as [|[k' v'] m IH]; simpl.
  - by rewrite decide_True.
  - destruct (decide (k' = k)) as [->|Hne]; simpl.
    + by rewrite decide_True.
    + by rewrite decide_False.
Qed.

Lemma jsmap_get_set_ne k k' v m :
  k ≠ k' → jsmap_get k' (jsmap_set k v m) = jsmap_get k' m.
Proof.
  intros Hne. induction m as [|[k0 v0] m IH]; simpl.
  - by rewrite decide_False.
  - destruct (decide (k0 = k)) as [->|Hk]; simpl.
    + by rewrite !decide_False.
    + by rewrite IH.
Qed.

Lemma jsmap_get_elem_of k v m : jsmap_get k m = Some v → (k, v) ∈ m.
Proof.
  induction m as [|[k' v'] m IH]; simpl; [discriminate|].
  destruct (decide (k' = k)) as [->|Hne].
  - intros [= ->]. apply list_elem_of_here.
  - intros H. apply list_elem_of_further. by apply IH.
Qed.

Lemma jsmap_get_None k m : jsmap_get k m = None → k ∉ m.*1.
Proof.
  induction m as [|[k' v'] m IH]; simpl.
  - intros _. apply not_elem_of_nil.
  - destruct (decide (k' = k)) as [->|Hne]; [discriminate|].
    intros H. apply not_elem_of_cons. split; [done|by apply IH].
Qed.

(** With distinct keys, every entry is the one that [get] returns. *)
Lemma jsmap_elem_of_get k v m : NoDup m.*1 → (k, v) ∈ m → jsmap_get k m = Some v.
Proof.
  induction m as [|[k' v'] m IH]; simpl.
  - intros _ H. by apply elem_of_nil in H.
  - intros [Hk' Hm]%NoDup_cons [[= -> ->]|Hin]%elem_of_cons.
    + by rewrite decide_True.
    + rewrite decide_False; [by apply IH|].
      intros ->. apply Hk'. apply list_elem_of_fmap. by exists (k, v).
Qed.

(** [set] on a key of the map keeps the keys; a new key goes last. *)
Lemma jsmap_set_keys k v m :
  (jsmap_set k v m).*1 = if jsmap_has k m then m.*1 else m.*1 ++ [k].
Proof.
  unfold jsmap_has. induction m as [|[k' v'] m IH]; [reflexivity|].
  cbn [jsmap_set jsmap_get]. destruct (decide (k' = k)) as [->|Hne].
  - rewrite bool_decide_eq_true_2; [reflexivity|]. by eexists.
  - cbn [fmap list_fmap]. rewrite IH.
    by destruct (bool_decide (is_Some (jsmap_get k m))).
Qed.

Lemma jsmap_set_elem_of k v m k' v' :
  (k', v') ∈ jsmap_set k v m → (k', v') = (k, v) ∨ (k', v') ∈ m.
Proof.
  induction m as [|[k0 v0] m IH]; simpl.
  - intros ->%list_elem_of_singleton. by left.
  - destruct (decide (k0 = k)) as [->|Hne].
    + intros [->|Hin]%elem_of_cons; [by left|].
      right. by apply list_elem_of_further.
    + intros [->|Hin]%elem_of_cons; [right; apply list_elem_of_here|].
      destruct (IH Hin) as [->|Hm]; [by left|].
      right. by apply list_elem_of_further.
Qed.

Lemma jsmap_set_NoDup k v m : NoDup m.*1 → NoDup (jsmap_set k v m).*1.
Proof.
  intros Hm. rewrite jsmap_set_keys. unfold jsmap_has.
  destruct (jsmap_get k m) as [v0|] eqn:Hget.
  - rewrite bool_decide_eq_true_2; [exact Hm|]. by eexists.
  - rewrite bool_decide_eq_false_2; [|by intros [? [=]]].
    apply NoDup_app. split; [exact Hm|]. split; [|apply NoDup_singleton].
    intros k' Hk' ->%list_elem_of_singleton. by apply jsmap_get_None in Hget.
Qed.

End JsMapFacts.

(** The key separates type and species. *)
Lemma inventoryKey_inj t1 s1 t2 s2 :
  inventoryKey t1 s1 = inventoryKey t2 s2 → t1 = t2 ∧ s1 = s2.
Proof.
  unfold inventoryKey. destruct t1, t2; simpl; intros [=]; by subst.
Qed.

Lemma ensured_get inventoryMap item :
  jsmap_get (keyOf item) (ensured inventoryMap item)
  = Some (default (freshEntry item) (jsmap_get (keyOf item) inventoryMap)).
Proof.
  unfold ensured, jsmap_has.
  destruct (jsmap_get (keyOf item) inventoryMap) as [inv|] eqn:Hget.
  - rewrite bool_decide_eq_true_2; [exact Hget|]. by eexists.
  - rewrite bool_decide_eq_false_2; [|by intros [? [=]]].
    apply jsmap_get_set_eq.
Qed.

(** One turn of the loop is a [set] of the bumped entry. *)
Lemma countItem_unfold inventoryMap item :
  let inventory := default (freshEntry item) (jsmap_get (keyOf item) inventoryMap) in
  countItem inventoryMap item = ensured inventoryMap item
  ∨ countItem inventoryMap item
    = jsmap_set (keyOf item) (bump item inventory) (ensured inventoryMap item).
Proof.
  intros inventory. unfold countItem. fold (keyOf item) (freshEntry item).
  fold (ensured inventoryMap item). rewrite ensured_get. fold inventory.
  unfold bump. destruct (isPurchase item); [by right|].
  destruct (isSale item); [by right|by left].
Qed.

Lemma countItem_get_same inventoryMap item :
  jsmap_get (keyOf item) (countItem inventoryMap item)
  = Some (bump item
            (default (freshEntry item) (jsmap_get (keyOf item) inventoryMap))).
Proof.
  unfold countItem. fold (keyOf item) (freshEntry item).
  fold (ensured inventoryMap item). rewrite ensured_get.
  unfold bump. destruct (isPurchase item); [apply jsmap_get_set_eq|].
  destruct (isSale item); [apply jsmap_get_set_eq|apply ensured_get].
Qed.

Lemma ensured_get_other inventoryMap item k :
  k ≠ keyOf item → jsmap_get k (ensured inventoryMap item) = jsmap_get k inventoryMap.
Proof.
  intros Hne. unfold ensured. destruct (jsmap_has _ _); [reflexivity|].
  by apply jsmap_get_set_ne.
Qed.

Lemma countItem_get_other inventoryMap item k :
  k ≠ keyOf item → jsmap_get k (countItem inventoryMap item) = jsmap_get k inventoryMap.
Proof.
  intros Hne.
  destruct (countItem_unfold inventoryMap item) as [-> | ->].
  - by apply ensured_get_other.
  - rewrite jsmap_get_set_ne by done. by apply ensured_get_other.
Qed.

Lemma isPurchase_not_isSale item : isPurchase item = true → isSale item = false.
Proof.
  unfold isPurchase, isSale. intros [_ Hzero]%andb_true_iff.
  destruct (Js.gt (StockItem.sellPrice item) 0) eqn:Hgt; [|reflexivity].
  apply gt_excludes_zero in Hgt. congruence.
Qed.

Lemma purchasedIn_snoc group item :
  purchasedIn (group ++ [item])
  = if isPurchase item then purchasedIn group + StockItem.quantity item
    else purchasedIn group.
Proof.
  unfold purchasedIn. rewrite filter_app.
  destruct (isPurchase item) eqn:Hp.
  - rewrite (filter_cons_True _ item) by (by apply Is_true_true). apply sumOver_snoc.
  - rewrite (filter_cons_False _ item) by (by apply Is_true_false). by rewrite app_nil_r.
Qed.

Lemma soldIn_snoc group item :
  soldIn (group ++ [item])
  = if isSale item then soldIn group + StockItem.quantity item else soldIn group.
Proof.
  unfold soldIn. rewrite filter_app.
  destruct (isSale item) eqn:Hs.
  - rewrite (filter_cons_True _ item) by (by apply Is_true_true). apply sumOver_snoc.
  - rewrite (filter_cons_False _ item) by (by apply Is_true_false). by rewrite app_nil_r.
Qed.

Lemma bump_entryOf type species group item :
  bump item (entryOf type species group) = entryOf type species (group ++ [item]).
Proof.
  unfold bump, entryOf. rewrite purchasedIn_snoc, soldIn_snoc. simpl.
  destruct (isPurchase item) eqn:Hp.
  - by rewrite (isPurchase_not_isSale _ Hp).
  - by destruct (isSale item).
Qed.

(** After the loop, the entry of a type and species holds the purchased and
    sold grams of the records of that type and species; there is no entry
    when there is no such record. *)
Lemma fold_countItem_get items type species :
  jsmap_get (inventoryKey type species) (fold_left countItem items [])
  = match filter (inGroup type species) items with
    | [] => None
    | item :: group => Some (entryOf type species (item :: group))
    end.
Proof.
  induction items as [|item items IH] using rev_ind; [reflexivity|].
  rewrite fold_left_app, filter_app. cbn [fold_left].
  destruct (decide (inGroup type species item)) as [Hin|Hout].
  - rewrite (filter_cons_True _ item) by done. rewrite filter_nil.
    destruct Hin as [Ht Hs].
    assert (Hkey : inventoryKey type species = keyOf item)
      by (unfold keyOf; by rewrite Ht, Hs).
    rewrite Hkey, countItem_get_same, <- Hkey, IH.
    assert (Hold : default (freshEntry item)
                     match filter (inGroup type species) items with
                     | [] => None
                     | i :: g => Some (entryOf type species (i :: g))
                     end
                   = entryOf type species (filter (inGroup type species) items)).
    { destruct (filter (inGroup type species) items); [|reflexivity].
      unfold freshEntry. by rewrite Ht, Hs. }
    rewrite Hold, bump_entryOf.
    by destruct (filter (inGroup type species) items).
  - rewrite (filter_cons_False _ item) by done. rewrite filter_nil, app_nil_r.
    rewrite countItem_get_other; [exact IH|].
    intros [Ht Hs]%inventoryKey_inj. apply Hout. by split.
Qed.

Lemma ensured_NoDup inventoryMap item :
  NoDup inventoryMap.*1 → NoDup (ensured inventoryMap item).*1.
Proof.
  intros Hm. unfold ensured. destruct (jsmap_has _ _); [exact Hm|].
  by apply jsmap_set_NoDup.
Qed.

Lemma fold_countItem_NoDup items : NoDup (fold_left countItem items []).*1.
Proof.
  induction items as [|item items IH] using rev_ind; [apply NoDup_nil_2|].
  rewrite fold_left_app. cbn [fold_left].
  destruct (countItem_unfold (fold_left countItem items []) item) as [-> | ->].
  - by apply ensured_NoDup.
  - by apply jsmap_set_NoDup, ensured_NoDup.
Qed.

Lemma ensured_keyed inventoryMap item :
  keyed inventoryMap → keyed (ensured inventoryMap item).
Proof.
  intros Hm. unfold ensured. destruct (jsmap_has _ _); [exact Hm|].
  intros k inv [[= -> ->]|Hin]%jsmap_set_elem_of; [reflexivity|by apply Hm].
Qed.

Lemma bump_same_group item inventory :
  Inventory.type (bump item inventory) = Inventory.type inventory
  ∧ Inventory.species (bump item inventory) = Inventory.species inventory.
Proof. unfold bump. by destruct (isPurchase item), (isSale item). Qed.

Lemma countItem_keyed inventoryMap item :
  keyed inventoryMap → keyed (countItem inventoryMap item).
Proof.
  intros Hm.
  destruct (countItem_unfold inventoryMap item) as [-> | ->];
    [by apply ensured_keyed|].
  intros k inv [[= -> ->]|Hin]%jsmap_set_elem_of; [|by apply ensured_keyed in Hin].
  destruct (bump_same_group item
              (default (freshEntry item) (jsmap_get (keyOf item) inventoryMap)))
    as [-> ->].
  destruct (jsmap_get (keyOf item) inventoryMap) as [old|] eqn:Hget; [|reflexivity].
  apply jsmap_get_elem_of in Hget. by apply Hm.
Qed.

Lemma fold_countItem_keyed items : keyed (fold_left countItem items []).
Proof.
  induction items as [|item items IH] using rev_ind.
  - intros k inv H. by apply elem_of_nil in H.
  - rewrite fold_left_app. cbn [fold_left]. by apply countItem_keyed.
Qed.

(** The row of a type and species that some selected record has: there is
    one, at one place only, and it holds the purchased and the sold grams of
    the selected records of that type and species. *)
Lemma getAvailableInventory_entries
    (userId : string) (typeFilter : option string) (speciesFilter : option string)
    (ds : DataStore) (type : Category) (species : string) :
  let items := inventoryItems userId typeFilter speciesFilter ds in
  let group := filter (inGroup type species) items in
  let rows := getAvailableInventory userId typeFilter speciesFilter ds in
  group ≠ [] →
  (∃ row,
     row ∈ rows
     ∧ InventoryRow.type row = type ∧ InventoryRow.species row = species)
  ∧ (∀ (i j : nat) row1 row2,
       rows !! i = Some row1 → rows !! j = Some row2 →
       InventoryRow.type row1 = InventoryRow.type row2 →
       InventoryRow.species row1 = InventoryRow.species row2 → i = j)
  ∧ (∀ row,
       row ∈ rows →
       InventoryRow.type row = type → InventoryRow.species row = species →
       InventoryRow.totalPurchased row = purchasedIn group
       ∧ InventoryRow.totalSold row = soldIn group
       ∧ InventoryRow.availableQuantity row
         = InventoryRow.totalPurchased row - InventoryRow.totalSold row).
Proof.
  intros items group rows Hgroup. unfold rows, getAvailableInventory, jsmap_values.
  fold items. set (m := fold_left countItem items []).
  pose proof (fold_countItem_get items type species) as Hget. fold m group in Hget.
  pose proof (fold_countItem_NoDup items) as Hnodup. fold m in Hnodup.
  pose proof (fold_countItem_keyed items) as Hkeyed. fold m in Hkeyed.
  assert (Hentry : jsmap_get (inventoryKey type species) m
                   = Some (entryOf type species group)).
  { rewrite Hget. by destruct group. }
  split; [|split].
  - exists (toRow (entryOf type species group)). split; [|by split].
    apply list_elem_of_fmap_2.
    apply list_elem_of_fmap. exists (inventoryKey type species, entryOf type species group).
    split; [reflexivity|]. by apply jsmap_get_elem_of.
  - intros i j row1 row2 Hi Hj Ht Hs.
    rewrite !list_lookup_fmap in Hi, Hj.
    destruct (m !! i) as [[k1 v1]|] eqn:Hmi; [|done].
    destruct (m !! j) as [[k2 v2]|] eqn:Hmj; [|done].
    simpl in Hi, Hj. injection Hi as <-. injection Hj as <-. simpl in Ht, Hs.
    assert (k1 = k2) as <-.
    { rewrite (Hkeyed k1 v1), (Hkeyed k2 v2), Ht, Hs; [reflexivity| |];
        apply list_elem_of_lookup; eauto. }
    apply (NoDup_lookup _ i j k1 Hnodup); by rewrite list_lookup_fmap, ?Hmi, ?Hmj.
  - intros row (inv & -> & ([k v] & -> & Hin)%list_elem_of_fmap)%list_elem_of_fmap.
    simpl. intros Ht Hs.
    assert (k = inventoryKey type species) as ->
      by (rewrite (Hkeyed k v Hin); by rewrite Ht, Hs).
    apply (jsmap_elem_of_get _ _ _ Hnodup) in Hin.
    rewrite Hentry in Hin. injection Hin as <-. by repeat split.
Qed.

(** A non-empty string is a truthy one. *)
Lemma nonempty_true s : Js.nonempty s = true ↔ s ≠ "".
Proof. destruct s; simpl; split; try done. Qed.

(** The records that the inventory is computed from are the records of the
    user that the two filters let through. *)
Lemma inventoryItems_stocked userId typeFilter speciesFilter ds :
  inventoryItems userId typeFilter speciesFilter ds
  = filter (stocked userId typeFilter speciesFilter) (stockItems ds).
Proof.
  assert (Hstep : ∀ (name : StockItem.t → string) nameFilter (P : StockItem.t → Prop)
                    `{!∀ item, Decision (P item)} (l : list StockItem.t),
             match nameFilter with
             | Some s =>
                 if Js.nonempty s then filter (λ item, name item = s) (filter P l)
                 else filter P l
             | None => filter P l
             end
             = filter (λ item, P item ∧ nameSelected nameFilter (name item)) l).
  { intros name nameFilter P HP l. unfold nameSelected.
    destruct nameFilter as [s|]; [destruct (Js.nonempty s) eqn:Hs|].
    - apply nonempty_true in Hs. rewrite list_filter_filter.
      apply list_filter_iff. intros item. tauto.
    - apply not_true_iff_false in Hs. rewrite nonempty_true in Hs.
      apply dec_stable in Hs. apply list_filter_iff. intros item. tauto.
    - apply list_filter_iff. intros item. tauto. }
  unfold inventoryItems, stocked.
  rewrite (Hstep (λ item, categoryName (StockItem.type item))).
  rewrite (Hstep StockItem.species).
  apply list_filter_iff. intros item. tauto.
Qed.

(** The selected records of a type and species that the filters let
    through are the records of the user with that type and species. *)
Lemma inventoryItems_group userId typeFilter speciesFilter ds type species :
  nameSelected typeFilter (categoryName type) →
  nameSelected speciesFilter species →
  filter (inGroup type species) (inventoryItems userId typeFilter speciesFilter ds)
  = filter (ofUserGroup userId type species) (stockItems ds).
Proof.
  intros Ht Hs. rewrite inventoryItems_stocked, list_filter_filter.
  apply list_filter_iff. intros item. unfold inGroup, stocked, ofUserGroup. split.
  - tauto.
  - intros (Hu & <- & <-). tauto.
Qed.

Lemma exceeds_gt x y : exceeds x y ↔ Js.gt x y = true.
Proof. destruct x as [q|]; [symmetry; apply gt_Some|done]. Qed.

Lemma is_num_strict_eq x y : Js.is_num x y ↔ Js.strict_eq x y = true.
Proof. destruct x as [q|]; [symmetry; apply strict_eq_Some|done]. Qed.

(** The two tests of the loop are the tests for a purchase and for a sale. *)
Lemma isPurchase_purchase item : isPurchase item ↔ purchase item.
Proof.
  unfold isPurchase, purchase.
  rewrite Is_true_true, andb_true_iff, exceeds_gt, is_num_strict_eq. tauto.
Qed.

Lemma isSale_sale item : isSale item ↔ sale item.
Proof. unfold isSale, sale. by rewrite Is_true_true, exceeds_gt. Qed.

(** C4.  For every user and every type and species that the filters let
    through (a filter that is missing or empty lets everything through, and
    otherwise the type filter only the type it names and the species filter
    only its species) and that some ledger record of the user has: the
    result has a
    row for that type and species, at one place only, and such a row has
    totalPurchased = the sum of the quantities of the user's records of that
    type and species with buy price > 0 and sell price = 0, totalSold = the
    sum of the quantities of those with sell price > 0 (whatever their buy
    price), and availableQuantity = totalPurchased - totalSold, the plain
    difference, of either sign. *)
Theorem getAvailableInventory_spec
    (userId : string) (typeFilter : option string) (speciesFilter : option string)
    (ds : DataStore) (type : Category) (species : string) :
  let group := filter (ofUserGroup userId type species) (stockItems ds) in
  let rows := getAvailableInventory userId typeFilter speciesFilter ds in
  nameSelected typeFilter (categoryName type) →
  nameSelected speciesFilter species →
  group ≠ [] →
  (∃ row,
     row ∈ rows
     ∧ InventoryRow.type row = type ∧ InventoryRow.species row = species)
  ∧ (∀ (i j : nat) row1 row2,
       rows !! i = Some row1 → rows !! j = Some row2 →
       InventoryRow.type row1 = InventoryRow.type row2 →
       InventoryRow.species row1 = InventoryRow.species row2 → i = j)
  ∧ (∀ row,
       row ∈ rows →
       InventoryRow.type row = type → InventoryRow.species row = species →
       InventoryRow.totalPurchased row = grams (filter purchase group)
       ∧ InventoryRow.totalSold row = grams (filter sale group)
       ∧ InventoryRow.availableQuantity row
         = grams (filter purchase group) - grams (filter sale group)).
Proof.
  intros group rows Ht Hs Hgroup.
  pose proof (inventoryItems_group userId typeFilter speciesFilter ds type species
                Ht Hs) as Hsame.
  fold group in Hsame.
  assert (Hp : purchasedIn group = grams (filter purchase group)).
  { unfold purchasedIn, grams. f_equal. apply filter_agree.
    intros item _. apply isPurchase_purchase. }
  assert (Hsold : soldIn group = grams (filter sale group)).
  { unfold soldIn, grams. f_equal. apply filter_agree.
    intros item _. apply isSale_sale. }
  destruct (getAvailableInventory_entries userId typeFilter speciesFilter ds
              type species) as (Hrow & Hone & Hsums).
  { by rewrite Hsame. }
  split; [exact Hrow|]. split; [exact Hone|].
  intros row Hin Htype Hspecies.
  destruct (Hsums row Hin Htype Hspecies) as (Hbought & Hgone & Hleft).
  rewrite Hsame, Hp in Hbought. rewrite Hsame, Hsold in Hgone.
  rewrite Hleft, Hbought, Hgone. by repeat split.
Qed.

Lemma getAvailableInventory_spec_witness :
  let group := filter (ofUserGroup "u1" berry "blueberry") (stockItems oversold) in
  getAvailableInventory "u1" None None oversold
  = [InventoryRow.mk berry "blueberry" 100 300 (-200)]
  ∧ ∀ row,
      row ∈ getAvailableInventory "u1" None None oversold →
      InventoryRow.type row = berry → InventoryRow.species row = "blueberry" →
      InventoryRow.totalPurchased row = grams (filter purchase group)
      ∧ InventoryRow.totalSold row = grams (filter sale group)
      ∧ InventoryRow.availableQuantity row
        = grams (filter purchase group) - grams (filter sale group).
Proof.
  split; [reflexivity|].
  apply (getAvailableInventory_spec "u1" None None oversold berry "blueberry").
  - exact I.
  - exact I.
  - by vm_compute.
Defined.

(** ** What does hold of the totals *)

(** Where no record of the user has a [totalProfit] of zero, the profit of
    [getUserById] is the sum of those profits. *)
Lemma getUserById_profit_without_zero id ds user :
  getUserById id ds = Some user →
  (∀ item p, item ∈ getStockItemsByUser id ds →
             StockItem.totalProfit item = Some p → ¬ p == 0) →
  User.profit user = sumOver profitOrRevenueIfAbsent (getStockItemsByUser id ds).
Proof.
  intros Huser Hnz. destruct (getUserById_totals _ _ _ Huser) as [_ ->].
  apply sumOver_ext. intros item Hitem. unfold profitOrRevenueIfAbsent.
  destruct (StockItem.totalProfit item) as [p|] eqn:Hp.
  - apply (itemProfitOrRevenue_nonzero _ _ Hp). by apply (Hnz item).
  - apply itemProfitOrRevenue_fallback. by rewrite Hp.
Qed.

(** The yearly profit of a user: for each year, the sums over the proper
    sales of the user collected in that year. *)
Lemma getUserProfitByYear_lookup userId typeFilter ds y :
  getUserProfitByYear userId typeFilter ds !! y
  = match filter (λ item, getFullYear (StockItem.collectedAt item) = y)
                 (salesOfUser userId typeFilter ds) with
    | [] => None
    | item :: items =>
        Some (YearData.mk (sumOver saleRevenue (item :: items))
                          (sumOver saleCost (item :: items))
                          (sumOver saleProfit (item :: items))
                          (Z.of_nat (length (item :: items))))
    end.
Proof.
  unfold getUserProfitByYear.
  apply (fold_accumulate_empty (λ item, getFullYear (StockItem.collectedAt item))
           saleRevenue saleCost saleProfit).
Qed.


(** * Further properties of the store *)

(** ** Invariants of the ledger *)

Lemma reachableWhen_reachable allowed ds : reachableWhen allowed ds → reachable ds.
Proof. induction 1; by constructor. Qed.

Lemma recalculating_touchesPrices u : recalculating u ↔ touchesPrices u = true.
Proof.
  unfold recalculating, touchesPrices.
  rewrite !orb_true_iff, !bool_decide_eq_true. tauto.
Qed.

(** An update that does not recalculate has none of the four keys. *)
Lemma touchesPrices_false u :
  touchesPrices u = false →
  StockItemUpdates.quantity u = None ∧ StockItemUpdates.unitPrice u = None
  ∧ StockItemUpdates.buyPrice u = None ∧ StockItemUpdates.sellPrice u = None.
Proof.
  unfold touchesPrices.
  destruct (StockItemUpdates.quantity u), (StockItemUpdates.unitPrice u),
    (StockItemUpdates.buyPrice u), (StockItemUpdates.sellPrice u);
    simpl; intros H; try discriminate H; done.
Qed.

(** An update that writes no totals of its own either recalculates or
    leaves the totals that are stored. *)
Lemma totalsInStep_cases u :
  totalsInStep u →
  touchesPrices u = true ∨ (touchesPrices u = false ∧ leavesTotals u).
Proof.
  intros [Hr|Hl].
  - left. by apply recalculating_touchesPrices.
  - destruct (touchesPrices u); [by left|by right].
Qed.

Lemma newStockItem_settled uuid now d : settled (newStockItem uuid now d).
Proof. eexists _, _. repeat split; simpl; eauto. Qed.

(** A price that is there stays there unless the update sets it to
    [undefined]. *)
Lemma spread_is_Some {A} (old : option A) (new : option (option A)) :
  is_Some old → new ≠ Some None → is_Some (spread old new).
Proof. destruct new as [[v|]|]; simpl; eauto. intros _ H. by destruct H. Qed.

Lemma updatedStockItem_settled old u :
  totalsInStep u → keepsPrices u → settled old → settled (updatedStockItem old u).
Proof.
  intros Hstep [Hkb Hks] (revenue & cost & Hr & Hc & Hp & Ht & Hu & Hb & Hs).
  unfold updatedStockItem.
  destruct (totalsInStep_cases u Hstep) as [-> | [Hno (Htr & Htc & Htp & Htt)]].
  - eexists _, _. repeat split; simpl; eauto using spread_is_Some.
  - rewrite Hno. apply touchesPrices_false in Hno as (_ & Hnu & Hnb & Hns).
    exists revenue, cost. unfold mergeUpdates. simpl.
    rewrite Htr, Htc, Htp, Htt, Hnu, Hnb, Hns. simpl. by repeat split.
Qed.

(** X1.  As long as no update writes a total of its own (an update that
    names a total also names quantity, unitPrice, buyPrice or sellPrice, so
    that the store recalculates) and none sets buyPrice or sellPrice to
    [undefined], and with quantities that are numbers, every ledger record
    has all its prices and derived fields present, its totalProfit is its
    stored totalRevenue minus its stored totalCost, and its legacy totalPrice
    equals its totalRevenue. *)
Theorem reachable_settled (ds : DataStore) :
  reachableWhen (updatesSatisfy (λ u, totalsInStep u ∧ keepsPrices u)) ds →
  Forall settled (stockItems ds).
Proof.
  induction 1 as [|op ds Hds IH Hop]; [constructor|].
  destruct op; simpl run; try exact IH.
  - apply Forall_app. split; [exact IH|].
    constructor; [apply newStockItem_settled|constructor].
  - unfold updateStockItem.
    destruct (list_find _ (stockItems ds)) as [[i old]|] eqn:Hfind; [|exact IH].
    apply list_find_Some in Hfind as (Hi & _ & _). simpl.
    destruct Hop as [Hstep Hkeeps].
    apply Forall_insert; [exact IH|]. apply updatedStockItem_settled; try done.
    rewrite Forall_lookup in IH. by apply (IH i).
  - unfold deleteStockItem.
    destruct (list_find _ (stockItems ds)) as [[i old]|]; [|exact IH]. simpl.
    by apply Forall_delete.
  - unfold createPrice. by destruct (list_find _ (prices ds)) as [[??]|].
  - unfold updatePrice. by destruct (list_find _ (prices ds)) as [[??]|].
  - unfold deletePrice. by destruct (list_find _ (prices ds)) as [[??]|].
Qed.

Lemma reachable_settled_witness :
  Forall settled
    (stockItems (run (UpdateStockItem "i1" (quantityOnly 2000)) aLedger)).
Proof.
  apply (reachable_settled (run (UpdateStockItem "i1" (quantityOnly 2000)) aLedger)).
  apply reachableWhen_run.
  - apply (reachableWhen_run _ (CreateStockItem "i1" (mkDate 2024 0) aSale));
      [apply reachableWhen_new|exact I].
  - split; [left; left; by eexists|by split].
Defined.

(** Neither condition on the updates can be dropped.  After
    [{ sellPrice: undefined }] the record of the first ledger of the examples
    has no sell price, and after [{ totalProfit: 999 }] its profit is not its
    revenue minus its cost. *)
Lemma unsettled_updates :
  let erased := run (UpdateStockItem "i1" (sellPriceOnly None)) aLedger in
  (reachable erased ∧ reachable tampered)
  ∧ (∃ r, stockItems erased = [r]
          ∧ StockItem.sellPrice r = None
          ∧ Js.is_num (StockItem.totalRevenue r) 5
          ∧ ¬ settled r)
  ∧ (∃ r, stockItems tampered = [r]
          ∧ Js.is_num (StockItem.totalRevenue r) 5
          ∧ Js.is_num (StockItem.totalCost r) 3
          ∧ StockItem.totalProfit r = Some 999
          ∧ ¬ settled r).
Proof.
  assert (Hfirst : reachable aLedger).
  { apply (reachable_run (CreateStockItem "i1" (mkDate 2024 0) aSale)), reachable_new. }
  split; [split; by apply reachable_run|]. split.
  - eexists. split; [reflexivity|]. split; [reflexivity|]. split; [reflexivity|].
    intros (? & ? & _ & _ & _ & _ & _ & _ & [? [=]]).
  - eexists. split; [reflexivity|]. split; [reflexivity|]. split; [reflexivity|].
    split; [reflexivity|].
    intros (revenue & cost & [= <-] & [= <-] & Hp & _). vm_compute in Hp.
    discriminate.
Qed.

(** A number above zero is kept by [||]. *)
Lemma or_else_pos s d : 0 < s → Js.or_else (Some s) d = s.
Proof.
  intros Hs. simpl. destruct (Qeq_bool s 0) eqn:E; [|reflexivity].
  apply Qeq_bool_eq in E. rewrite E in Hs. by apply Qlt_irrefl in Hs.
Qed.

(** A stored value is not away from itself. *)
Lemma abs_diff_self x : Js.abs_diff_gt (Some x) x 0.01 = false.
Proof.
  unfold Js.abs_diff_gt. apply negb_false_iff, Qle_bool_iff.
  assert (H : x - x == 0) by ring.
  rewrite H. by vm_compute.
Qed.

(** Totals computed by the formulas from prices above zero pass the second
    check of the audit. *)
Lemma computed_not_miscalculated item s b :
  StockItem.sellPrice item = Some s → StockItem.buyPrice item = Some b →
  StockItem.totalRevenue item = Some (StockItem.quantity item * s / 1000) →
  StockItem.totalCost item = Some (StockItem.quantity item * b / 1000) →
  StockItem.totalProfit item
  = Some (StockItem.quantity item * s / 1000 - StockItem.quantity item * b / 1000) →
  isMiscalculated item = false.
Proof.
  intros Hs Hb Hr Hc Hp. unfold isMiscalculated, storedValuesDiffer.
  rewrite Hs, Hb, Hr, Hc, Hp. cbn [default from_option].
  rewrite !abs_diff_self. by rewrite andb_false_r.
Qed.

Lemma not_both_positive_not_miscalculated item :
  Js.gt (StockItem.sellPrice item) 0 && Js.gt (StockItem.buyPrice item) 0 = false →
  isMiscalculated item = false.
Proof. unfold isMiscalculated. by intros ->. Qed.

Lemma newStockItem_not_miscalculated uuid now d :
  isMiscalculated (newStockItem uuid now d) = false.
Proof.
  destruct (Js.gt (StockItem.sellPrice (newStockItem uuid now d)) 0
            && Js.gt (StockItem.buyPrice (newStockItem uuid now d)) 0) eqn:Hpos;
    [|by apply not_both_positive_not_miscalculated].
  by eapply computed_not_miscalculated.
Qed.

(** Whatever the update carries, a recalculation leaves totals that pass
    the second check. *)
Lemma recalculate_not_miscalculated m : isMiscalculated (recalculate m) = false.
Proof.
  destruct (Js.gt (StockItem.sellPrice (recalculate m)) 0
            && Js.gt (StockItem.buyPrice (recalculate m)) 0) eqn:Hpos;
    [|by apply not_both_positive_not_miscalculated].
  apply andb_true_iff in Hpos as [(s & Hs & Hspos)%gt_inv (b & Hb & Hbpos)%gt_inv].
  simpl in Hs, Hb.
  apply (computed_not_miscalculated _ s b); simpl; try assumption.
  - by rewrite Hs, (or_else_pos s _ Hspos).
  - by rewrite Hb, (or_else_pos b _ Hbpos).
  - by rewrite Hs, Hb, (or_else_pos s _ Hspos), (or_else_pos b _ Hbpos).
Qed.

Lemma updatedStockItem_not_miscalculated old u :
  totalsInStep u →
  isMiscalculated old = false → isMiscalculated (updatedStockItem old u) = false.
Proof.
  intros Hstep Hold. unfold updatedStockItem.
  destruct (totalsInStep_cases u Hstep) as [-> | [Hno (Htr & Htc & Htp & _)]];
    [apply recalculate_not_miscalculated|].
  rewrite Hno. apply touchesPrices_false in Hno as (Hq & _ & Hb & Hs).
  rewrite <- Hold. unfold isMiscalculated, storedValuesDiffer, mergeUpdates.
  simpl. by rewrite Hq, Hb, Hs, Htr, Htc, Htp.
Qed.

Lemma totalsInStep_not_miscalculated ds :
  reachableWhen (updatesSatisfy totalsInStep) ds →
  Forall (λ item, isMiscalculated item = false) (stockItems ds).
Proof.
  induction 1 as [|op ds Hds IH Hop]; [constructor|].
  destruct op; simpl run; try exact IH.
  - apply Forall_app. split; [exact IH|].
    constructor; [apply newStockItem_not_miscalculated|constructor].
  - unfold updateStockItem.
    destruct (list_find _ (stockItems ds)) as [[i old]|] eqn:Hfind; [|exact IH].
    apply list_find_Some in Hfind as (Hi & _ & _). simpl.
    apply Forall_insert; [exact IH|].
    apply updatedStockItem_not_miscalculated; [exact Hop|].
    rewrite Forall_lookup in IH. by apply (IH i).
  - unfold deleteStockItem.
    destruct (list_find _ (stockItems ds)) as [[i old]|]; [|exact IH]. simpl.
    by apply Forall_delete.
  - unfold createPrice. by destruct (list_find _ (prices ds)) as [[??]|].
  - unfold updatePrice. by destruct (list_find _ (prices ds)) as [[??]|].
  - unfold deletePrice. by destruct (list_find _ (prices ds)) as [[??]|].
Qed.

(** X2.  As long as no update writes a total of its own (an update that
    names a total also names quantity, unitPrice, buyPrice or sellPrice), no
    ledger record has both prices above zero with a stored total more than
    0.01 away from its recomputation: the audit reports exactly the records
    with a sell price above zero and a buy price of zero, in ledger order,
    and every warning is the one about a missing buy price. *)
Theorem reachable_audit_only_cost_basis (ds : DataStore) :
  reachableWhen (updatesSatisfy totalsInStep) ds →
  (∀ item, item ∈ stockItems ds → ¬ miscalculated item)
  ∧ inconsistentItems (fst (validateDataIntegrity ds))
    = filter anomalous (stockItems ds)
  ∧ warnings (fst (validateDataIntegrity ds))
    = (λ item, SellPriceButNoBuyPrice (StockItem.id item) (StockItem.sellPrice item))
        <$> filter anomalous (stockItems ds).
Proof.
  intros Hsound%totalsInStep_not_miscalculated.
  assert (Hfilter : filter (λ item, flagged item) (stockItems ds)
                    = filter anomalous (stockItems ds)).
  { apply filter_agree. intros item Hitem. unfold flagged.
    rewrite Forall_forall in Hsound. rewrite (Hsound item Hitem).
    rewrite orb_false_r, Is_true_true. apply hasNoCostBasis_iff. }
  split; [|split].
  - intros item Hitem Hm. rewrite Forall_forall in Hsound.
    apply isMiscalculated_iff in Hm. rewrite (Hsound item Hitem) in Hm. discriminate.
  - unfold validateDataIntegrity. cbn [fst]. rewrite fold_auditItem.
    by cbn [inconsistentItems app].
  - unfold validateDataIntegrity. cbn [fst]. rewrite fold_auditItem.
    cbn [warnings app]. rewrite Hfilter.
    apply list_fmap_ext. intros i item Hi. unfold warningOf.
    apply list_elem_of_lookup_2, list_elem_of_filter in Hi as [Hn _].
    by rewrite (proj2 (hasNoCostBasis_iff item) Hn).
Qed.

Lemma reachable_audit_only_cost_basis_witness :
  let ds := run (UpdateStockItem "i1" (quantityOnly 2000)) aLedger in
  (∀ item, item ∈ stockItems ds → ¬ miscalculated item)
  ∧ inconsistentItems (fst (validateDataIntegrity ds))
    = filter anomalous (stockItems ds)
  ∧ warnings (fst (validateDataIntegrity ds))
    = (λ item, SellPriceButNoBuyPrice (StockItem.id item) (StockItem.sellPrice item))
        <$> filter anomalous (stockItems ds).
Proof.
  apply (reachable_audit_only_cost_basis
           (run (UpdateStockItem "i1" (quantityOnly 2000)) aLedger)).
  apply reachableWhen_run.
  - apply (reachableWhen_run _ (CreateStockItem "i1" (mkDate 2024 0) aSale));
      [apply reachableWhen_new|exact I].
  - left. left. by eexists.
Defined.

(** An update that writes a total of its own is stored as it is: after
    [{ totalProfit: 999 }] the audit reports the record of the first ledger
    of the examples, with the warning about values that do not match. *)
Lemma tampered_audit :
  reachable tampered
  ∧ ∃ r,
      stockItems tampered = [r]
      ∧ StockItem.totalProfit r = Some 999
      ∧ inconsistentItems (fst (validateDataIntegrity tampered)) = [r]
      ∧ warnings (fst (validateDataIntegrity tampered)) = [ValuesDoNotMatch "i1"].
Proof.
  split.
  - apply reachable_run.
    apply (reachable_run (CreateStockItem "i1" (mkDate 2024 0) aSale)), reachable_new.
  - eexists. by repeat split.
Qed.

(** ** Writing a record and reading it back *)

(** [find] passes over the elements that do not satisfy the test. *)
Lemma list_find_middle {A} (P : A → Prop) `{!∀ x, Decision (P x)} l1 x l2 :
  Forall (λ y, ¬ P y) l1 → P x →
  list_find P (l1 ++ x :: l2) = Some (length l1, x).
Proof.
  intros Hl1 Hx. apply list_find_Some. split; [|split].
  - by rewrite list_lookup_middle.
  - exact Hx.
  - intros j y Hj Hlt. rewrite lookup_app_l in Hj by done.
    rewrite Forall_lookup in Hl1. by apply (Hl1 j).
Qed.

(** Replacing an element that fails the test by another one that fails it
    does not change what [find] returns. *)
Lemma list_find_replace {A} (P : A → Prop) `{!∀ x, Decision (P x)} l1 x y l2 :
  ¬ P x → ¬ P y →
  snd <$> list_find P (l1 ++ x :: l2) = snd <$> list_find P (l1 ++ y :: l2).
Proof.
  intros Hx Hy. induction l1 as [|z l1 IH]; simpl.
  - by rewrite !decide_False.
  - destruct (decide (P z)); [reflexivity|].
    destruct (list_find P (l1 ++ x :: l2)) as [[??]|],
             (list_find P (l1 ++ y :: l2)) as [[??]|]; simpl in *; congruence.
Qed.

(** Removing an element that fails the test does not change it either. *)
Lemma list_find_remove {A} (P : A → Prop) `{!∀ x, Decision (P x)} l1 x l2 :
  ¬ P x →
  snd <$> list_find P (l1 ++ x :: l2) = snd <$> list_find P (l1 ++ l2).
Proof.
  intros Hx. induction l1 as [|z l1 IH]; simpl.
  - rewrite decide_False by done. by destruct (list_find P l2) as [[??]|].
  - destruct (decide (P z)); [reflexivity|].
    destruct (list_find P (l1 ++ x :: l2)) as [[??]|],
             (list_find P (l1 ++ l2)) as [[??]|]; simpl in *; congruence.
Qed.

Lemma list_find_snoc_other {A} (P : A → Prop) `{!∀ x, Decision (P x)} l x :
  ¬ P x → snd <$> list_find P (l ++ [x]) = snd <$> list_find P l.
Proof.
  intros Hx. rewrite <- (app_nil_r l) at 2. by apply list_find_remove.
Qed.

(** X3.  After [createStockItem] the new record is the one found under its
    id, provided no stored record had that id; when one had it, that older
    record is still the one found; and the record found under any other id
    is the same as before. *)
Theorem createStockItem_getStockItemById
    (uuid : string) (now : JsDate) (d : StockItemData.t) (ds : DataStore) :
  let created := createStockItem uuid now d ds in
  (getStockItemById uuid ds = None →
   getStockItemById uuid created.2 = Some created.1)
  ∧ (∀ older, getStockItemById uuid ds = Some older →
              getStockItemById uuid created.2 = Some older)
  ∧ (∀ id, id ≠ uuid → getStockItemById id created.2 = getStockItemById id ds).
Proof.
  unfold getStockItemById, createStockItem. cbn [fst snd stockItems set_stockItems].
  split; [|split].
  - intros Hnone.
    destruct (list_find _ (stockItems ds)) as [[??]|] eqn:Hfind; [discriminate|].
    apply list_find_None in Hfind.
    by rewrite (list_find_middle _ _ _ [] Hfind).
  - intros older Holder.
    destruct (list_find _ (stockItems ds)) as [[i x]|] eqn:Hfind; [|discriminate].
    by rewrite (list_find_app_l _ _ _ _ _ Hfind).
  - intros id Hne. apply list_find_snoc_other. simpl. congruence.
Qed.

(** The id, the owner and the date of an updated record are those of the
    record found unless the update has a key for them. *)
Lemma updatedStockItem_id old u :
  StockItem.id (updatedStockItem old u)
  = spread (StockItem.id old) (StockItemUpdates.id u)
  ∧ StockItem.userId (updatedStockItem old u)
    = spread (StockItem.userId old) (StockItemUpdates.userId u)
  ∧ StockItem.collectedAt (updatedStockItem old u)
    = spread (StockItem.collectedAt old) (StockItemUpdates.collectedAt u).
Proof. unfold updatedStockItem. by destruct (touchesPrices u). Qed.



(** ** Unique ids *)

(** Writing over an element of a list without duplicates an element that
    is the same or new keeps the list without duplicates. *)
Lemma NoDup_insert_fresh {A} (l : list A) (i : nat) (x y : A) :
  NoDup l → l !! i = Some y → x = y ∨ x ∉ l → NoDup (<[i := x]> l).
Proof.
  intros Hl Hi [->|Hx]; [by rewrite list_insert_id|].
  rewrite <- (take_drop_middle l i y Hi) in Hl, Hx.
  rewrite insert_take_drop by (by eapply lookup_lt_Some).
  apply NoDup_app in Hl as (H1 & H12 & H2). apply NoDup_cons in H2 as [_ H2].
  rewrite elem_of_app, elem_of_cons in Hx.
  apply NoDup_app. split; [exact H1|]. split.
  - intros z Hz [->|Hz2]%elem_of_cons; [tauto|].
    apply (H12 z Hz). by apply list_elem_of_further.
  - apply NoDup_cons. split; [tauto|exact H2].
Qed.

Lemma updateStockItem_ids id u ds :
  idsKept ds (UpdateStockItem id u) →
  NoDup (StockItem.id <$> stockItems ds) →
  NoDup (StockItem.id <$> stockItems (snd (updateStockItem id u ds))).
Proof.
  unfold updateStockItem. intros Hkept Hnd.
  destruct (list_find _ (stockItems ds)) as [[i old]|] eqn:Hfind; [|exact Hnd].
  apply list_find_Some in Hfind as (Hi & Hid & _). simpl.
  rewrite list_fmap_insert.
  apply (NoDup_insert_fresh _ _ _ (StockItem.id old)); [exact Hnd| |].
  - by rewrite list_lookup_fmap, Hi.
  - destruct (updatedStockItem_id old u) as (-> & _ & _).
    destruct (StockItemUpdates.id u) as [id'|] eqn:Hkey; simpl; [|by left].
    destruct (Hkept id' Hkey) as [->|Hfresh]; [by left|].
    right. intros (item & Hsame & Hitem)%list_elem_of_fmap.
    rewrite Forall_forall in Hfresh. by apply (Hfresh item).
Qed.

Lemma idsKept_ids ds :
  reachableWhen idsKept ds → NoDup (StockItem.id <$> stockItems ds).
Proof.
  induction 1 as [|op ds Hds IH Hop]; [apply NoDup_nil_2|].
  destruct op; simpl run; try exact IH.
  - unfold createStockItem. cbn [snd stockItems set_stockItems].
    rewrite fmap_app. apply NoDup_app. split; [exact IH|].
    split; [|apply NoDup_singleton].
    intros k (item & -> & Hitem)%list_elem_of_fmap Hk%list_elem_of_singleton.
    simpl in Hop. rewrite Forall_forall in Hop. by apply (Hop item).
  - by apply updateStockItem_ids.
  - unfold deleteStockItem.
    destruct (list_find _ (stockItems ds)) as [[i old]|]; [|exact IH]. simpl.
    rewrite list_fmap_delete. eapply sublist_NoDup; [exact IH|apply sublist_delete].
  - unfold createPrice. by destruct (list_find _ (prices ds)) as [[??]|].
  - unfold updatePrice. by destruct (list_find _ (prices ds)) as [[??]|].
  - unfold deletePrice. by destruct (list_find _ (prices ds)) as [[??]|].
Qed.

(** X5.  As long as every new record gets an id that no stored record has,
    and no update gives a record the id of another one, the ids of the
    ledger are pairwise different, and after [deleteStockItem(id)] no record
    is found under [id], while the record found under any other id is the
    same as before. *)
Theorem idsKept_delete (ds : DataStore) :
  reachableWhen idsKept ds →
  NoDup (StockItem.id <$> stockItems ds)
  ∧ ∀ id,
      getStockItemById id (snd (deleteStockItem id ds)) = None
      ∧ ∀ id', id' ≠ id →
               getStockItemById id' (snd (deleteStockItem id ds))
               = getStockItemById id' ds.
Proof.
  intros Hids%idsKept_ids. split; [exact Hids|].
  intros id. unfold getStockItemById, deleteStockItem.
  destruct (list_find _ (stockItems ds)) as [[i x]|] eqn:Hfind.
  - destruct (list_find_split _ _ _ _ Hfind) as (l1 & l2 & Hl & Hlen & Hid & Hb).
    cbn [snd stockItems set_stockItems].
    assert (Hdel : delete i (stockItems ds) = l1 ++ l2).
    { rewrite Hl, <- Hlen. apply delete_middle. }
    rewrite Hdel. split.
    + assert (Hnone : list_find (λ item, StockItem.id item = id) (l1 ++ l2) = None);
        [|by rewrite Hnone].
      apply list_find_None, Forall_app. split; [exact Hb|].
      apply Forall_forall. intros y Hy Hyid.
      rewrite Hl, fmap_app, fmap_cons in Hids.
      apply NoDup_app in Hids as (_ & _ & Hids).
      apply NoDup_cons in Hids as [Hnotin _]. apply Hnotin.
      apply list_elem_of_fmap. exists y. split; [congruence|exact Hy].
    + intros id' Hne. rewrite Hl. symmetry.
      apply list_find_remove. simpl. congruence.
  - cbn [snd]. rewrite Hfind. by split.
Qed.

Lemma idsKept_delete_witness :
  NoDup (StockItem.id <$> stockItems oversold)
  ∧ ∀ id,
      getStockItemById id (snd (deleteStockItem id oversold)) = None
      ∧ ∀ id', id' ≠ id →
               getStockItemById id' (snd (deleteStockItem id oversold))
               = getStockItemById id' oversold.
Proof.
  apply (idsKept_delete oversold).
  apply (reachableWhen_run idsKept
           (CreateStockItem "i2" (mkDate 2024 0)
              (StockItemData.mk "u1" berry "blueberry" 300 (Some 6) (Some 3) (Some 6)
                                None None))
           (run (CreateStockItem "i1" (mkDate 2024 0)
                   (StockItemData.mk "u1" berry "blueberry" 100 (Some 0) (Some 3)
                                     (Some 0) None None))
                alice)).
  - apply reachableWhen_run.
    + apply (reachableWhen_run idsKept (CreateUser "u1" (mkDate 2024 0) "Alice"));
        [apply reachableWhen_new|exact I].
    + constructor.
  - by repeat constructor.
Defined.

(** An update with an [id] key can give a record the id of another one:
    after [{ id: 'i2' }] on the first record of the oversold ledger two
    records carry the id [i2], and one of them is still found after
    [deleteStockItem('i2')]. *)
Lemma renamed_delete :
  let renamed := run (UpdateStockItem "i1" (idOnly "i2")) oversold in
  reachable renamed
  ∧ StockItem.id <$> stockItems renamed = ["i2"; "i2"]
  ∧ fst (deleteStockItem "i2" renamed) = true
  ∧ is_Some (getStockItemById "i2" (snd (deleteStockItem "i2" renamed))).
Proof.
  split; [|by repeat split].
  apply reachable_run.
  apply (reachable_run
           (CreateStockItem "i2" (mkDate 2024 0)
              (StockItemData.mk "u1" berry "blueberry" 300 (Some 6) (Some 3) (Some 6)
                                None None))
           (run (CreateStockItem "i1" (mkDate 2024 0)
                   (StockItemData.mk "u1" berry "blueberry" 100 (Some 0) (Some 3)
                                     (Some 0) None None))
                alice)).
  apply reachable_run.
  apply (reachable_run (CreateUser "u1" (mkDate 2024 0) "Alice")), reachable_new.
Qed.

(** ** The years on record *)

Section DistinctYears.

Context {A : Type} (year : A → Z).

(** The [Set] that the loop fills holds each year once. *)
Lemma fold_jsset_add l years :
  NoDup years →
  NoDup (fold_left (λ years a, jsset_add (year a) years) l years)
  ∧ ∀ y, y ∈ fold_left (λ years a, jsset_add (year a) years) l years
         ↔ y ∈ years ∨ ∃ a, a ∈ l ∧ year a = y.
Proof.
  revert years. induction l as [|a l IH]; intros years Hyears; simpl.
  - split; [exact Hyears|]. intros y. split; [by left|].
    intros [Hy|(a & Ha & _)]; [exact Hy|by apply elem_of_nil in Ha].
  - assert (Hadd : NoDup (jsset_add (year a) years)
                   ∧ ∀ y, y ∈ jsset_add (year a) years ↔ y ∈ years ∨ y = year a).
    { unfold jsset_add. case_bool_decide as Hin.
      - split; [exact Hyears|]. intros y. split; [by left|].
        intros [Hy| ->]; assumption.
      - split.
        + apply NoDup_app. split; [exact Hyears|]. split; [|apply NoDup_singleton].
          intros y Hy ->%list_elem_of_singleton. by apply Hin.
        + intros y. rewrite elem_of_app, list_elem_of_singleton. tauto. }
    destruct Hadd as [Hnd Hmem]. destruct (IH _ Hnd) as [IH1 IH2].
    split; [exact IH1|]. intros y. rewrite IH2, Hmem. split.
    + intros [[Hy| ->]|(b & Hb & Hyb)].
      * by left.
      * right. exists a. split; [apply list_elem_of_here|reflexivity].
      * right. exists b. split; [by apply list_elem_of_further|exact Hyb].
    + intros [Hy|(b & [->|Hb]%elem_of_cons & Hyb)].
      * by left; left.
      * left. by right.
      * right. by exists b.
Qed.

End DistinctYears.

Lemma insertDesc_perm y l : insertDesc y l ≡ₚ y :: l.
Proof.
  induction l as [|z l IH]; [reflexivity|]. simpl.
  destruct (z <=? y)%Z; [reflexivity|]. rewrite IH. apply Permutation_swap.
Qed.

Lemma sortDesc_perm l : sortDesc l ≡ₚ l.
Proof.
  induction l as [|y l IH]; [reflexivity|]. simpl.
  by rewrite insertDesc_perm, IH.
Qed.

Lemma strictlyDescending_cons y l :
  strictlyDescending (y :: l)
  ↔ Forall (λ z, (z < y)%Z) l ∧ strictlyDescending l.
Proof.
  unfold strictlyDescending. split.
  - intros H. split.
    + apply Forall_lookup. intros j z Hz. apply (H 0%nat (S j)); [done|done|lia].
    + intros i j a b Ha Hb Hij. apply (H (S i) (S j)); [done|done|lia].
  - intros [Hall Hl] i j a b Ha Hb Hij.
    destruct j as [|j]; [lia|]. destruct i as [|i]; simpl in *.
    + injection Ha as <-. rewrite Forall_lookup in Hall. by apply (Hall j).
    + apply (Hl i j); [done|done|lia].
Qed.

Lemma insertDesc_strictlyDescending y l :
  y ∉ l → strictlyDescending l → strictlyDescending (insertDesc y l).
Proof.
  induction l as [|z l IH]; intros Hy Hl; simpl.
  - apply strictlyDescending_cons. split; [constructor|]. by intros ? ? ? ? [=].
  - apply not_elem_of_cons in Hy as [Hyz Hy].
    destruct (Z.leb_spec z y) as [Hle|Hgt].
    + apply strictlyDescending_cons. split; [|exact Hl].
      apply strictlyDescending_cons in Hl as [Hall _]. constructor; [lia|].
      eapply Forall_impl; [exact Hall|]. simpl. intros. lia.
    + apply strictlyDescending_cons in Hl as [Hall Hl].
      apply strictlyDescending_cons. split; [|by apply IH].
      rewrite insertDesc_perm. constructor; [lia|exact Hall].
Qed.

(** Sorting numbers that are pairwise different gives a strictly
    descending list. *)
Lemma sortDesc_strictlyDescending l : NoDup l → strictlyDescending (sortDesc l).
Proof.
  induction l as [|y l IH]; intros Hl; simpl.
  - by intros ? ? ? ? [=].
  - apply NoDup_cons in Hl as [Hy Hl]. apply insertDesc_strictlyDescending.
    + by rewrite sortDesc_perm.
    + by apply IH.
Qed.

(** X6.  [getAllYears()] lists exactly the years in which some ledger
    record was collected, and [getPriceYears()] exactly the years of the
    price entries; each list is strictly descending, so no year is listed
    twice. *)
Theorem getAllYears_getPriceYears (ds : DataStore) :
  (∀ y, y ∈ getAllYears ds
        ↔ ∃ item, item ∈ stockItems ds ∧ getFullYear (StockItem.collectedAt item) = y)
  ∧ strictlyDescending (getAllYears ds)
  ∧ (∀ y, y ∈ getPriceYears ds ↔ ∃ price, price ∈ prices ds ∧ Price.year price = y)
  ∧ strictlyDescending (getPriceYears ds).
Proof.
  destruct (fold_jsset_add (λ item, getFullYear (StockItem.collectedAt item))
              (stockItems ds) [] (NoDup_nil_2)) as [Hnd1 Hmem1].
  destruct (fold_jsset_add Price.year (prices ds) [] (NoDup_nil_2)) as [Hnd2 Hmem2].
  unfold getAllYears, getPriceYears. repeat split.
  - rewrite sortDesc_perm. intros [Hy|Hy]%Hmem1; [by apply elem_of_nil in Hy|exact Hy].
  - intros Hy. rewrite sortDesc_perm. apply Hmem1. by right.
  - by apply sortDesc_strictlyDescending.
  - rewrite sortDesc_perm. intros [Hy|Hy]%Hmem2; [by apply elem_of_nil in Hy|exact Hy].
  - intros Hy. rewrite sortDesc_perm. apply Hmem2. by right.
  - by apply sortDesc_strictlyDescending.
Qed.

(** ** Yearly profit of one user and of all users *)

(** The records that the yearly profit is computed from are the records
    of the user with both prices above zero and a type that the filter lets
    through. *)
Lemma salesOfUser_countedFor userId typeFilter ds :
  salesOfUser userId typeFilter ds
  = filter (countedFor userId typeFilter) (stockItems ds).
Proof.
  unfold salesOfUser, countedFor, typeSelected, isProperSale.
  destruct typeFilter as [t|]; rewrite ?list_filter_filter;
    apply list_filter_iff; intros item;
    rewrite Is_true_true, andb_true_iff, <- !exceeds_gt; tauto.
Qed.

(** X7.  The yearly profit of a user has a bucket for a year exactly when
    the ledger has a record of the user, of a type that the filter lets
    through, with both prices above zero, collected in that year; the bucket
    then holds the sums over those records, in ledger order, of the revenue
    ([totalRevenue || totalPrice || 0]), of the cost ([totalCost || 0]) and
    of the profit ([totalProfit], or revenue minus cost when it is missing),
    and their number.  The result is the same for any two ledgers with the
    same such records in the same order: every other record, of this user or
    of another, can be removed without changing it. *)
Theorem getUserProfitByYear_buckets
    (userId : string) (typeFilter : option Category) (ds : DataStore) :
  (∀ y,
     getUserProfitByYear userId typeFilter ds !! y
     = match filter (λ item, countedFor userId typeFilter item
                             ∧ getFullYear (StockItem.collectedAt item) = y)
                    (stockItems ds) with
       | [] => None
       | item :: items =>
           Some (YearData.mk
                   (sumOver (λ item, Js.or_else (StockItem.totalRevenue item)
                                       (Js.or_else (StockItem.totalPrice item) 0))
                            (item :: items))
                   (sumOver (λ item, Js.or_else (StockItem.totalCost item) 0)
                            (item :: items))
                   (sumOver (λ item,
                               match StockItem.totalProfit item with
                               | Some profit => profit
                               | None =>
                                   Js.or_else (StockItem.totalRevenue item)
                                     (Js.or_else (StockItem.totalPrice item) 0)
                                   - Js.or_else (StockItem.totalCost item) 0
                               end)
                            (item :: items))
                   (Z.of_nat (length (item :: items))))
       end)
  ∧ (∀ ds',
       filter (countedFor userId typeFilter) (stockItems ds')
       = filter (countedFor userId typeFilter) (stockItems ds) →
       getUserProfitByYear userId typeFilter ds'
       = getUserProfitByYear userId typeFilter ds)
  ∧ getUserProfitByYear userId typeFilter
      (set_stockItems ds (filter (countedFor userId typeFilter) (stockItems ds)))
    = getUserProfitByYear userId typeFilter ds.
Proof.
  assert (Hsame : ∀ ds',
             filter (countedFor userId typeFilter) (stockItems ds')
             = filter (countedFor userId typeFilter) (stockItems ds) →
             getUserProfitByYear userId typeFilter ds'
             = getUserProfitByYear userId typeFilter ds).
  { intros ds' Hds'. unfold getUserProfitByYear.
    by rewrite !salesOfUser_countedFor, Hds'. }
  split; [|split; [exact Hsame|]].
  - intros y. rewrite getUserProfitByYear_lookup, salesOfUser_countedFor.
    rewrite list_filter_filter.
    assert (Hfilter : filter (λ item, getFullYear (StockItem.collectedAt item) = y
                                      ∧ countedFor userId typeFilter item)
                        (stockItems ds)
                      = filter (λ item, countedFor userId typeFilter item
                                        ∧ getFullYear (StockItem.collectedAt item) = y)
                          (stockItems ds)).
    { apply list_filter_iff. intros item. tauto. }
    rewrite Hfilter. reflexivity.
  - apply Hsame. cbn [stockItems set_stockItems].
    rewrite list_filter_filter. apply list_filter_iff. intros item. tauto.
Qed.

(** What the inner loop of [getAllUsersSalesByYear] does to the total of
    one year: it adds the bucket that the user has for that year, if any. *)
Lemma fold_addYearTotals_list (es : list (Z * YearData.t))
    (totals : gmap Z YearData.t) (y : Z) :
  NoDup es.*1 →
  fold_left addYearTotals es totals !! y
  = match (list_to_map es : gmap Z YearData.t) !! y with
    | None => totals !! y
    | Some data => Some (plusBucket (default YearData.zero (totals !! y)) data)
    end.
Proof.
  revert totals. induction es as [|[k d] es IH]; intros totals Hnd.
  - simpl. by rewrite lookup_empty.
  - cbn [fmap list_fmap fst] in Hnd. apply NoDup_cons in Hnd as [Hk Hnd].
    cbn [fold_left]. rewrite IH by done. rewrite list_to_map_cons.
    unfold addYearTotals at 1 2. cbn [fst snd].
    destruct (decide (k = y)) as [->|Hne].
    + rewrite !lookup_insert_eq.
      by rewrite (not_elem_of_list_to_map_1 _ _ Hk).
    + by rewrite !lookup_insert_ne.
Qed.

Lemma objectEntries_to_map (salesByYear : gmap Z YearData.t) :
  NoDup (objectEntries salesByYear).*1
  ∧ (list_to_map (objectEntries salesByYear) : gmap Z YearData.t) = salesByYear.
Proof.
  unfold objectEntries.
  assert (Hperm : merge_sort yearBefore (map_to_list salesByYear)
                  ≡ₚ map_to_list salesByYear) by apply merge_sort_Permutation.
  assert (Hnd : NoDup (merge_sort yearBefore (map_to_list salesByYear)).*1).
  { rewrite Hperm. apply NoDup_fst_map_to_list. }
  split; [exact Hnd|].
  rewrite (list_to_map_proper _ _ Hnd Hperm). apply list_to_map_to_list.
Qed.

Lemma fold_addYearTotals (salesByYear totals : gmap Z YearData.t) (y : Z) :
  fold_left addYearTotals (objectEntries salesByYear) totals !! y
  = match salesByYear !! y with
    | None => totals !! y
    | Some data => Some (plusBucket (default YearData.zero (totals !! y)) data)
    end.
Proof.
  destruct (objectEntries_to_map salesByYear) as [Hnd Hmap].
  by rewrite (fold_addYearTotals_list _ _ _ Hnd), Hmap.
Qed.

(** The total of one year after the outer loop: the buckets of the users
    that have one, added in the order of the users. *)
Lemma fold_users_totals {U} (perUser : list (U * gmap Z YearData.t))
    (totals : gmap Z YearData.t) (y : Z) :
  fold_left
    (λ totals userEntry, fold_left addYearTotals (objectEntries userEntry.2) totals)
    perUser totals !! y
  = match omap (λ userEntry, userEntry.2 !! y) perUser with
    | [] => totals !! y
    | data :: rest =>
        Some (fold_left plusBucket (data :: rest)
                (default YearData.zero (totals !! y)))
    end.
Proof.
  revert totals. induction perUser as [|[user sales] perUser IH]; intros totals;
    [reflexivity|].
  cbn [fold_left omap list_omap snd]. rewrite IH, fold_addYearTotals.
  destruct (sales !! y) as [data|]; [|reflexivity].
  by destruct (omap (λ userEntry, userEntry.2 !! y) perUser).
Qed.

(** X8.  [getAllUsersSalesByYear] pairs every registered user with that
    user's yearly profit, and its system-wide total for a year is the
    field-by-field sum, in the order of the users, of the buckets that the
    users have for that year; a year for which no user has a bucket has no
    total. *)
Theorem getAllUsersSalesByYear_totals
    (typeFilter : option Category) (ds : DataStore) :
  let result := getAllUsersSalesByYear typeFilter ds in
  (salesUsers result).*1 = getAllUsers ds
  ∧ (∀ user sales, (user, sales) ∈ salesUsers result →
                   sales = getUserProfitByYear (User.id user) typeFilter ds)
  ∧ ∀ y,
      totalsByYear result !! y
      = match omap (λ userEntry, userEntry.2 !! y) (salesUsers result) with
        | [] => None
        | data :: rest => Some (sumBuckets (data :: rest))
        end.
Proof.
  intros result. unfold result, getAllUsersSalesByYear.
  cbn [salesUsers totalsByYear]. split; [|split].
  - rewrite <- list_fmap_compose. apply list_fmap_id.
  - by intros user sales (u & [= -> ->] & _)%list_elem_of_fmap.
  - intros y. rewrite fold_users_totals, lookup_empty. reflexivity.
Qed.

(** ** Rows of the inventory *)

Lemma inventoryItems_elem_of userId typeFilter speciesFilter ds item :
  item ∈ inventoryItems userId typeFilter speciesFilter ds →
  item ∈ stockItems ds
  ∧ StockItem.userId item = userId
  ∧ (∀ t, typeFilter = Some t → Js.nonempty t = true →
          categoryName (StockItem.type item) = t)
  ∧ (∀ s, speciesFilter = Some s → Js.nonempty s = true →
          StockItem.species item = s).
Proof.
  rewrite inventoryItems_stocked, list_elem_of_filter.
  intros [(Hu & Ht & Hs) Hin]. split; [exact Hin|]. split; [exact Hu|]. split.
  - intros t -> Hne%nonempty_true. by destruct Ht.
  - intros sp -> Hne%nonempty_true. by destruct Hs.
Qed.

(** The record behind a row. *)
Lemma getAvailableInventory_row_item userId typeFilter speciesFilter ds row :
  row ∈ getAvailableInventory userId typeFilter speciesFilter ds →
  ∃ item,
    item ∈ stockItems ds
    ∧ StockItem.userId item = userId
    ∧ StockItem.type item = InventoryRow.type row
    ∧ StockItem.species item = InventoryRow.species row
    ∧ (∀ t, typeFilter = Some t → Js.nonempty t = true →
            categoryName (InventoryRow.type row) = t)
    ∧ (∀ s, speciesFilter = Some s → Js.nonempty s = true →
            InventoryRow.species row = s).
Proof.
  unfold getAvailableInventory, jsmap_values.
  set (items := inventoryItems userId typeFilter speciesFilter ds).
  set (m := fold_left countItem items []).
  intros (inv & -> & ([k v] & -> & Hin)%list_elem_of_fmap)%list_elem_of_fmap.
  cbn [snd toRow InventoryRow.type InventoryRow.species].
  pose proof (fold_countItem_keyed items k v Hin) as Hk.
  pose proof (jsmap_elem_of_get _ _ _ (fold_countItem_NoDup items) Hin) as Hget.
  fold m in Hget. subst k. unfold m in Hget. rewrite fold_countItem_get in Hget.
  destruct (filter (inGroup (Inventory.type v) (Inventory.species v)) items)
    as [|item group] eqn:Hgroup; [discriminate|].
  assert (Hitem : item ∈ filter (inGroup (Inventory.type v) (Inventory.species v)) items)
    by (rewrite Hgroup; apply list_elem_of_here).
  apply list_elem_of_filter in Hitem as [[Ht Hs] Hitem].
  apply inventoryItems_elem_of in Hitem as (Hin' & Hu & Htf & Hsf).
  exists item. repeat split; try assumption.
  - intros t Htype Hne. rewrite <- Ht. by apply Htf.
  - intros s Hsome Hne. rewrite <- Hs. by apply Hsf.
Qed.

(** X9.  Every row of [getAvailableInventory] stands for at least one
    record: some ledger record of the user has the row's type and species
    and passes the (non-empty) type filter and the (non-empty) species
    filter.  So a user without records gets no rows, and no row is made up
    for a type or species that was filtered out. *)
Theorem getAvailableInventory_rows
    (userId : string) (typeFilter : option string) (speciesFilter : option string)
    (ds : DataStore) (row : InventoryRow.t) :
  row ∈ getAvailableInventory userId typeFilter speciesFilter ds →
  ∃ item,
    item ∈ stockItems ds
    ∧ StockItem.userId item = userId
    ∧ StockItem.type item = InventoryRow.type row
    ∧ StockItem.species item = InventoryRow.species row
    ∧ (∀ t, typeFilter = Some t → Js.nonempty t = true →
            categoryName (InventoryRow.type row) = t)
    ∧ (∀ s, speciesFilter = Some s → Js.nonempty s = true →
            InventoryRow.species row = s).
Proof. apply getAvailableInventory_row_item. Qed.

Lemma getAvailableInventory_rows_witness :
  ∃ item,
    item ∈ stockItems oversold
    ∧ StockItem.userId item = "u1"
    ∧ StockItem.type item = berry
    ∧ StockItem.species item = "blueberry".
Proof.
  destruct (getAvailableInventory_rows "u1" None None oversold
              (InventoryRow.mk berry "blueberry" 100 300 (-200)))
    as (item & Hin & Hu & Ht & Hs & _).
  - apply list_elem_of_here.
  - exists item. by repeat split.
Defined.

(** The name of a type is a string that the check of the controllers
    accepts, for that type. *)
Lemma categoryOfString_name c : categoryOfString (categoryName c) = Some c.
Proof. by destruct c. Qed.

Lemma categoryName_inv c t : categoryName c = t → categoryOfString t = Some c.
Proof. intros <-. apply categoryOfString_name. Qed.

(** X19.  The handler [getAvailableInventory] never changes the store.  It
    answers 400 for an empty user id and 404 for a user that is not
    registered; otherwise it answers 200 with the rows that the store
    computes from the type and the species of the query as they are.  Every
    row then stands for a ledger record of that user with the row's type
    and species, and with a type filter that is not empty and is neither
    [berry] nor [mushroom] there are no rows. *)
Theorem controller_getAvailableInventory_spec
    (userId : string) (type species : option string) (ds : DataStore) :
  snd (StockController.getAvailableInventory userId type species ds) = ds
  ∧ match fst (StockController.getAvailableInventory userId type species ds) with
    | Success status rows =>
        status = 200%Z
        ∧ userId ≠ ""
        ∧ is_Some (getUserById userId ds)
        ∧ rows = getAvailableInventory userId type species ds
        ∧ (∀ row, row ∈ rows →
                  ∃ item,
                    item ∈ stockItems ds
                    ∧ StockItem.userId item = userId
                    ∧ StockItem.type item = InventoryRow.type row
                    ∧ StockItem.species item = InventoryRow.species row)
        ∧ (∀ t, type = Some t → t ≠ "" → categoryOfString t = None → rows = [])
    | Failed status error =>
        (status = 400%Z ∧ error = StockController.UserIdRequired ∧ userId = "")
        ∨ (status = 404%Z ∧ error = StockController.UserNotFound
           ∧ getUserById userId ds = None)
    end.
Proof.
  unfold StockController.getAvailableInventory.
  destruct (Js.nonempty userId) eqn:Hid; cbn [negb].
  - apply nonempty_true in Hid.
    destruct (getUserById userId ds) as [user|] eqn:Huser; cbn [fst snd].
    + split; [reflexivity|]. split; [reflexivity|]. split; [exact Hid|].
      split; [by eexists|]. split; [reflexivity|]. split.
      * intros row Hrow.
        destruct (getAvailableInventory_row_item _ _ _ _ _ Hrow)
          as (item & Hin & Hu & Ht & Hs & _).
        by exists item.
      * intros t -> Hne%nonempty_true Hcat.
        destruct (getAvailableInventory userId (Some t) species ds)
          as [|row rows] eqn:Hrows; [reflexivity|].
        assert (Hrow : row ∈ getAvailableInventory userId (Some t) species ds)
          by (rewrite Hrows; apply list_elem_of_here).
        destruct (getAvailableInventory_row_item _ _ _ _ _ Hrow)
          as (_ & _ & _ & _ & _ & Htype & _).
        specialize (Htype t eq_refl Hne). apply categoryName_inv in Htype.
        congruence.
    + split; [reflexivity|]. right. by repeat split.
  - split; [reflexivity|]. left. repeat split.
    apply not_true_iff_false in Hid. rewrite nonempty_true in Hid.
    by apply dec_stable in Hid.
Qed.

(** ** Price entries: writing and reading back *)

Lemma createPrice_elem_of uuid now d ds :
  fst (createPrice uuid now d ds) ∈ prices (snd (createPrice uuid now d ds))
  ∧ sameTriple d (fst (createPrice uuid now d ds))
  ∧ Price.buyPrice (fst (createPrice uuid now d ds)) = Some (PriceData.buyPrice d)
  ∧ Price.sellPrice (fst (createPrice uuid now d ds)) = Some (PriceData.sellPrice d)
  ∧ Price.updatedAt (fst (createPrice uuid now d ds)) = now.
Proof.
  unfold createPrice.
  destruct (list_find (sameTriple d) (prices ds)) as [[i old]|] eqn:Hfind;
    cbn [fst snd prices set_prices].
  - apply list_find_Some in Hfind as (Hi & _ & _).
    repeat split. apply list_elem_of_lookup. exists i.
    apply list_lookup_insert_eq. by eapply lookup_lt_Some.
  - repeat split. apply elem_of_app. right. apply list_elem_of_here.
Qed.

(** X10.  In every state that the store can get into, after
    [createPrice(priceData)] the entry returned carries the given buy price,
    sell price and the time of the call, it is the only entry of the table
    for the given type, species and year, and it is what [getCurrentPrice]
    returns for that type and species when the current year is that year. *)
Theorem createPrice_getCurrentPrice
    (uuid : string) (now : JsDate) (d : PriceData.t) (ds : DataStore) :
  reachable ds →
  let created := createPrice uuid now d ds in
  Price.buyPrice created.1 = Some (PriceData.buyPrice d)
  ∧ Price.sellPrice created.1 = Some (PriceData.sellPrice d)
  ∧ Price.updatedAt created.1 = now
  ∧ (∀ p, p ∈ prices created.2 → sameTriple d p ↔ p = created.1)
  ∧ getCurrentPrice (PriceData.year d) (PriceData.type d) (PriceData.species d)
      created.2
    = Some created.1.
Proof.
  intros Hreach created.
  assert (Hu : uniqueTriples (prices created.2)).
  { apply (reachable_uniqueTriples (run (CreatePrice uuid now d) ds)).
    by apply reachable_run. }
  destruct (createPrice_elem_of uuid now d ds) as (Hin & Hsame & Hb & Hs & Hat).
  fold created in Hin, Hsame, Hb, Hs, Hat.
  assert (Honly : ∀ p, p ∈ prices created.2 → sameTriple d p → p = created.1).
  { intros p Hp Hpd. apply (uniqueTriples_elem_of _ _ _ Hu Hp Hin).
    apply sameTriple_priceKey in Hpd, Hsame. congruence. }
  split; [exact Hb|]. split; [exact Hs|]. split; [exact Hat|]. split.
  - intros p Hp. split; [by apply Honly|by intros ->].
  - unfold getCurrentPrice.
    destruct (list_find _ (prices created.2)) as [[i found]|] eqn:Hfind.
    + apply list_find_Some in Hfind as (Hi & [[Ht Hsp] Hy] & _).
      f_equal. apply Honly; [apply list_elem_of_lookup; eauto|by repeat split].
    + apply list_find_None in Hfind. rewrite Forall_forall in Hfind.
      destruct (Hfind _ Hin). destruct Hsame as (? & ? & ?). by repeat split.
Qed.

Lemma createPrice_getCurrentPrice_witness :
  getCurrentPrice 2024 berry "blueberry"
    (snd (createPrice "p2" (mkDate 2025 0) (PriceData.mk berry "blueberry" 2024 3 7)
            onePrice))
  = Some (Price.mk "p1" berry "blueberry" 2024 (Some 3) (Some 7) (mkDate 2025 0)).
Proof.
  apply (createPrice_getCurrentPrice "p2" (mkDate 2025 0)
           (PriceData.mk berry "blueberry" 2024 3 7) onePrice).
  apply reachable_run, reachable_new.
Defined.

(** What [updatePrice] does when it finds the entry. *)
Lemma updatePrice_found id now u ds i old :
  list_find (λ price, Price.id price = id) (prices ds) = Some (i, old) →
  ∃ r,
    r = Price.mk id (Price.type old) (Price.species old) (Price.year old)
          (spread (Price.buyPrice old) (PriceUpdates.buyPrice u))
          (spread (Price.sellPrice old) (PriceUpdates.sellPrice u)) now
    ∧ updatePrice id now u ds = (Some r, set_prices ds (<[i := r]> (prices ds)))
    ∧ getPriceById id (set_prices ds (<[i := r]> (prices ds))) = Some r
    ∧ (∀ id', id' ≠ id →
              getPriceById id' (set_prices ds (<[i := r]> (prices ds)))
              = getPriceById id' ds).
Proof.
  intros Hfind. unfold updatePrice, getPriceById. rewrite Hfind.
  destruct (list_find_split _ _ _ _ Hfind) as (l1 & l2 & Hl & Hlen & Hid & Hb).
  rewrite Hid. eexists. split; [reflexivity|]. split; [reflexivity|].
  cbn [prices set_prices].
  assert (Hins : ∀ r, <[i := r]> (prices ds) = l1 ++ r :: l2).
  { intros r. rewrite Hl, <- Hlen. rewrite insert_app_r_alt by lia.
    by rewrite Nat.sub_diag. }
  rewrite Hins. split.
  - by rewrite (list_find_middle _ l1 _ l2 Hb).
  - intros id' Hne. rewrite Hl. apply list_find_replace; simpl; congruence.
Qed.

(** X11.  [deletePrice(id)] returns true exactly when an entry with that id
    is stored; it then removes the first such entry and keeps the others in
    order, and otherwise it changes nothing.  [updatePrice(id, updates)] on
    an id that is not stored returns [null] and changes nothing; on a stored
    id it keeps id, type, species and year, leaves a price as it was when
    the update has no key for it and otherwise gives it what the key holds,
    be it [undefined], stamps the entry with the time of the call, and
    leaves the table at its length; the entry is then the one found under
    the id, and the entry found under any other id is the same as before. *)
Theorem deletePrice_updatePrice_spec (id : string) (ds : DataStore) :
  (fst (deletePrice id ds) = true
   ↔ ∃ price, price ∈ prices ds ∧ Price.id price = id)
  ∧ (fst (deletePrice id ds) = true →
     ∃ before price after,
       prices ds = before ++ price :: after
       ∧ Price.id price = id
       ∧ Forall (λ p, Price.id p ≠ id) before
       ∧ snd (deletePrice id ds)
         = mkStore (users ds) (stockItems ds) (before ++ after))
  ∧ (fst (deletePrice id ds) = false → snd (deletePrice id ds) = ds)
  ∧ ∀ now u,
      match getPriceById id ds with
      | None => updatePrice id now u ds = (None, ds)
      | Some old =>
          ∃ r,
            fst (updatePrice id now u ds) = Some r
            ∧ Price.id r = id
            ∧ priceKey r = priceKey old
            ∧ (PriceUpdates.buyPrice u = None → Price.buyPrice r = Price.buyPrice old)
            ∧ (∀ v, PriceUpdates.buyPrice u = Some v → Price.buyPrice r = v)
            ∧ (PriceUpdates.sellPrice u = None →
               Price.sellPrice r = Price.sellPrice old)
            ∧ (∀ v, PriceUpdates.sellPrice u = Some v → Price.sellPrice r = v)
            ∧ Price.updatedAt r = now
            ∧ getPriceById id (snd (updatePrice id now u ds)) = Some r
            ∧ (∀ id', id' ≠ id →
                      getPriceById id' (snd (updatePrice id now u ds))
                      = getPriceById id' ds)
            ∧ length (prices (snd (updatePrice id now u ds))) = length (prices ds)
            ∧ users (snd (updatePrice id now u ds)) = users ds
            ∧ stockItems (snd (updatePrice id now u ds)) = stockItems ds
      end.
Proof.
  split; [|split; [|split]].
  - unfold deletePrice.
    destruct (list_find (λ price, Price.id price = id) (prices ds))
      as [[i x]|] eqn:Hfind; cbn [fst].
    + split; [|reflexivity]. intros _.
      apply list_find_Some in Hfind as (Hi & Hid & _).
      exists x. split; [|exact Hid]. apply list_elem_of_lookup. eauto.
    + split; [discriminate|]. intros Hex.
      apply (list_find_is_Some (λ price, Price.id price = id)) in Hex.
      rewrite Hfind in Hex. by destruct Hex.
  - unfold deletePrice.
    destruct (list_find (λ price, Price.id price = id) (prices ds))
      as [[i x]|] eqn:Hfind; cbn [fst snd]; [|discriminate].
    destruct (list_find_split _ _ _ _ Hfind) as (l1 & l2 & Hl & Hlen & Hid & Hb).
    intros _. exists l1, x, l2. repeat split; try assumption.
    unfold set_prices. f_equal. rewrite Hl, <- Hlen. apply delete_middle.
  - unfold deletePrice.
    by destruct (list_find (λ price, Price.id price = id) (prices ds)) as [[i x]|].
  - intros now u. unfold getPriceById at 1.
    destruct (list_find (λ price, Price.id price = id) (prices ds))
      as [[i old]|] eqn:Hfind; cbn [fmap option_fmap option_map snd].
    + destruct (updatePrice_found id now u ds i old Hfind)
        as (r & -> & -> & Hback & Hothers).
      eexists. cbn [fst snd]. split; [reflexivity|].
      cbn [Price.id Price.buyPrice Price.sellPrice Price.updatedAt priceKey
           Price.type Price.species Price.year].
      apply list_find_Some in Hfind as (Hi & <- & _).
      split; [reflexivity|]. split; [reflexivity|].
      split; [by intros ->|]. split; [by intros v ->|].
      split; [by intros ->|]. split; [by intros v ->|].
      split; [reflexivity|]. split; [exact Hback|]. split; [exact Hothers|].
      split; [apply length_insert|by split].
    + unfold updatePrice. by rewrite Hfind.
Qed.

(** ** The handlers of the stock controller *)

Lemma isBuyItem_not_isSale item :
  StockController.isBuyItem item = true → isSale item = false.
Proof.
  unfold StockController.isBuyItem, isSale. intros [Hzero _]%andb_true_iff.
  destruct (Js.gt (StockItem.sellPrice item) 0) eqn:Hgt; [|reflexivity].
  apply gt_excludes_zero in Hgt. congruence.
Qed.

(** X12.  [deleteBuyItem] answers 200 only after removing the first record
    with the id, and only when that record is a buy item (sell price equal to
    zero and buy price above zero), so never a sale; every other record is
    kept.  In every other case the store is unchanged: the answer is 400 for
    an empty id, 404 when no record has the id, and 400 when the record found
    is not a buy item. *)
Theorem deleteBuyItem_spec (id : string) (ds : DataStore) :
  match fst (StockController.deleteBuyItem id ds) with
  | Success status _ =>
      status = 200%Z
      ∧ ∃ before item after,
          stockItems ds = before ++ item :: after
          ∧ StockItem.id item = id
          ∧ Forall (λ x, StockItem.id x ≠ id) before
          ∧ StockController.isBuyItem item = true
          ∧ isSale item = false
          ∧ snd (StockController.deleteBuyItem id ds)
            = mkStore (users ds) (before ++ after) (prices ds)
  | Failed status error =>
      snd (StockController.deleteBuyItem id ds) = ds
      ∧ ((status = 400%Z ∧ error = StockController.BuyItemIdRequired ∧ id = "")
         ∨ (status = 404%Z ∧ error = StockController.BuyItemNotFound
            ∧ getStockItemById id ds = None)
         ∨ (status = 400%Z ∧ error = StockController.NotABuyItem
            ∧ ∃ item, getStockItemById id ds = Some item
                      ∧ StockController.isBuyItem item = false))
  end.
Proof.
  unfold StockController.deleteBuyItem, getStockItemById, deleteStockItem.
  destruct id as [|c id']; [simpl; split; [reflexivity|by left]|].
  cbn [Js.nonempty negb].
  destruct (list_find _ (stockItems ds)) as [[i x]|] eqn:Hfind;
    cbn [fmap option_fmap option_map snd fst negb].
  - destruct (StockController.isBuyItem x) eqn:Hbuy; cbn [negb fst snd].
    + destruct (list_find_split _ _ _ _ Hfind) as (l1 & l2 & Hl & Hlen & Hid & Hb).
      split; [reflexivity|]. exists l1, x, l2.
      repeat split; try assumption.
      * by apply isBuyItem_not_isSale.
      * unfold set_stockItems. f_equal. rewrite Hl, <- Hlen. apply delete_middle.
    + split; [reflexivity|]. right. right. repeat split. by exists x.
  - split; [reflexivity|]. right. left. by repeat split.
Qed.

Lemma negative_false q : negative (Some q) = false → 0 <= q.
Proof. unfold negative. rewrite negb_false_iff. apply Qle_bool_iff. Qed.

Lemma notPositive_false q : notPositive q = false → 0 < q.
Proof.
  unfold notPositive. rewrite <- not_true_iff_false, Qle_bool_iff.
  apply Qnot_le_lt.
Qed.

Lemma formula_nonneg q p : 0 < q → 0 <= p → 0 <= q * p / 1000.
Proof.
  intros Hq Hp. apply Qle_shift_div_l; [reflexivity|].
  rewrite Qmult_0_l. apply Qmult_le_0_compat; [by apply Qlt_le_weak|exact Hp].
Qed.

(** A record that is not a proper sale does not change the sales of any user. *)
Lemma salesOfUser_snoc_other userId typeFilter ds item :
  isProperSale item = false →
  salesOfUser userId typeFilter (set_stockItems ds (stockItems ds ++ [item]))
  = salesOfUser userId typeFilter ds.
Proof.
  intros Hitem. unfold salesOfUser. cbn [stockItems set_stockItems].
  assert (H : filter (λ item, isProperSale item)
                (filter (λ item, StockItem.userId item = userId)
                   (stockItems ds ++ [item]))
              = filter (λ item, isProperSale item)
                  (filter (λ item, StockItem.userId item = userId) (stockItems ds))).
  { rewrite !list_filter_filter, filter_app.
    rewrite (filter_cons_False _ item); [by rewrite filter_nil, app_nil_r|].
    intros [Hp _]. apply Is_true_true in Hp. congruence. }
  by rewrite H.
Qed.

(** The two ways in which [createBuyItem] ends. *)
Lemma createBuyItem_cases trim uuid now body ds :
  (∃ status error,
     StockController.createBuyItem trim uuid now body ds = (Failed status error, ds)
     ∧ (status = 400%Z ∨ status = 404%Z))
  ∨ (∃ userId type species quantity buyPrice category,
       body = StockController.mkBuyRequest (Some userId) (Some type) (Some species)
                (Some quantity) (Some buyPrice)
                (StockController.buy_location body) (StockController.buy_notes body)
       ∧ categoryOfString type = Some category
       ∧ 0 < quantity ∧ 0 <= buyPrice
       ∧ is_Some (getUserById userId ds)
       ∧ StockController.createBuyItem trim uuid now body ds
         = (Success 201
              (newStockItem uuid now
                 (StockItemData.mk userId category (trim species) quantity
                    (Some 0) (Some buyPrice) (Some 0)
                    (StockController.trimmedLocation trim
                       (StockController.buy_location body))
                    (trim <$> StockController.buy_notes body))),
            mkStore (users ds)
              (stockItems ds
               ++ [newStockItem uuid now
                     (StockItemData.mk userId category (trim species) quantity
                        (Some 0) (Some buyPrice) (Some 0)
                        (StockController.trimmedLocation trim
                           (StockController.buy_location body))
                        (trim <$> StockController.buy_notes body))])
              (prices ds))).
Proof.
  unfold StockController.createBuyItem.
  destruct body as [userId type species quantity buyPrice location notes].
  cbn [StockController.buy_userId StockController.buy_type
       StockController.buy_species StockController.buy_quantity
       StockController.buy_buyPrice StockController.buy_location
       StockController.buy_notes].
  repeat case_match; try (left; eexists _, _; split; [reflexivity|by (left + right)]).
  right. eexists _, _, _, _, _, _. split; [reflexivity|].
  split; [eassumption|]. split; [by apply notPositive_false|].
  split; [by apply negative_false|]. split; [by eexists|reflexivity].
Qed.

(** X13.  [createBuyItem] answers 201 only for a request with a registered
    user, a type that is berry or mushroom, a quantity above zero and a buy
    price that is not negative; the record it appends then has that
    quantity and buy price, sell price and unit price 0, revenue 0, and is
    neither a sale nor a proper sale.  Every failure (status 400 or 404)
    leaves the store unchanged.  In no case does the yearly profit of any
    user change. *)
Theorem createBuyItem_spec
    (trim : string → string) (uuid : string) (now : JsDate)
    (body : StockController.CreateBuyItemRequest) (ds : DataStore) :
  match fst (StockController.createBuyItem trim uuid now body ds) with
  | Success status r =>
      status = 201%Z
      ∧ snd (StockController.createBuyItem trim uuid now body ds)
        = mkStore (users ds) (stockItems ds ++ [r]) (prices ds)
      ∧ StockController.buy_userId body = Some (StockItem.userId r)
      ∧ is_Some (getUserById (StockItem.userId r) ds)
      ∧ StockController.buy_quantity body = Some (StockItem.quantity r)
      ∧ 0 < StockItem.quantity r
      ∧ (∃ b, StockController.buy_buyPrice body = Some b ∧ 0 <= b
              ∧ Js.is_num (StockItem.buyPrice r) b)
      ∧ StockItem.sellPrice r = Some 0
      ∧ StockItem.unitPrice r = Some 0
      ∧ Js.is_num (StockItem.totalRevenue r) 0
      ∧ isSale r = false
      ∧ isProperSale r = false
  | Failed status error =>
      (status = 400%Z ∨ status = 404%Z)
      ∧ snd (StockController.createBuyItem trim uuid now body ds) = ds
  end
  ∧ ∀ userId typeFilter,
      getUserProfitByYear userId typeFilter
        (snd (StockController.createBuyItem trim uuid now body ds))
      = getUserProfitByYear userId typeFilter ds.
Proof.
  destruct (createBuyItem_cases trim uuid now body ds)
    as [(status & error & -> & Hstatus)
       |(userId & type & species & quantity & buyPrice & category
         & Hbody & Hcat & Hq & Hb & Huser & ->)].
  - cbn [fst snd]. by repeat split.
  - cbn [fst snd].
    destruct body as [ouser otype ospecies oquantity obuy location notes].
    cbn [StockController.buy_location StockController.buy_notes] in Hbody.
    injection Hbody as -> -> -> -> ->.
    cbn [StockController.buy_userId StockController.buy_quantity
         StockController.buy_buyPrice].
    split.
    + repeat split; try done.
      * exists buyPrice. repeat split; [assumption|]. simpl. apply or_else_zero.
      * simpl. unfold Qeq. simpl. ring.
    + intros uid typeFilter. unfold getUserProfitByYear.
      change (mkStore (users ds) ?l (prices ds)) with (set_stockItems ds l).
      rewrite salesOfUser_snoc_other; reflexivity.
Qed.

Lemma negative_nonneg x : negative x = false → ∀ q, x = Some q → 0 <= q.
Proof. intros H q ->. by apply negative_false. Qed.

Lemma or_else_nonneg x d :
  (∀ q, x = Some q → 0 <= q) → 0 <= d → 0 <= Js.or_else x d.
Proof.
  intros Hx Hd. destruct x as [q|]; simpl; [|exact Hd].
  destruct (Qeq_bool q 0); [exact Hd|by apply Hx].
Qed.

(** The record that the store builds from prices that are not negative. *)
Lemma newStockItem_nonneg uuid now d :
  0 < StockItemData.quantity d →
  (∀ q, StockItemData.unitPrice d = Some q → 0 <= q) →
  (∀ q, StockItemData.buyPrice d = Some q → 0 <= q) →
  (∀ q, StockItemData.sellPrice d = Some q → 0 <= q) →
  ∃ b s revenue cost,
    StockItem.buyPrice (newStockItem uuid now d) = Some b
    ∧ StockItem.sellPrice (newStockItem uuid now d) = Some s
    ∧ StockItem.totalRevenue (newStockItem uuid now d) = Some revenue
    ∧ StockItem.totalCost (newStockItem uuid now d) = Some cost
    ∧ 0 <= b ∧ 0 <= s ∧ 0 <= revenue ∧ 0 <= cost.
Proof.
  intros Hq Hu Hb Hs.
  assert (Hbuy : 0 <= effectiveBuyPrice d).
  { apply or_else_nonneg; [exact Hb|discriminate]. }
  assert (Hsell : 0 <= effectiveSellPrice d).
  { apply or_else_nonneg; [exact Hs|].
    apply or_else_nonneg; [exact Hu|discriminate]. }
  eexists _, _, _, _. repeat split; try reflexivity; try assumption.
  - by apply formula_nonneg.
  - by apply formula_nonneg.
Qed.

(** The two ways in which the handler [createStockItem] ends. *)
Lemma controller_createStockItem_cases trim uuid now body ds :
  (∃ status error,
     StockController.createStockItem trim uuid now body ds
     = (Failed status error, ds)
     ∧ (status = 400%Z ∨ status = 404%Z))
  ∨ (∃ userId type species quantity category,
       StockController.req_userId body = Some userId
       ∧ StockController.req_type body = Some type
       ∧ StockController.req_species body = Some species
       ∧ StockController.req_quantity body = Some quantity
       ∧ categoryOfString type = Some category
       ∧ 0 < quantity
       ∧ (is_Some (StockController.req_unitPrice body)
          ∨ is_Some (StockController.req_sellPrice body))
       ∧ negative (StockController.req_unitPrice body) = false
       ∧ negative (StockController.req_buyPrice body) = false
       ∧ negative (StockController.req_sellPrice body) = false
       ∧ is_Some (getUserById userId ds)
       ∧ StockController.createStockItem trim uuid now body ds
         = let created :=
             createStockItem uuid now
               (withFinalPrices
                  (StockItemData.mk userId category (trim species) quantity
                     (StockController.req_unitPrice body)
                     (StockController.req_buyPrice body)
                     (StockController.req_sellPrice body)
                     (StockController.trimmedLocation trim
                        (StockController.req_location body))
                     (trim <$> StockController.req_notes body)))
               ds in
           (Success 201 created.1, created.2)).
Proof.
  unfold StockController.createStockItem.
  destruct body as [userId type species quantity unitPrice buyPrice sellPrice
                      location notes].
  cbn [StockController.req_userId StockController.req_type
       StockController.req_species StockController.req_quantity
       StockController.req_unitPrice StockController.req_buyPrice
       StockController.req_sellPrice StockController.req_location
       StockController.req_notes].
  repeat case_match; try (left; eexists _, _; split; [reflexivity|by (left + right)]).
  all: right; eexists _, _, _, _, _.
  all: repeat (split;
               [first [ reflexivity | eassumption | by apply notPositive_false
                      | by eexists | by left; eexists | by right; eexists ]|]).
  all: reflexivity.
Qed.

(** X14.  The handler [createStockItem] answers 201 only for a request
    with a registered user, a type that is berry or mushroom, a quantity
    above zero, a unit price or a sell price, and no negative unit price,
    buy price or sell price.  The record it appends then has the buy price
    of the request, or 0, and as sell price the sell price of the request,
    or else its unit price, or 0; its buy price, sell price, revenue and cost
    are not negative, and its derived fields follow the formulas on its own
    quantity, buy price and sell price.  Every failure (status 400 or 404)
    leaves the store unchanged. *)
Theorem controller_createStockItem_spec
    (trim : string → string) (uuid : string) (now : JsDate)
    (body : StockController.CreateStockItemRequest) (ds : DataStore) :
  match fst (StockController.createStockItem trim uuid now body ds) with
  | Success status r =>
      status = 201%Z
      ∧ snd (StockController.createStockItem trim uuid now body ds)
        = mkStore (users ds) (stockItems ds ++ [r]) (prices ds)
      ∧ StockController.req_userId body = Some (StockItem.userId r)
      ∧ is_Some (getUserById (StockItem.userId r) ds)
      ∧ (∃ type, StockController.req_type body = Some type
                 ∧ categoryOfString type = Some (StockItem.type r))
      ∧ StockController.req_quantity body = Some (StockItem.quantity r)
      ∧ 0 < StockItem.quantity r
      ∧ (is_Some (StockController.req_unitPrice body)
         ∨ is_Some (StockController.req_sellPrice body))
      ∧ (∀ q, StockController.req_unitPrice body = Some q → 0 <= q)
      ∧ (∀ q, StockController.req_buyPrice body = Some q → 0 <= q)
      ∧ (∀ q, StockController.req_sellPrice body = Some q → 0 <= q)
      ∧ StockItem.buyPrice r
        = Some (Js.or_else (StockController.req_buyPrice body) 0)
      ∧ StockItem.sellPrice r
        = Some (Js.or_else (StockController.req_sellPrice body)
                  (Js.or_else (StockController.req_unitPrice body) 0))
      ∧ (∃ b s revenue cost,
           StockItem.buyPrice r = Some b
           ∧ StockItem.sellPrice r = Some s
           ∧ StockItem.totalRevenue r = Some revenue
           ∧ StockItem.totalCost r = Some cost
           ∧ 0 <= b ∧ 0 <= s ∧ 0 <= revenue ∧ 0 <= cost)
      ∧ consistent r
  | Failed status error =>
      (status = 400%Z ∨ status = 404%Z)
      ∧ snd (StockController.createStockItem trim uuid now body ds) = ds
  end.
Proof.
  destruct (controller_createStockItem_cases trim uuid now body ds)
    as [(status & error & -> & Hstatus)
       |(userId & type & species & quantity & category & Hu & Ht & Hsp & Hqty
         & Hcat & Hq & Hprice & Hnu & Hnb & Hns & Huser & ->)].
  - cbn [fst snd]. by split.
  - unfold createStockItem. cbn [fst snd]. rewrite newStockItem_withFinalPrices.
    split; [reflexivity|]. split; [reflexivity|]. split; [exact Hu|].
    split; [exact Huser|]. split; [by exists type|]. split; [exact Hqty|].
    split; [exact Hq|]. split; [exact Hprice|].
    split; [by apply negative_nonneg|]. split; [by apply negative_nonneg|].
    split; [by apply negative_nonneg|].
    split; [reflexivity|]. split; [reflexivity|]. split.
    + apply newStockItem_nonneg; try done; by apply negative_nonneg.
    + apply newStockItem_derived.
Qed.

(** ** The handler of the price controller *)

(** X15.  The handler [createPrice] answers 201 only for a request whose
    type is berry or mushroom, whose year lies between 1900 and ten years
    after the current one, and whose prices are not negative; the entry it
    returns carries that year and those prices and is in the table, users
    and ledger are not touched, and a table without two entries for one
    type, species and year stays so.  Every failure has status 400 and
    leaves the store unchanged. *)
Theorem controller_createPrice_spec
    (trim : string → string) (uuid : string) (today now : JsDate)
    (body : PriceController.CreatePriceRequest) (ds : DataStore) :
  match fst (PriceController.createPrice trim uuid today now body ds) with
  | Success status r =>
      status = 201%Z
      ∧ r ∈ prices (snd (PriceController.createPrice trim uuid today now body ds))
      ∧ PriceController.req_year body = Some (Price.year r)
      ∧ (1900 <= Price.year r <= getFullYear today + 10)%Z
      ∧ (∃ b s,
           PriceController.req_buyPrice body = Some b
           ∧ PriceController.req_sellPrice body = Some s
           ∧ Price.buyPrice r = Some b ∧ Price.sellPrice r = Some s
           ∧ 0 <= b ∧ 0 <= s)
      ∧ (∃ type, PriceController.req_type body = Some type
                 ∧ categoryOfString type = Some (Price.type r))
      ∧ users (snd (PriceController.createPrice trim uuid today now body ds))
        = users ds
      ∧ stockItems (snd (PriceController.createPrice trim uuid today now body ds))
        = stockItems ds
      ∧ (uniqueTriples (prices ds) →
         uniqueTriples
           (prices (snd (PriceController.createPrice trim uuid today now body ds))))
  | Failed status error =>
      status = 400%Z
      ∧ snd (PriceController.createPrice trim uuid today now body ds) = ds
  end.
Proof.
  unfold PriceController.createPrice.
  destruct body as [type species year buyPrice sellPrice].
  cbn [PriceController.req_type PriceController.req_species
       PriceController.req_year PriceController.req_buyPrice
       PriceController.req_sellPrice].
  destruct type as [type|]; [|by split].
  destruct species as [species|]; [|by split].
  destruct year as [year|]; [|by split].
  destruct buyPrice as [buyPrice|]; [|by split].
  destruct sellPrice as [sellPrice|]; [|by split].
  destruct (negb (Js.nonempty type) || negb (Js.nonempty species)
            || bool_decide (year = 0%Z)); [by split|].
  destruct (categoryOfString type) as [category|] eqn:Hcat; [|by split].
  destruct (bool_decide (year < 1900)%Z || bool_decide (getFullYear today + 10 < year)%Z)
    eqn:Hyear; [by split|].
  destruct (negative (Some buyPrice) || negative (Some sellPrice)) eqn:Hneg;
    [by split|].
  apply orb_false_iff in Hyear as [Hlo Hhi]. apply orb_false_iff in Hneg as [Hb Hs].
  apply bool_decide_eq_false in Hlo, Hhi. apply negative_false in Hb, Hs.
  cbn [fst snd].
  set (d := PriceData.mk category (trim species) year buyPrice sellPrice).
  destruct (createPrice_elem_of uuid now d ds) as (Hin & Hsame & Hbuy & Hsell & _).
  destruct Hsame as (Ht & _ & Hy). cbn [PriceData.type PriceData.year d] in Ht, Hy.
  cbn [PriceData.buyPrice PriceData.sellPrice d] in Hbuy, Hsell.
  split; [reflexivity|]. split; [exact Hin|]. rewrite Hy, Ht.
  repeat split; try done; try lia.
  - by exists buyPrice, sellPrice.
  - by exists type.
  - unfold createPrice. by destruct (list_find _ (prices ds)) as [[??]|].
  - unfold createPrice. by destruct (list_find _ (prices ds)) as [[??]|].
  - apply createPrice_uniqueTriples.
Qed.

Lemma negative_true x : negative x = true → ∃ q, x = Some q ∧ q < 0.
Proof.
  destruct x as [q|]; [|discriminate]. unfold negative.
  rewrite negb_true_iff, <- not_true_iff_false, Qle_bool_iff.
  intros H. exists q. split; [reflexivity|by apply Qnot_le_lt].
Qed.

(** X18.  The handler [updatePrice] answers 200 only for a request that
    names a buy price or a sell price, neither of them negative, and an id
    that is stored.  The entry keeps its id, type, species and year, is
    stamped with the time of the call, and each of its two prices is then
    what the request holds for it: the number that the request names, and
    [undefined] for a price that the request does not name, whatever was
    stored.  The entry is the one found under the id afterwards; users and
    ledger are not touched, and a table without two entries for one type,
    species and year stays so.  Every failure leaves the store unchanged: 400
    for a negative price or a request without prices, 404 when the id is not
    stored. *)
Theorem controller_updatePrice_spec
    (id : string) (now : JsDate) (body : PriceController.UpdatePriceRequest)
    (ds : DataStore) :
  match fst (PriceController.updatePrice id now body ds) with
  | Success status r =>
      status = 200%Z
      ∧ (is_Some (PriceController.upd_buyPrice body)
         ∨ is_Some (PriceController.upd_sellPrice body))
      ∧ (∀ q, PriceController.upd_buyPrice body = Some q → 0 <= q)
      ∧ (∀ q, PriceController.upd_sellPrice body = Some q → 0 <= q)
      ∧ (∃ old, getPriceById id ds = Some old ∧ priceKey r = priceKey old)
      ∧ Price.id r = id
      ∧ Price.buyPrice r = PriceController.upd_buyPrice body
      ∧ Price.sellPrice r = PriceController.upd_sellPrice body
      ∧ Price.updatedAt r = now
      ∧ getPriceById id (snd (PriceController.updatePrice id now body ds)) = Some r
      ∧ users (snd (PriceController.updatePrice id now body ds)) = users ds
      ∧ stockItems (snd (PriceController.updatePrice id now body ds))
        = stockItems ds
      ∧ (uniqueTriples (prices ds) →
         uniqueTriples (prices (snd (PriceController.updatePrice id now body ds))))
  | Failed status error =>
      snd (PriceController.updatePrice id now body ds) = ds
      ∧ ((status = 400%Z ∧ error = PriceController.BuyPriceNegative
          ∧ ∃ q, PriceController.upd_buyPrice body = Some q ∧ q < 0)
         ∨ (status = 400%Z ∧ error = PriceController.SellPriceNegative
            ∧ ∃ q, PriceController.upd_sellPrice body = Some q ∧ q < 0)
         ∨ (status = 400%Z ∧ error = PriceController.NoPriceProvided
            ∧ PriceController.upd_buyPrice body = None
            ∧ PriceController.upd_sellPrice body = None)
         ∨ (status = 404%Z ∧ error = PriceController.PriceNotFound
            ∧ getPriceById id ds = None))
  end.
Proof.
  destruct body as [buy sell]. unfold PriceController.updatePrice.
  cbn [PriceController.upd_buyPrice PriceController.upd_sellPrice].
  destruct (negative buy) eqn:Hnb.
  { split; [reflexivity|]. left. repeat split. by apply negative_true. }
  destruct (negative sell) eqn:Hns.
  { split; [reflexivity|]. right. left. repeat split. by apply negative_true. }
  pose proof (negative_nonneg _ Hnb) as Hb. pose proof (negative_nonneg _ Hns) as Hs.
  assert (Hnone : getPriceById id ds = None →
                  ∀ u, updatePrice id now u ds = (None, ds)).
  { unfold getPriceById, updatePrice. intros Hnone u.
    by destruct (list_find _ (prices ds)) as [[??]|]. }
  assert (Hsome : ∀ old, getPriceById id ds = Some old →
                  ∀ u, ∃ i,
                    prices ds !! i = Some old
                    ∧ updatePrice id now u ds
                      = (Some (Price.mk id (Price.type old) (Price.species old)
                                 (Price.year old)
                                 (spread (Price.buyPrice old) (PriceUpdates.buyPrice u))
                                 (spread (Price.sellPrice old)
                                    (PriceUpdates.sellPrice u)) now),
                         set_prices ds
                           (<[i := Price.mk id (Price.type old) (Price.species old)
                                     (Price.year old)
                                     (spread (Price.buyPrice old)
                                        (PriceUpdates.buyPrice u))
                                     (spread (Price.sellPrice old)
                                        (PriceUpdates.sellPrice u)) now]>
                              (prices ds)))
                    ∧ getPriceById id (snd (updatePrice id now u ds))
                      = fst (updatePrice id now u ds)).
  { unfold getPriceById at 1. intros old Hold u.
    destruct (list_find _ (prices ds)) as [[i x]|] eqn:Hfind; [|discriminate].
    injection Hold as ->.
    destruct (updatePrice_found id now u ds i old Hfind) as (r & -> & Hrun & Hback & _).
    exists i. apply list_find_Some in Hfind as (Hi & _ & _).
    split; [exact Hi|]. split; [exact Hrun|]. by rewrite Hrun. }
  destruct (getPriceById id ds) as [old|] eqn:Hold.
  - specialize (Hsome old eq_refl).
    destruct buy as [b|], sell as [q|];
      [| | |split; [reflexivity|]; right; right; left; by repeat split].
    all: cbv zeta.
    all: match goal with
         | |- context [updatePrice _ _ ?u _] =>
             destruct (Hsome u) as (i & Hi & Hrun & Hback); rewrite Hrun in Hback |- *
         end.
    all: cbn [fst snd PriceUpdates.buyPrice PriceUpdates.sellPrice spread] in Hback |- *.
    all: split; [reflexivity|].
    all: split; [first [by left; eexists | by right; eexists]|].
    all: split; [exact Hb|]. all: split; [exact Hs|].
    all: split; [by exists old|].
    all: repeat (split; [first [reflexivity | exact Hback]|]).
    all: intros Hu; unfold uniqueTriples; cbn [prices set_prices].
    all: by rewrite (priceKey_insert_same _ _ old).
  - specialize (Hnone eq_refl).
    destruct buy as [b|], sell as [q|]; cbv zeta; rewrite ?Hnone; cbn [fst snd].
    1-3: split; [reflexivity|]; right; right; right; by repeat split.
    split; [reflexivity|]. right. right. left. by repeat split.
Qed.

(** A price that a request to the handler does not name is lost: after a
    request that names only the buy price, the entry of the one-entry table
    has no sell price, and the analysis of its year has a revenue and a
    profit that are [NaN]. *)
Lemma updatePrice_loses_sellPrice :
  let after :=
    snd (PriceController.updatePrice "p1" (mkDate 2025 0)
           (PriceController.mkUpdateRequest (Some 3) None) onePrice) in
  prices onePrice
  = [Price.mk "p1" berry "blueberry" 2024 (Some 2) (Some 5) (mkDate 2024 0)]
  ∧ prices after
    = [Price.mk "p1" berry "blueberry" 2024 (Some 3) None (mkDate 2025 0)]
  ∧ getPriceProfitAnalysis None after !! 2024%Z
    = Some (PriceYearData.mk None (Some 3) None 1).
Proof. by repeat split. Qed.

(** ** Users *)

Lemma filter_none {A} (P : A → Prop) `{!∀ x, Decision (P x)} (l : list A) :
  Forall (λ x, ¬ P x) l → filter P l = [].
Proof.
  induction 1 as [|x l Hx Hl IH]; [reflexivity|].
  by rewrite filter_cons_False.
Qed.

(** X16.  [getUserById] returns nothing exactly when no registered user
    has the id.  After [createUser] with an id that no user had, the user
    found under that id has the given alias and the totals over the ledger
    records that carry the id as owner, which are 0 when there is none;
    the user found under any other id is the same as before, and ledger and
    prices are not touched. *)
Theorem createUser_getUserById
    (uuid : string) (now : JsDate) (aliasName : string) (ds : DataStore) :
  let created := createUser uuid now aliasName ds in
  (∀ id, getUserById id ds = None
         ↔ Forall (λ user, User.id user ≠ id) (users ds))
  ∧ (getUserById uuid ds = None →
     getUserById uuid created.2
     = Some (User.mk uuid aliasName now
               (sumOver itemRevenue (getStockItemsByUser uuid ds))
               (sumOver itemProfitOrRevenue (getStockItemsByUser uuid ds))))
  ∧ (Forall (λ item, StockItem.userId item ≠ uuid) (stockItems ds) →
     getUserById uuid ds = None →
     getUserById uuid created.2 = Some created.1)
  ∧ (∀ id, id ≠ uuid → getUserById id created.2 = getUserById id ds)
  ∧ stockItems created.2 = stockItems ds
  ∧ prices created.2 = prices ds.
Proof.
  intros created.
  assert (Hnone : ∀ id, getUserById id ds = None
                        ↔ Forall (λ user, User.id user ≠ id) (users ds)).
  { intros id. unfold getUserById.
    destruct (list_find (λ user, User.id user = id) (users ds)) as [[??]|] eqn:Hfind.
    - split; [discriminate|]. intros Hall.
      apply (list_find_None (λ user, User.id user = id)) in Hall. congruence.
    - split; [|reflexivity]. intros _.
      by apply (list_find_None (λ user, User.id user = id)). }
  assert (Hnew : getUserById uuid ds = None →
                 getUserById uuid created.2
                 = Some (User.mk uuid aliasName now
                           (sumOver itemRevenue (getStockItemsByUser uuid ds))
                           (sumOver itemProfitOrRevenue (getStockItemsByUser uuid ds)))).
  { intros Hfresh%Hnone. unfold getUserById, created, createUser.
    cbn [snd users].
    by rewrite (list_find_middle (λ user, User.id user = uuid) _ _ [] Hfresh). }
  split; [exact Hnone|]. split; [exact Hnew|]. split; [|split; [|by split]].
  - intros Hitems Hfresh. rewrite (Hnew Hfresh).
    unfold getStockItemsByUser. by rewrite (filter_none _ _ Hitems).
  - intros id Hne. unfold getUserById, created, createUser.
    cbn [snd users].
    assert (Hfind := list_find_snoc_other (λ user, User.id user = id) (users ds)
                       (User.mk uuid aliasName now 0 0)
                       (λ H : uuid = id, Hne (eq_sym H))).
    destruct (list_find _ (users ds ++ _)) as [[i x]|],
             (list_find _ (users ds)) as [[j y]|];
      simpl in Hfind; try discriminate Hfind; [|reflexivity].
    injection Hfind as ->. reflexivity.
Qed.

(** ** Records of a user by year *)

(** A whole number other than zero is truthy, and a date is in its year
    only. *)
Lemma number_truthy_year (y : Z) :
  y ≠ 0%Z → Js.number_truthy (Js.Num (inject_Z y)) = true.
Proof.
  intros Hy. unfold Js.number_truthy.
  rewrite negb_true_iff, <- not_true_iff_false, Qeq_bool_iff.
  unfold Qeq. simpl. lia.
Qed.

Lemma collectedIn_year (y : Z) item :
  collectedIn (Js.Num (inject_Z y)) item
  ↔ getFullYear (StockItem.collectedAt item) = y.
Proof. unfold collectedIn, Qeq. simpl. lia. Qed.

Lemma number_truthy_false q : q == 0 → Js.number_truthy (Js.Num q) = false.
Proof.
  intros Hq. unfold Js.number_truthy. rewrite negb_false_iff.
  by apply Qeq_bool_iff.
Qed.

(** X17.  [getStockItemsByUserAndYear(userId, year)] with a year that is a
    whole number other than zero returns exactly the records of the user
    collected in that year, and none when [getAllYears()] does not list the
    year; with a number that is not a whole number it returns none; with
    the year 0 or [NaN], as with no year, it returns every record of the
    user.  So the handler [getStockItems], which answers 400 without
    touching the store when the query has no user id, answers with every
    record of the user when the query has no year or an empty one, and also
    when [parseInt] makes [NaN] or 0 of the year. *)
Theorem getStockItemsByUserAndYear_spec (userId : string) (ds : DataStore) :
  (∀ (y : Z) item,
     y ≠ 0%Z →
     item ∈ getStockItemsByUserAndYear userId (Some (Js.Num (inject_Z y))) ds
     ↔ item ∈ stockItems ds ∧ StockItem.userId item = userId
       ∧ getFullYear (StockItem.collectedAt item) = y)
  ∧ (∀ y : Z,
       y ≠ 0%Z → y ∉ getAllYears ds →
       getStockItemsByUserAndYear userId (Some (Js.Num (inject_Z y))) ds = [])
  ∧ (∀ q : Q,
       (∀ y : Z, ¬ inject_Z y == q) →
       getStockItemsByUserAndYear userId (Some (Js.Num q)) ds = [])
  ∧ (∀ q : Q,
       q == 0 →
       getStockItemsByUserAndYear userId (Some (Js.Num q)) ds
       = getStockItemsByUser userId ds)
  ∧ getStockItemsByUserAndYear userId (Some Js.NaN) ds = getStockItemsByUser userId ds
  ∧ getStockItemsByUserAndYear userId None ds = getStockItemsByUser userId ds
  ∧ (∀ parseInt year,
       StockController.getStockItems parseInt
         (StockController.mkStockQuery None year) ds
       = (Failed 400 StockController.UserIdRequired, ds)
       ∧ StockController.getStockItems parseInt
           (StockController.mkStockQuery (Some "") year) ds
         = (Failed 400 StockController.UserIdRequired, ds))
  ∧ (∀ parseInt year,
       userId ≠ "" →
       year = None ∨ year = Some ""
       ∨ (∃ text, year = Some text
                  ∧ (parseInt text = Js.NaN ∨ ∃ q, parseInt text = Js.Num q ∧ q == 0)) →
       StockController.getStockItems parseInt
         (StockController.mkStockQuery (Some userId) year) ds
       = (Success 200 (getStockItemsByUser userId ds), ds))
  ∧ (∀ parseInt text,
       userId ≠ "" → text ≠ "" →
       StockController.getStockItems parseInt
         (StockController.mkStockQuery (Some userId) (Some text)) ds
       = (Success 200
            (getStockItemsByUserAndYear userId (Some (parseInt text)) ds),
          ds)).
Proof.
  assert (Hmem : ∀ (y : Z) item,
             y ≠ 0%Z →
             item ∈ getStockItemsByUserAndYear userId (Some (Js.Num (inject_Z y))) ds
             ↔ item ∈ stockItems ds ∧ StockItem.userId item = userId
               ∧ getFullYear (StockItem.collectedAt item) = y).
  { intros y item Hy. unfold getStockItemsByUserAndYear.
    rewrite (number_truthy_year y Hy).
    rewrite !list_elem_of_filter, collectedIn_year. tauto. }
  assert (Hzero : ∀ q : Q,
             q == 0 →
             getStockItemsByUserAndYear userId (Some (Js.Num q)) ds
             = getStockItemsByUser userId ds).
  { intros q Hq. unfold getStockItemsByUserAndYear.
    by rewrite (number_truthy_false q Hq). }
  assert (Hall : ∀ parseInt year,
             userId ≠ "" →
             year = None ∨ year = Some ""
             ∨ (∃ text, year = Some text
                        ∧ (parseInt text = Js.NaN
                           ∨ ∃ q, parseInt text = Js.Num q ∧ q == 0)) →
             StockController.getStockItems parseInt
               (StockController.mkStockQuery (Some userId) year) ds
             = (Success 200 (getStockItemsByUser userId ds), ds)).
  { intros parseInt year Hu Hyear. unfold StockController.getStockItems.
    cbn [StockController.query_userId StockController.query_year].
    rewrite (proj2 (nonempty_true userId) Hu). cbn [negb].
    destruct Hyear as [-> | [-> | (text & -> & Hparse)]]; try reflexivity.
    unfold StockController.yearNum.
    destruct (Js.nonempty text); [|reflexivity].
    destruct Hparse as [-> | (q & -> & Hq)]; [reflexivity|].
    by rewrite (Hzero q Hq). }
  split; [exact Hmem|]. split; [|split; [|split; [exact Hzero|]]].
  - intros y Hy Hnot.
    destruct (getStockItemsByUserAndYear userId (Some (Js.Num (inject_Z y))) ds)
      as [|item rest] eqn:Hres; [reflexivity|].
    assert (Hitem : item ∈ getStockItemsByUserAndYear userId
                             (Some (Js.Num (inject_Z y))) ds)
      by (rewrite Hres; apply list_elem_of_here).
    apply (Hmem y item Hy) in Hitem as (Hin & _ & Hyear).
    destruct Hnot. unfold getAllYears. rewrite sortDesc_perm.
    apply (fold_jsset_add (λ item, getFullYear (StockItem.collectedAt item))
             (stockItems ds) [] NoDup_nil_2).
    right. by exists item.
  - intros q Hq. unfold getStockItemsByUserAndYear.
    destruct (Js.number_truthy (Js.Num q)) eqn:Htruthy.
    + apply filter_none, Forall_forall. intros item _. apply Hq.
    + exfalso. apply (Hq 0%Z). unfold Js.number_truthy in Htruthy.
      rewrite negb_false_iff in Htruthy. apply Qeq_bool_eq in Htruthy.
      by rewrite Htruthy.
  - split; [reflexivity|]. split; [reflexivity|]. split; [by split|].
    split; [exact Hall|].
    intros parseInt text Hu Htext. unfold StockController.getStockItems.
    cbn [StockController.query_userId StockController.query_year].
    rewrite (proj2 (nonempty_true userId) Hu). cbn [negb].
    unfold StockController.yearNum.
    by rewrite (proj2 (nonempty_true text) Htext).
Qed.
